(** * SoilStory: the browser-side record store and the API client

    A shallow embedding of [SoilStorage] (the localStorage-backed history of
    soil analyses) and of [SoilAPI] (the client of the backend with its demo
    fallback), followed by the properties of the two that the specification
    states.

    Conventions of the embedding:
    - a JavaScript value that went through [JSON.stringify] and
      [JSON.parse] is a [json] tree; [undefined] is [None] in [option json];
    - a number inside such a tree is kept as the decimal text that
      [JSON.stringify] writes for it, which is also what
      [Number.prototype.toString] returns: the store only ever tests a
      number for truthiness, compares it with [===] and prints it;
    - a string stored in localStorage is kept as what [JSON.parse] makes of
      it: the tree it denotes ([Doc]) or, for text that [JSON.parse] rejects,
      the text itself ([Raw]);
    - a string is held as the UTF-8 bytes of its text; [trim] removes the
      white space and line terminators of ECMAScript; [toLowerCase], which
      applies the case mapping of the engine's Unicode tables, is left to
      the engine: the search takes it as an argument;
    - code that reads or writes localStorage runs in a state-and-exception
      monad [js]; a thrown exception keeps the writes made before it. *)

From Stdlib Require Import Ascii QArith Qabs Qround Lqa.
From stdpp Require Import gmap strings list fin_maps pretty.

Set Warnings "-register-all".

Local Open Scope string_scope.
Local Open Scope nat_scope.

(** ** JavaScript values and the string methods the code calls *)
Module Js.

Inductive json :=
  | JNull
  | JBool (b : bool)
  | JNum (text : string)
  | JStr (s : string)
  | JArr (l : list json)
  | JObj (o : gmap string json).

Inductive error :=
  | SecurityError
  | QuotaExceededError
  | SyntaxError
  | TypeError
  | Error (message : string).

Inductive outcome (A : Type) :=
  | Return (a : A)
  | Throw (e : error).
Arguments Return {A} a.
Arguments Throw {A} e.

Definition obind {A B} (o : outcome A) (k : A → outcome B) : outcome B :=
  match o with
  | Return a => k a
  | Throw e => Throw e
  end.

(** [!!v] of JavaScript: [null], [false], [0] and the empty string are falsy;
    arrays and objects are truthy. *)
Definition truthy (v : json) : bool :=
  match v with
  | JNull => false
  | JBool b => b
  | JNum t => negb (String.eqb t "0")
  | JStr s => negb (String.eqb s "")
  | JArr _ | JObj _ => true
  end.

Definition truthy_value (v : option json) : bool :=
  match v with
  | Some v => truthy v
  | None => false
  end.

(** [a === b] on parsed values: primitives by value, arrays and objects by
    reference, and two parsed trees never share a reference. *)
Definition strict_eq (a b : json) : bool :=
  match a, b with
  | JNull, JNull => true
  | JBool x, JBool y => Bool.eqb x y
  | JNum x, JNum y => String.eqb x y
  | JStr x, JStr y => String.eqb x y
  | _, _ => false
  end.

Definition strict_eq_value (a : option json) (b : json) : bool :=
  match a with
  | Some a => strict_eq a b
  | None => false
  end.

(** [v.k] for the property names the code reads ([id], [story], [location],
    [timestamp], [lat], [lon]): a [TypeError] on [null], the member of an
    object, [undefined] on every other value. *)
Definition member (v : json) (k : string) : outcome (option json) :=
  match v with
  | JNull => Throw TypeError
  | JObj o => Return (o !! k)
  | _ => Return None
  end.

(** [{...v}]: the own enumerable properties of [v]. *)
Definition spread (v : json) : gmap string json :=
  match v with
  | JObj o => o
  | JArr l => list_to_map (imap (λ i x, (pretty i, x)) l)
  | JStr s =>
      list_to_map (imap (λ i c, (pretty i, JStr (String c ""))) (String.list_ascii_of_string s))
  | _ => ∅
  end.

Fixpoint join (sep : string) (l : list string) : string :=
  match l with
  | [] => ""
  | [x] => x
  | x :: rest => x +:+ sep +:+ join sep rest
  end.

(** [v.toString()] for a [v] that is neither [undefined] nor [null]. *)
Fixpoint toString (v : json) : string :=
  match v with
  | JNull => "null"
  | JBool b => if b then "true" else "false"
  | JNum t => t
  | JStr s => s
  | JArr l =>
      join "," (List.map (λ x, match x with JNull => "" | _ => toString x end) l)
  | JObj _ => "[object Object]"
  end.

(** [s.trim()] removes from both ends the white space and the line
    terminators of ECMAScript: TAB, LF, VT, FF, CR and SPACE, which are one
    byte of UTF-8 each; NO-BREAK SPACE (U+00A0), which is the two bytes
    C2 A0; and U+1680 (E1 9A 80), U+2000 to U+200A (E2 80 80 to E2 80 8A),
    LINE SEPARATOR U+2028 and PARAGRAPH SEPARATOR U+2029 (E2 80 A8,
    E2 80 A9), U+202F (E2 80 AF), U+205F (E2 81 9F), U+3000 (E3 80 80) and
    U+FEFF (EF BB BF). *)
Definition byte (c : ascii) : N := N_of_ascii c.

Definition space1 (a : ascii) : bool :=
  (byte a =? 32)%N || ((9 <=? byte a)%N && (byte a <=? 13)%N).

Definition space2 (a b : ascii) : bool :=
  (byte a =? 194)%N && (byte b =? 160)%N.

Definition space3 (a b c : ascii) : bool :=
  ((byte a =? 225)%N && (byte b =? 154)%N && (byte c =? 128)%N)
  || ((byte a =? 226)%N && (byte b =? 128)%N
      && (((128 <=? byte c)%N && (byte c <=? 138)%N)
          || (byte c =? 168)%N || (byte c =? 169)%N || (byte c =? 175)%N))
  || ((byte a =? 226)%N && (byte b =? 129)%N && (byte c =? 159)%N)
  || ((byte a =? 227)%N && (byte b =? 128)%N && (byte c =? 128)%N)
  || ((byte a =? 239)%N && (byte b =? 187)%N && (byte c =? 191)%N).

Fixpoint trimStart (s : string) : string :=
  match s with
  | "" => ""
  | String a s1 =>
      if space1 a then trimStart s1
      else
        match s1 with
        | "" => s
        | String b s2 =>
            if space2 a b then trimStart s2
            else
              match s2 with
              | "" => s
              | String c s3 => if space3 a b c then trimStart s3 else s
              end
        end
  end.

(** The text ends where only white space is left. A byte inside a
    character never starts white space, so the test is made at the
    boundaries of characters only. *)
Fixpoint trimEnd (s : string) : string :=
  match s with
  | "" => ""
  | String a s1 => if String.eqb (trimStart s) "" then "" else String a (trimEnd s1)
  end.

Definition trim (s : string) : string := trimEnd (trimStart s).

Fixpoint startsWith (s term : string) : bool :=
  match term, s with
  | "", _ => true
  | String _ _, "" => false
  | String a term', String b s' => Ascii.eqb a b && startsWith s' term'
  end.

(** [s.includes(term)] *)
Fixpoint includes (s term : string) : bool :=
  startsWith s term ||
  match s with
  | "" => false
  | String _ s' => includes s' term
  end.

(** [l.slice(start, end)] with JavaScript's treatment of negative and
    out-of-range indices. *)
Definition relative_index (len i : Z) : Z :=
  if (i <? 0)%Z then Z.max (len + i) 0 else Z.min i len.

Definition slice {A} (l : list A) (start end_ : Z) : list A :=
  let len := Z.of_nat (length l) in
  let from := relative_index len start in
  let to := relative_index len end_ in
  take (Z.to_nat (to - from)) (drop (Z.to_nat from) l).

(** Array callbacks of the store read members of the elements and so may
    throw; [find], [findIndex] and [filter] stop at the first exception. *)
Fixpoint find (cb : json → outcome bool) (l : list json) : outcome (option json) :=
  match l with
  | [] => Return None
  | x :: rest =>
      obind (cb x) (λ hit, if hit then Return (Some x) else find cb rest)
  end.

Fixpoint findIndex_from (i : nat) (cb : json → outcome bool) (l : list json) : outcome Z :=
  match l with
  | [] => Return (-1)%Z
  | x :: rest =>
      obind (cb x) (λ hit,
        if hit then Return (Z.of_nat i) else findIndex_from (S i) cb rest)
  end.

Definition findIndex := findIndex_from 0.

Fixpoint filter (cb : json → outcome bool) (l : list json) : outcome (list json) :=
  match l with
  | [] => Return []
  | x :: rest =>
      obind (cb x) (λ keep,
        obind (filter cb rest) (λ rest', Return (if keep then x :: rest' else rest')))
  end.

(** The methods exist on arrays only ([slice] and [length] also on strings,
    see [getAnalysesPaginated]). *)
Definition as_array (v : json) : outcome (list json) :=
  match v with
  | JArr l => Return l
  | _ => Throw TypeError
  end.

(** Length of the text [JSON.stringify] writes. *)
Definition escaped_length (s : string) : nat :=
  foldr (λ c acc,
    let n := nat_of_ascii c in
    (if (n =? 34) || (n =? 92) then 2
     else if (n =? 8) || (n =? 9) || (n =? 10) || (n =? 12) || (n =? 13) then 2
     else if n <? 32 then 6
     else 1) + acc) 0 (String.list_ascii_of_string s).

Fixpoint json_length (v : json) : nat :=
  match v with
  | JNull => 4
  | JBool b => if b then 4 else 5
  | JNum t => String.length t
  | JStr s => 2 + escaped_length s
  | JArr l => 2 + foldr (λ x acc, json_length x + acc) 0 l + (length l - 1)
  | JObj o =>
      2 + map_fold (λ k x acc, 2 + escaped_length k + 1 + json_length x + acc) 0 o
        + (size o - 1)
  end.

End Js.
Export Js.

(** ** The storage medium: [window.localStorage] *)
Module Medium.

(** What [JSON.parse] makes of a stored string. *)
Inductive payload :=
  | Raw (text : string)
  | Doc (v : json).

Definition payload_length (p : payload) : nat :=
  match p with
  | Raw t => String.length t
  | Doc v => json_length v
  end.

(** [denied]: the browser refuses every access (storage disabled, private
    mode); [quota]: the number of characters, keys included, the origin may
    store. *)
Record LocalStorage := {
  denied : bool;
  quota : nat;
  items : gmap string payload
}.

Definition with_items (s : LocalStorage) (m : gmap string payload) : LocalStorage :=
  {| denied := denied s; quota := quota s; items := m |}.

Definition usage (m : gmap string payload) : nat :=
  map_fold (λ k p acc, String.length k + payload_length p + acc) 0 m.

Definition js (A : Type) : Type := LocalStorage → outcome A * LocalStorage.

#[global] Instance js_ret : MRet js := λ A a s, (Return a, s).

#[global] Instance js_bind : MBind js := λ A B k c s,
  match c s with
  | (Return a, s') => k a s'
  | (Throw e, s') => (Throw e, s')
  end.

Definition throw {A} (e : error) : js A := λ s, (Throw e, s).

Definition lift {A} (o : outcome A) : js A := λ s, (o, s).

Definition try_catch {A} (body : js A) (handler : error → js A) : js A := λ s,
  match body s with
  | (Return a, s') => (Return a, s')
  | (Throw e, s') => handler e s'
  end.

Definition setItem (k : string) (p : payload) : js unit := λ s,
  if denied s then (Throw SecurityError, s)
  else if usage (<[k := p]> (items s)) <=? quota s
       then (Return (), with_items s (<[k := p]> (items s)))
       else (Throw QuotaExceededError, s).

Definition removeItem (k : string) : js unit := λ s,
  if denied s then (Throw SecurityError, s)
  else (Return (), with_items s (delete k (items s))).

Definition getItem (k : string) : js (option payload) := λ s,
  if denied s then (Throw SecurityError, s)
  else (Return (items s !! k), s).

(** [for (let key in localStorage)]: the stored entries. *)
Definition entries : js (gmap string payload) := λ s,
  if denied s then (Throw SecurityError, s)
  else (Return (items s), s).

Definition JSON_parse (p : payload) : outcome json :=
  match p with
  | Raw _ => Throw SyntaxError
  | Doc v => Return v
  end.

Definition JSON_stringify (v : json) : payload := Doc v.

(** Truthiness of what [getItem] returned: [null] and the empty string are
    falsy. *)
Definition has_text (data : option payload) : bool :=
  match data with
  | None | Some (Raw "") => false
  | Some _ => true
  end.

End Medium.
Export Medium.

(** ** [class SoilStorage] *)
Module SoilStorage.

Record SoilStorage := {
  storageKey : string;
  analysesKey : string;
  settingsKey : string;
  maxStorageSize : nat
}.

Definition constructor : SoilStorage := {|
  storageKey := "soilstory_data";
  analysesKey := "soilstory_analyses";
  settingsKey := "soilstory_settings";
  maxStorageSize := 50
|}.

(** What one call reads from the clock and the random generator:
    [Date.now()], [new Date().toISOString()] and
    [Math.random().toString(36)]. *)
Record Env := {
  Date_now : N;
  toISOString : string;
  random_base36 : string
}.

Definition storage_test : string := "__storage_test__".

Definition isStorageAvailable : js bool :=
  try_catch
    (setItem storage_test (Raw storage_test);;
     removeItem storage_test;;
     mret true)
    (λ _, mret false).

Record StorageInfo := {
  available : bool;
  info_usage : nat;
  limit : N;
  percentage : option Q
}.

Definition getStorageInfo : js StorageInfo :=
  ok ← isStorageAvailable;
  if negb ok then
    mret {| available := false; info_usage := 0; limit := 0; percentage := None |}
  else
    m ← entries;
    let totalSize := usage m in
    mret {| available := true;
            info_usage := totalSize;
            limit := 5 * 1024 * 1024;
            percentage :=
              Some (inject_Z (Z.of_nat totalSize) / inject_Z (5 * 1024 * 1024) * 100)%Q |}.

(** The warning printed above 80 percent is console output only. *)
Definition updateStorageInfo : js StorageInfo := getStorageInfo.

Definition generateId (env : Env) : string :=
  "analysis_" +:+ pretty (Date_now env) +:+ "_"
    +:+ String.substring 2 9 (random_base36 env).

Definition getAnalyses (this : SoilStorage) : js json :=
  ok ← isStorageAvailable;
  if negb ok then mret (JArr [])
  else
    try_catch
      (data ← getItem (analysesKey this);
       if has_text data
       then lift (JSON_parse (default (Raw "") data))
       else mret (JArr []))
      (λ _, mret (JArr [])).

Definition id_is (id : json) (analysis : json) : outcome bool :=
  obind (member analysis "id") (λ v, Return (strict_eq_value v id)).

Definition id_is_not (id : json) (analysis : json) : outcome bool :=
  obind (member analysis "id") (λ v, Return (negb (strict_eq_value v id))).

Definition saveAnalysis (this : SoilStorage) (env : Env)
    (analysis : gmap string json) : js (option json) :=
  ok ← isStorageAvailable;
  if negb ok then throw (Error "LocalStorage is not available")
  else
    try_catch
      (let analysis :=
         if negb (truthy_value (analysis !! "id"))
         then <["id" := JStr (generateId env)]> analysis else analysis in
       let analysis :=
         if negb (truthy_value (analysis !! "timestamp"))
         then <["timestamp" := JStr (toISOString env)]> analysis else analysis in
       analyses ← getAnalyses this;
       analyses ← lift (as_array analyses);
       let analyses := JObj analysis :: analyses in
       let analyses :=
         if maxStorageSize this <? length analyses
         then take (maxStorageSize this) analyses else analyses in
       setItem (analysesKey this) (JSON_stringify (JArr analyses));;
       updateStorageInfo;;
       mret (analysis !! "id"))
      (λ _, throw (Error "Failed to save analysis")).

Definition getAnalysis (this : SoilStorage) (id : json) : js (option json) :=
  analyses ← getAnalyses this;
  analyses ← lift (as_array analyses);
  lift (find (id_is id) analyses).

(** [findIndex] returned an index of the array, so the assignment to
    [analyses[index]] replaces an existing element. *)
Definition updateAnalysis (this : SoilStorage) (id : json)
    (updates : gmap string json) : js bool :=
  ok ← isStorageAvailable;
  if negb ok then throw (Error "LocalStorage is not available")
  else
    try_catch
      (analyses ← getAnalyses this;
       analyses ← lift (as_array analyses);
       index ← lift (findIndex (id_is id) analyses);
       if (index =? -1)%Z then throw (Error "Analysis not found")
       else
         let i := Z.to_nat index in
         let updated := JObj (updates ∪ spread (default JNull (analyses !! i))) in
         setItem (analysesKey this) (JSON_stringify (JArr (<[i := updated]> analyses)));;
         mret true)
      (λ _, throw (Error "Failed to update analysis")).

Definition deleteAnalysis (this : SoilStorage) (id : json) : js bool :=
  ok ← isStorageAvailable;
  if negb ok then throw (Error "LocalStorage is not available")
  else
    try_catch
      (analyses ← getAnalyses this;
       analyses ← lift (as_array analyses);
       filtered ← lift (filter (id_is_not id) analyses);
       setItem (analysesKey this) (JSON_stringify (JArr filtered));;
       mret true)
      (λ _, throw (Error "Failed to delete analysis")).

Definition clearAnalyses (this : SoilStorage) : js bool :=
  ok ← isStorageAvailable;
  if negb ok then throw (Error "LocalStorage is not available")
  else
    try_catch
      (removeItem (analysesKey this);;
       mret true)
      (λ _, throw (Error "Failed to clear analyses")).

(** [String.prototype.toLowerCase] belongs to the engine: it applies the
    case mapping of the engine's Unicode tables to the whole string. The
    search is modelled over that function, whatever it is. *)
Section search.
Variable toLowerCase : string → string.

(** [v.toLowerCase()]: the method exists on strings only. *)
Definition toLowerCase_of (v : json) : outcome string :=
  match v with
  | JStr s => Return (toLowerCase s)
  | _ => Throw TypeError
  end.

(** [v && v.toLowerCase().includes(searchTerm)] *)
Definition text_hit (searchTerm : string) (v : option json) : outcome bool :=
  if truthy_value v
  then obind (toLowerCase_of (default JNull v)) (λ s, Return (includes s searchTerm))
  else Return false.

(** [c?.toString().includes(searchTerm)], [undefined] read as [false] *)
Definition coordinate_hit (searchTerm : string) (c : option json) : bool :=
  match c with
  | None | Some JNull => false
  | Some v => includes (toString v) searchTerm
  end.

Definition location_hit (searchTerm : string) (location : option json) : outcome bool :=
  if truthy_value location
  then
    obind (member (default JNull location) "lat") (λ lat,
      obind (member (default JNull location) "lon") (λ lon,
        Return (coordinate_hit searchTerm lat || coordinate_hit searchTerm lon)))
  else Return false.

Definition search_hit (searchTerm : string) (analysis : json) : outcome bool :=
  obind (member analysis "story") (λ story,
    obind (text_hit searchTerm story) (λ in_story,
      if in_story then Return true
      else
        obind (member analysis "location") (λ location,
          obind (location_hit searchTerm location) (λ in_location,
            if in_location then Return true
            else
              obind (member analysis "timestamp") (λ timestamp,
                obind (text_hit searchTerm timestamp) (λ in_timestamp,
                  Return in_timestamp)))))).

Definition searchAnalyses (this : SoilStorage) (query : string) : js json :=
  analyses ← getAnalyses this;
  if String.eqb query "" || String.eqb (trim query) "" then mret analyses
  else
    let searchTerm := trim (toLowerCase query) in
    analyses ← lift (as_array analyses);
    found ← lift (filter (search_hit searchTerm) analyses);
    mret (JArr found).

End search.

(** A JavaScript number that is an integer, or what a division by zero
    gives. *)
Inductive number :=
  | Finite (z : Z)
  | PlusInfinity
  | NaN.

(** [Math.ceil(n / d)] for a length [n]. *)
Definition ceil_div (n : nat) (d : Z) : number :=
  if (d =? 0)%Z then (if n =? 0 then NaN else PlusInfinity)
  else Finite (- (- Z.of_nat n / d))%Z.

Record Page := {
  data : json;
  total : nat;
  page : Z;
  pageSize : Z;
  totalPages : number
}.

(** [page = 1] and [pageSize = 12] are the defaults of omitted arguments.
    [slice] and [length] exist on arrays and on strings. *)
Definition getAnalysesPaginated (this : SoilStorage)
    (page pageSize : option Z) : js Page :=
  let page := default 1%Z page in
  let pageSize := default 12%Z pageSize in
  analyses ← getAnalyses this;
  let startIndex := ((page - 1) * pageSize)%Z in
  let endIndex := (startIndex + pageSize)%Z in
  '(sliced, len) ← lift (match analyses with
    | JArr l => Return (JArr (slice l startIndex endIndex), length l)
    | JStr s =>
        Return (JStr (String.string_of_list_ascii
                        (slice (String.list_ascii_of_string s) startIndex endIndex)),
                String.length s)
    | _ => Throw TypeError
    end);
  mret {| data := sliced;
          total := len;
          page := page;
          pageSize := pageSize;
          totalPages := ceil_div len pageSize |}.

Definition saveSettings (this : SoilStorage) (settings : json) : js bool :=
  ok ← isStorageAvailable;
  if negb ok then throw (Error "LocalStorage is not available")
  else
    try_catch
      (setItem (settingsKey this) (JSON_stringify settings);;
       mret true)
      (λ _, throw (Error "Failed to save settings")).

Definition getDefaultSettings : gmap string json :=
  <["useLocation" := JBool true]>
    (<["autoSave" := JBool true]>
      (<["theme" := JStr "light"]>
        (<["language" := JStr "en"]>
          (<["notifications" := JBool true]> ∅)))).

Definition getSettings (this : SoilStorage) : js (gmap string json) :=
  ok ← isStorageAvailable;
  if negb ok then mret getDefaultSettings
  else
    try_catch
      (data ← getItem (settingsKey this);
       saved ← (if has_text data
                then lift (JSON_parse (default (Raw "") data))
                else mret (JObj ∅));
       mret (spread saved ∪ getDefaultSettings))
      (λ _, mret getDefaultSettings).

(** [typeof v === 'object'] and [Array.isArray(v)] *)
Definition typeof_object (v : json) : bool :=
  match v with
  | JNull | JArr _ | JObj _ => true
  | _ => false
  end.

Definition isArray (v : json) : bool :=
  match v with
  | JArr _ => true
  | _ => false
  end.

(** The text [exportData] returns is kept, like a stored string, as the
    tree it denotes. *)
Definition exportData (this : SoilStorage) (env : Env) : js payload :=
  ok ← isStorageAvailable;
  if negb ok then throw (Error "LocalStorage is not available")
  else
    try_catch
      (analyses ← getAnalyses this;
       settings ← getSettings this;
       mret (JSON_stringify
               (JObj (<["analyses" := analyses]>
                       (<["settings" := JObj settings]>
                         (<["exportDate" := JStr (toISOString env)]>
                           (<["version" := JStr "1.0.0"]> ∅)))))))
      (λ _, throw (Error "Failed to export data")).

Definition importData (this : SoilStorage) (jsonData : payload) : js bool :=
  ok ← isStorageAvailable;
  if negb ok then throw (Error "LocalStorage is not available")
  else
    try_catch
      (data ← lift (JSON_parse jsonData);
       analyses ← lift (member data "analyses");
       (if truthy_value analyses && isArray (default JNull analyses)
        then setItem (analysesKey this) (JSON_stringify (default JNull analyses))
        else mret ());;
       settings ← lift (member data "settings");
       (if truthy_value settings && typeof_object (default JNull settings)
        then setItem (settingsKey this) (JSON_stringify (default JNull settings))
        else mret ());;
       mret true)
      (λ _, throw (Error "Failed to import data")).

(** [v.length]: a [TypeError] on [null], the length of an array or of a
    string, [undefined] on every other value. *)
Definition length_of (v : json) : outcome (option nat) :=
  match v with
  | JNull => Throw TypeError
  | JArr l => Return (Some (length l))
  | JStr s => Return (Some (String.length s))
  | _ => Return None
  end.

(** [v[i]] for an index below [v.length] *)
Definition element (v : json) (i : nat) : json :=
  match v with
  | JArr l => default JNull (l !! i)
  | JStr s =>
      match String.get i s with
      | Some c => JStr (String c "")
      | None => JNull
      end
  | _ => JNull
  end.

(** [null] is [Some JNull], [undefined] is [None]. *)
Record StorageStats := {
  totalAnalyses : option nat;
  storageUsage : nat;
  storageLimit : N;
  storagePercentage : option Q;
  oldestAnalysis : option json;
  newestAnalysis : option json
}.

(** [analyses.length > 0 ? analyses[i].timestamp : null] *)
Definition timestamp_at (analyses : json) (len : option nat) (i : nat)
    : outcome (option json) :=
  match len with
  | Some n => if 0 <? n then member (element analyses i) "timestamp"
              else Return (Some JNull)
  | None => Return (Some JNull)
  end.

Definition getStorageStats (this : SoilStorage) : js StorageStats :=
  analyses ← getAnalyses this;
  info ← getStorageInfo;
  len ← lift (length_of analyses);
  oldest ← lift (timestamp_at analyses len (default 0 len - 1));
  newest ← lift (timestamp_at analyses len 0);
  mret {| totalAnalyses := len;
          storageUsage := info_usage info;
          storageLimit := limit info;
          storagePercentage := percentage info;
          oldestAnalysis := oldest;
          newestAnalysis := newest |}.

End SoilStorage.

(** ** [class SoilAPI]

    Numbers of the API client are exact rationals: the draws of
    [Math.random] and the results computed from them are not rounded to
    binary64. An [async] function is the promise it returns: after how many
    milliseconds it settles and with what, or that it never settles. *)
Module SoilAPI.

Inductive promise (A : Type) :=
  | Settles (ms : N) (r : outcome A)
  | Never.
Arguments Settles {A} ms r.
Arguments Never {A}.

Definition after {A} (ms : N) (p : promise A) : promise A :=
  match p with
  | Settles t r => Settles (ms + t) r
  | Never => Never
  end.

Definition resolve {A} (a : A) : promise A := Settles 0 (Return a).
Definition reject {A} (e : error) : promise A := Settles 0 (Throw e).

#[global] Instance promise_ret : MRet promise := λ A a, resolve a.

(** [await p] followed by the rest of the function body *)
#[global] Instance promise_bind : MBind promise := λ A B k p,
  match p with
  | Settles t (Return a) => after t (k a)
  | Settles t (Throw e) => Settles t (Throw e)
  | Never => Never
  end.

Definition try_await {A} (body : promise A) (handler : error → promise A) : promise A :=
  match body with
  | Settles t (Throw e) => after t (handler e)
  | _ => body
  end.

(** [setTimeout(() => resolve(a), ms)] inside [new Promise] *)
Definition setTimeout {A} (ms : N) (a : A) : promise A := Settles ms (Return a).

(** [error.message]; for an exception raised by the browser the model keeps
    its name. *)
Definition message (e : error) : string :=
  match e with
  | Error m => m
  | SecurityError => "SecurityError"
  | QuotaExceededError => "QuotaExceededError"
  | SyntaxError => "SyntaxError"
  | TypeError => "TypeError"
  end.

Record File := { file_name : string }.

Record Location := { lat : Q; lon : Q }.

Inductive Body :=
  | NoBody
  | JsonBody (v : json)
  | FormData (photo : File) (coordinates : option (Q * Q)).

Record Request := {
  url : string;
  method : string;
  headers : list (string * string);
  timeout_option : option N;
  body : Body
}.

Record Response := {
  ok : bool;
  status : N;
  statusText : string;
  json_ : promise json;
  text_ : promise string
}.

(** [fetch(url, init)] as the network answers it. *)
Definition Fetch := Request → promise Response.

Record Endpoints := {
  analyze : string;
  video : string;
  history : string;
  health : string
}.

Record SoilAPI := {
  baseURL : string;
  endpoints : Endpoints;
  timeout : N
}.

Definition constructor (origin : string) : SoilAPI := {|
  baseURL := origin;
  endpoints := {| analyze := "/api/analyze"; video := "/api/video";
                  history := "/api/history"; health := "/health" |};
  timeout := 30000
|}.

Record Env := {
  Date_now : N;
  toISOString : string;
  createObjectURL : File → string
}.

Record Soil := { pH : Q; OM : Q; P : Q; EC : Q; moisture : Q }.

Record Weather := {
  tempC : Q;
  humidity : Q;
  weather_condition : option string;
  windSpeed : Q
}.

Record DemoData := {
  id : string;
  imagePath : string;
  analysis : Soil;
  weather : option Weather;
  story : option string;
  timestamp : string;
  isDemo : bool
}.

Record DemoVideo := {
  videoPath : string;
  videoUrl : string;
  video_isDemo : bool
}.

Inductive Data :=
  | Remote (v : json)
  | Text (s : string)
  | Analysis (d : DemoData)
  | Video (v : DemoVideo)
  | Items (l : list json).

Record Result := {
  success : bool;
  data : option Data;
  error_message : option string;
  result_status : option N
}.

Definition succeeded (d : Data) : Result :=
  {| success := true; data := Some d; error_message := None; result_status := None |}.

(** Options of [makeRequest]: the members its callers pass. When [headers]
    is among them, the final spread of [options] puts it in place of the
    merged headers. *)
Record Options := {
  opt_method : option string;
  opt_headers : option (list (string * string));
  opt_body : option json
}.

Definition no_options : Options :=
  {| opt_method := None; opt_headers := None; opt_body := None |}.

Definition getAuthToken : string := "local-auth".

Definition set_header (k v : string) (h : list (string * string)) : list (string * string) :=
  (k, v) :: List.filter (λ kv, negb (String.eqb kv.1 k)) h.

Definition makeRequest (this : SoilAPI) (fetch : Fetch) (url : string)
    (options : Options) : promise Result :=
  let config := {|
    url := url;
    method := default "GET" (opt_method options);
    headers := set_header "Authorization" ("Bearer " +:+ getAuthToken)
                 (default [("Content-Type", "application/json")]
                    (opt_headers options));
    timeout_option := Some (timeout this);
    body := match opt_body options with Some v => JsonBody v | None => NoBody end
  |} in
  try_await
    (response ← fetch config;
     if negb (ok response)
     then reject (Error ("HTTP " +:+ pretty (status response) +:+ ": "
                           +:+ statusText response))
     else
       try_await
         (v ← json_ response;
          mret {| success := true; data := Some (Remote v);
                  error_message := None; result_status := Some (status response) |})
         (λ _,
          text ← text_ response;
          mret {| success := true; data := Some (Text text);
                  error_message := None; result_status := Some (status response) |}))
    (λ e, mret {| success := false; data := None;
                  error_message := Some (message e); result_status := Some 0%N |}).

Definition plain_get (url : string) : Request :=
  {| url := url; method := "GET"; headers := []; timeout_option := None; body := NoBody |}.

Definition checkHealth (this : SoilAPI) (fetch : Fetch) : promise bool :=
  try_await
    (response ← fetch (plain_get (baseURL this +:+ health (endpoints this)));
     mret (ok response))
    (λ _, mret false).

(** *** The demo generator *)

(** The sequence of values [Math.random()] returns, and code that draws
    from it: the state is the number of draws made so far. *)
Definition Random := nat → Q.
Definition rand (A : Type) : Type := Random → nat → A * nat.

#[global] Instance rand_ret : MRet rand := λ A a _ i, (a, i).
#[global] Instance rand_bind : MBind rand := λ A B k c rnd i,
  let '(a, j) := c rnd i in k a rnd j.

Definition Math_random : rand Q := λ rnd i, (rnd i, S i).

(** [Math.round]: to the nearest integer, halves upwards. *)
Definition Math_round (x : Q) : Q := inject_Z (Qfloor (x + (1 # 2))).

Definition Math_floor (x : Q) : Z := Qfloor x.

Definition negative (x : Q) : bool := negb (Qle_bool 0 x).

(** The digits of [x.toFixed(digits)] read as one integer: the nearest
    multiple of [10^-digits] to [|x|], halves away from zero. *)
Definition fixed_digits (x : Q) (digits : nat) : Z :=
  Qfloor (Qabs x * inject_Z (10 ^ Z.of_nat digits) + (1 # 2)).

Fixpoint zeros (n : nat) : string :=
  match n with
  | O => ""
  | S n => "0" +:+ zeros n
  end.

(** [x.toFixed(digits)] for [|x|] below [1e21]. *)
Definition toFixed (x : Q) (digits : nat) : string :=
  let n := fixed_digits x digits in
  let scale := (10 ^ Z.of_nat digits)%Z in
  let fraction := pretty (n mod scale)%Z in
  (if negative x then "-" else "") +:+ pretty (n / scale)%Z +:+
  (if digits =? 0 then ""
   else "." +:+ zeros (digits - String.length fraction) +:+ fraction).

(** [parseFloat(x.toFixed(digits))]: the number the text denotes. *)
Definition parseFloat_toFixed (x : Q) (digits : nat) : Q :=
  let v := (inject_Z (fixed_digits x digits) / inject_Z (10 ^ Z.of_nat digits))%Q in
  if negative x then (- v)%Q else v.

Definition getRandomValue (min max : Q) (decimals : nat) : rand Q :=
  r ← Math_random;
  let value := (r * (max - min) + min)%Q in
  mret (if decimals =? 0 then Math_round value else parseFloat_toFixed value decimals).

(** [l[i]] for a computed index: [undefined] outside the array. *)
Definition at_index {A} (l : list A) (i : Z) : option A :=
  if (i <? 0)%Z then None else l !! Z.to_nat i.

Definition conditions : list string :=
  ["Partly cloudy"; "Sunny"; "Overcast"; "Light rain";
   "Clear skies"; "Misty"; "Light breeze"; "Calm"].

Definition getRandomWeather : rand (option string) :=
  r ← Math_random;
  mret (at_index conditions (Math_floor (r * inject_Z (Z.of_nat (length conditions))))).

Definition stories : list string :=
  ["Your soil shows excellent structure with balanced pH levels. The organic matter content suggests good fertility, making it ideal for most garden vegetables. Consider adding compost in the spring to maintain soil health.";
   "This soil sample indicates moderate fertility with room for improvement. The pH is slightly acidic, which is perfect for blueberries and rhododendrons. Adding lime can help balance the pH for other crops.";
   "Your soil demonstrates good drainage and moderate nutrient levels. The electrical conductivity suggests appropriate salt levels for healthy plant growth. Regular mulching will help maintain moisture retention.";
   "This soil has excellent potential for organic gardening. The organic matter content is promising, and the pH range supports a wide variety of plants. Consider crop rotation to optimize soil health."].

(** [story += ...] on an [undefined] story concatenates the text
    ["undefined"]. *)
Definition generateDemoStory (location : option Location) : rand (option string) :=
  r ← Math_random;
  let story := at_index stories (Math_floor (r * inject_Z (Z.of_nat (length stories)))) in
  mret (match location with
        | Some l =>
            Some (default "undefined" story
                  +:+ " Based on your location coordinates ("
                  +:+ toFixed (lat l) 4 +:+ ", " +:+ toFixed (lon l) 4
                  +:+ "), this soil type is typical for your region and should support local native plants well.")
        | None => story
        end).

Definition demoData (env : Env) (imageFile : File) (location : option Location)
    : rand DemoData :=
  v_pH ← getRandomValue (55 # 10) 8 1;
  v_OM ← getRandomValue 1 5 1;
  v_P ← getRandomValue 10 50 0;
  v_EC ← getRandomValue (5 # 10) (25 # 10) 1;
  v_moisture ← getRandomValue 15 35 0;
  v_weather ← match location with
    | Some _ =>
        v_tempC ← getRandomValue 15 30 0;
        v_humidity ← getRandomValue 40 80 0;
        v_condition ← getRandomWeather;
        v_windSpeed ← getRandomValue 5 20 1;
        mret (Some {| tempC := v_tempC; humidity := v_humidity;
                      weather_condition := v_condition; windSpeed := v_windSpeed |})
    | None => mret None
    end;
  v_story ← generateDemoStory location;
  mret {| id := "demo_" +:+ pretty (Date_now env);
          imagePath := createObjectURL env imageFile;
          analysis := {| pH := v_pH; OM := v_OM; P := v_P; EC := v_EC;
                         moisture := v_moisture |};
          weather := v_weather;
          story := v_story;
          timestamp := toISOString env;
          isDemo := true |}.

(** The promise resolves two seconds after the call, with what the timer
    callback builds from the draws [rnd 0], [rnd 1], ... *)
Definition getDemoAnalysis (env : Env) (rnd : Random) (imageFile : File)
    (location : option Location) : promise Result :=
  setTimeout 2000 (succeeded (Analysis (demoData env imageFile location rnd 0).1)).

Definition getDemoVideo (analysisId : json) (storyText : option string) : promise Result :=
  setTimeout 3000
    (succeeded (Video {| videoPath := "/static/demo-video.mp4";
                         videoUrl := "/static/demo-video.mp4";
                         video_isDemo := true |})).

(** [location && location.lat && location.lon] *)
Definition has_coordinates (location : option Location) : option (Q * Q) :=
  match location with
  | Some l =>
      if negb (Qeq_bool (lat l) 0) && negb (Qeq_bool (lon l) 0)
      then Some (lat l, lon l) else None
  | None => None
  end.

Definition analyzeSoil (this : SoilAPI) (fetch : Fetch) (env : Env) (rnd : Random)
    (imageFile : File) (location : option Location) : promise Result :=
  try_await
    (isHealthy ← checkHealth this fetch;
     if negb isHealthy then getDemoAnalysis env rnd imageFile location
     else
       response ← fetch {| url := baseURL this +:+ analyze (endpoints this);
                           method := "POST";
                           headers := [("Authorization", "Bearer " +:+ getAuthToken)];
                           timeout_option := None;
                           body := FormData imageFile (has_coordinates location) |};
       if negb (ok response)
       then reject (Error ("Analysis failed: " +:+ statusText response))
       else
         result ← json_ response;
         mret (succeeded (Remote result)))
    (λ _, getDemoAnalysis env rnd imageFile location).

Definition generateVideo (this : SoilAPI) (fetch : Fetch) (analysisId : json)
    (storyText imagePath : option string) : promise Result :=
  try_await
    (isHealthy ← checkHealth this fetch;
     if negb isHealthy then getDemoVideo analysisId storyText
     else
       response ← makeRequest this fetch (baseURL this +:+ video (endpoints this))
         {| opt_method := Some "POST"; opt_headers := None;
            opt_body := Some (JObj {["analysisId" := analysisId]}) |};
       if negb (success response)
       then reject (Error (match error_message response with
                           | Some m => if String.eqb m "" then "Video generation failed" else m
                           | None => "Video generation failed"
                           end))
       else mret response)
    (λ _, getDemoVideo analysisId storyText).

Definition getHistory (this : SoilAPI) (fetch : Fetch) : promise Result :=
  try_await
    (isHealthy ← checkHealth this fetch;
     if negb isHealthy then mret (succeeded (Items []))
     else makeRequest this fetch (baseURL this +:+ history (endpoints this)) no_options)
    (λ _, mret (succeeded (Items []))).

Definition uploadImage (this : SoilAPI) (fetch : Fetch) (imageFile : File)
    : promise Result :=
  try_await
    (response ← fetch {| url := baseURL this +:+ "/api/upload";
                         method := "POST";
                         headers := [];
                         timeout_option := None;
                         body := FormData imageFile None |};
     if negb (ok response)
     then reject (Error "Image upload failed")
     else
       result ← json_ response;
       mret (succeeded (Remote result)))
    (λ e, mret {| success := false; data := None;
                  error_message := Some (message e); result_status := None |}).

Record WeatherData := {
  wd_tempC : Q;
  wd_humidity : Q;
  wd_pressure : Q;
  wd_windSpeed : Q;
  wd_weather : option string;
  wd_rain1h : Q
}.

(** The mock weather: six draws. *)
Definition weatherData : rand WeatherData :=
  v_tempC ← getRandomValue 15 30 0;
  v_humidity ← getRandomValue 40 80 0;
  v_pressure ← getRandomValue 1000 1020 0;
  v_windSpeed ← getRandomValue 5 20 1;
  v_weather ← getRandomWeather;
  r ← Math_random;
  v_rain1h ← (if negb (Qle_bool r (7 # 10))
              then getRandomValue (1 # 10) 5 1 else mret 0%Q);
  mret {| wd_tempC := v_tempC; wd_humidity := v_humidity;
          wd_pressure := v_pressure; wd_windSpeed := v_windSpeed;
          wd_weather := v_weather; wd_rain1h := v_rain1h |}.

(** The coordinates are not read. *)
Definition getWeatherData (lat lon : Q) (rnd : Random) : promise WeatherData :=
  resolve (weatherData rnd 0).1.

End SoilAPI.

(** ** Vocabulary of the properties *)
Module Spec.
Import SoilStorage.

Definition run {A} (c : js A) (s : LocalStorage) : outcome A := (c s).1.
Definition exec {A} (c : js A) (s : LocalStorage) : LocalStorage := (c s).2.

(** Whether the sentinel write of [isStorageAvailable] is accepted. *)
Definition available (s : LocalStorage) : bool :=
  negb (denied s) &&
  (usage (<[storage_test := Raw storage_test]> (items s)) <=? quota s).

(** The medium after a successful probe: the sentinel key is gone. *)
Definition probed (s : LocalStorage) : LocalStorage :=
  with_items s (delete storage_test (items s)).

(** The collection persisted under the analyses key, as [getAnalyses] reads
    it from an available medium. *)
Definition stored (this : SoilStorage) (s : LocalStorage) : json :=
  match items s !! analysesKey this with
  | Some (Doc v) => v
  | _ => JArr []
  end.

(** Whether the medium, after the probe, accepts the write of [p] under
    [k]. *)
Definition accepts (s : LocalStorage) (k : string) (p : payload) : bool :=
  usage (<[k := p]> (items (probed s))) <=? quota s.

(** What [getSettings] makes of the string stored under the settings
    key. *)
Definition read_settings (data : option payload) : gmap string json :=
  match data with
  | Some (Doc v) => spread v ∪ getDefaultSettings
  | Some (Raw (String _ _)) => getDefaultSettings
  | _ => spread (JObj ∅) ∪ getDefaultSettings
  end.

(** The record as [saveAnalysis] completes it before storing it. *)
Definition completed (env : Env) (analysis : gmap string json) : gmap string json :=
  let analysis :=
    if negb (truthy_value (analysis !! "id"))
    then <["id" := JStr (generateId env)]> analysis else analysis in
  if negb (truthy_value (analysis !! "timestamp"))
  then <["timestamp" := JStr (toISOString env)]> analysis else analysis.

(** [splice(maxStorageSize)] when the array is longer than that. *)
Definition capped (this : SoilStorage) (l : list json) : list json :=
  if maxStorageSize this <? length l then take (maxStorageSize this) l else l.

(** A sequence of [saveAnalysis] calls, each with what it reads from the
    clock and the random generator; it stops at the first exception. *)
Fixpoint save_all (this : SoilStorage)
    (calls : list (Env * gmap string json)) : js unit :=
  match calls with
  | [] => mret ()
  | (env, analysis) :: rest =>
      saveAnalysis this env analysis;; save_all this rest
  end.

Definition saved (calls : list (Env * gmap string json)) : list json :=
  List.map (λ c, JObj (completed c.1 c.2)) calls.

(** The [id] member of an element of the collection. *)
Definition id_of (x : json) : option json :=
  match x with
  | JObj o => o !! "id"
  | _ => None
  end.

Definition unique_ids (v : json) : Prop :=
  ∃ l, v = JArr l ∧ NoDup (id_of <$> l).

(** The mutating operations of the store, and a history of them; a call
    that throws is caught by the caller and the history goes on. *)
Inductive op :=
  | Save (env : Env) (analysis : gmap string json)
  | Update (id : json) (updates : gmap string json)
  | Delete (id : json)
  | Clear.

Definition perform (this : SoilStorage) (o : op) (s : LocalStorage) : LocalStorage :=
  match o with
  | Save env analysis => exec (saveAnalysis this env analysis) s
  | Update id updates => exec (updateAnalysis this id updates) s
  | Delete id => exec (deleteAnalysis this id) s
  | Clear => exec (clearAnalyses this) s
  end.

Definition perform_all (this : SoilStorage) (ops : list op) (s : LocalStorage) : LocalStorage :=
  foldl (λ s o, perform this o s) s ops.

(** The operations that cannot introduce a second record with an id: a
    save whose record, once completed, carries an id no stored record has,
    an update that does not name [id], any delete and any clear. *)
Definition keeps_ids_apart (this : SoilStorage) (s : LocalStorage) (o : op) : Prop :=
  match o with
  | Save env analysis =>
      ∀ l, stored this s = JArr l → completed env analysis !! "id" ∉ id_of <$> l
  | Update _ updates => updates !! "id" = None
  | Delete _ | Clear => True
  end.

Fixpoint all_keep_ids_apart (this : SoilStorage) (s : LocalStorage) (ops : list op) : Prop :=
  match ops with
  | [] => True
  | o :: rest =>
      keeps_ids_apart this s o ∧ all_keep_ids_apart this (perform this o s) rest
  end.

(** The search of the specification: the query is a case-insensitive
    substring of the story, of the timestamp, or of a coordinate of the
    location. Two texts are compared without regard to case by comparing
    what the engine's [toLowerCase] makes of them. *)
Section search.
Variable toLowerCase : string → string.

Definition ci_substring (query text : string) : bool :=
  includes (toLowerCase text) (toLowerCase query).

Definition text_matches (query : string) (v : option json) : bool :=
  match v with
  | Some (JStr s) => ci_substring query s
  | _ => false
  end.

Definition coordinate_matches (query : string) (v : option json) : bool :=
  match v with
  | Some (JNum t) => ci_substring query t
  | _ => false
  end.

Definition location_matches (query : string) (v : option json) : bool :=
  match v with
  | Some (JObj l) =>
      coordinate_matches query (l !! "lat") || coordinate_matches query (l !! "lon")
  | _ => false
  end.

Definition spec_matches (query : string) (r : gmap string json) : bool :=
  text_matches query (r !! "story")
  || text_matches query (r !! "timestamp")
  || location_matches query (r !! "location").

(** The search with a search term: the term is a substring of the story in
    lower case, of the timestamp in lower case, or of the text of a
    coordinate of the location. *)
Definition text_contains (term : string) (v : option json) : bool :=
  match v with
  | Some (JStr s) => includes (toLowerCase s) term
  | _ => false
  end.

Definition coordinate_contains (term : string) (v : option json) : bool :=
  match v with
  | Some (JNum t) => includes t term
  | _ => false
  end.

Definition location_contains (term : string) (v : option json) : bool :=
  match v with
  | Some (JObj l) =>
      coordinate_contains term (l !! "lat") || coordinate_contains term (l !! "lon")
  | _ => false
  end.

Definition term_matches (term : string) (r : gmap string json) : bool :=
  text_contains term (r !! "story")
  || text_contains term (r !! "timestamp")
  || location_contains term (r !! "location").

End search.

(** The shape of a record of the data model, as far as the search reads it:
    story and timestamp are strings, the location is an object whose
    coordinates are numbers; each of them may be missing or [null]. *)
Definition is_text (v : option json) : bool :=
  match v with
  | None | Some JNull | Some (JStr _) => true
  | _ => false
  end.

Definition is_coordinate (v : option json) : bool :=
  match v with
  | None | Some JNull | Some (JNum _) => true
  | _ => false
  end.

Definition is_location (v : option json) : bool :=
  match v with
  | None | Some JNull => true
  | Some (JObj l) => is_coordinate (l !! "lat") && is_coordinate (l !! "lon")
  | _ => false
  end.

Definition well_shaped (r : gmap string json) : bool :=
  is_text (r !! "story") && is_text (r !! "timestamp") && is_location (r !! "location").

End Spec.

(** ** Sample media, stores and records *)
Module Examples.
Import SoilStorage Spec.

(** The examples hold Basic Latin text. On such text [toLowerCase] turns
    the letters A to Z into a to z and changes nothing else, whatever the
    Unicode version of the engine; [lower] does that, and leaves the bytes
    of every other character as they are. *)
Definition basic_latin (s : string) : bool :=
  forallb (λ c, (byte c <? 128)%N) (String.list_ascii_of_string s).

Definition lower_letter (c : ascii) : ascii :=
  if (65 <=? byte c)%N && (byte c <=? 90)%N
  then ascii_of_N (byte c + 32) else c.

Fixpoint lower (s : string) : string :=
  match s with
  | "" => ""
  | String c s' => String (lower_letter c) (lower s')
  end.

(** A query of one NO-BREAK SPACE, and a word with white space of four
    kinds around it: NO-BREAK SPACE, SPACE, EM SPACE (U+2003) and U+FEFF. *)
Definition no_break_space : string :=
  String (ascii_of_N 194) (String (ascii_of_N 160) "").

Definition spaced_loam : string :=
  no_break_space +:+ " loam" +:+
  String (ascii_of_N 226) (String (ascii_of_N 128) (String (ascii_of_N 131) ""))
  +:+ String (ascii_of_N 239) (String (ascii_of_N 187) (String (ascii_of_N 191) "")).

Definition empty_medium : LocalStorage :=
  {| denied := false; quota := 5000; items := ∅ |}.

Definition two_slots : SoilStorage :=
  {| storageKey := "soilstory_data";
     analysesKey := "soilstory_analyses";
     settingsKey := "soilstory_settings";
     maxStorageSize := 2 |}.

Definition noon : Env :=
  {| Date_now := 1700000000000;
     toISOString := "2023-11-14T22:13:20.000Z";
     random_base36 := "0.4fzyo82mvyr" |}.

Definition record_a : gmap string json :=
  {[ "id" := JStr "a"; "story" := JStr "soil" ]}.

Definition record_b : gmap string json :=
  {[ "id" := JStr "b"; "story" := JStr "Loam";
     "location" := JObj {[ "lat" := JNum "12.5"; "lon" := JNum "-3" ]} ]}.

Definition record_c : gmap string json := {[ "story" := JStr "clay" ]}.

Definition three_saves : list (Env * gmap string json) :=
  [(noon, record_a); (noon, record_b); (noon, record_c)].

Definition disabled_medium : LocalStorage :=
  {| denied := true; quota := 5000; items := ∅ |}.

(** A medium with room for 220 characters. *)
Definition small_medium : LocalStorage :=
  {| denied := false; quota := 220; items := ∅ |}.

(** A medium whose quota is used up: the sentinel no longer fits. *)
Definition full_medium : LocalStorage :=
  {| denied := false; quota := 20; items := {[ "soilImage" := Raw "data:image" ]} |}.

Definition after_one_save : LocalStorage :=
  exec (save_all two_slots [(noon, record_a)]) empty_medium.

Definition after_two_saves : LocalStorage :=
  exec (save_all two_slots [(noon, record_a); (noon, record_b)]) empty_medium.

Definition after_saving_twice : LocalStorage :=
  perform_all two_slots [Save noon record_a; Save noon record_a] empty_medium.

Definition five_saves : list (Env * gmap string json) :=
  [(noon, {[ "id" := JStr "1" ]}); (noon, {[ "id" := JStr "2" ]});
   (noon, {[ "id" := JStr "3" ]}); (noon, {[ "id" := JStr "4" ]});
   (noon, {[ "id" := JStr "5" ]})].

Definition after_five_saves : LocalStorage :=
  exec (save_all constructor five_saves) empty_medium.

Definition with_settings : LocalStorage :=
  exec (saveSettings constructor (JObj {[ "theme" := JStr "dark" ]})) after_two_saves.

Definition after_three_saves : LocalStorage :=
  exec (save_all two_slots three_saves) empty_medium.

(** The API client of a page served from [origin], three networks and the
    inputs of one analysis. *)
Definition api : SoilAPI.SoilAPI := SoilAPI.constructor "http://localhost:5000".

Definition offline : SoilAPI.Fetch := λ _, SoilAPI.Settles 10 (Throw TypeError).

Definition hanging : SoilAPI.Fetch := λ _, SoilAPI.Never.

Definition slow : SoilAPI.Fetch := λ _,
  SoilAPI.Settles 45000
    (Return {| SoilAPI.ok := true; SoilAPI.status := 200; SoilAPI.statusText := "OK";
               SoilAPI.json_ := SoilAPI.resolve (JObj ∅);
               SoilAPI.text_ := SoilAPI.resolve "{}" |}).

Definition browser : SoilAPI.Env :=
  {| SoilAPI.Date_now := 1700000000000;
     SoilAPI.toISOString := "2023-11-14T22:13:20.000Z";
     SoilAPI.createObjectURL := λ f, "blob:" +:+ SoilAPI.file_name f |}.

Definition photo : SoilAPI.File := {| SoilAPI.file_name := "soil.jpg" |}.

Definition halves : SoilAPI.Random := λ _, (1 # 2)%Q.

End Examples.

(** ** The page: [window.soilStorage] and the methods of [SoilAPI] that use
    it *)
Module Page.
Import SoilStorage.

(** The file the browser is asked to download. *)
Record Download := {
  download_name : string;
  download_content : json
}.

Record ExportResult := {
  export_success : bool;
  export_error : option string;
  export_download : option Download
}.

(** [SoilAPI.exportAnalysisData]: the anchor element that is created,
    clicked and removed is kept as the download it starts. *)
Definition exportAnalysisData (storage : SoilStorage) (exportDate : string)
    (analysisId : json) : js ExportResult :=
  try_catch
    (analysis ← getAnalysis storage analysisId;
     if negb (truthy_value analysis) then throw (Error "Analysis not found")
     else
       let exportData :=
         JObj (<["analysis" := default JNull analysis]>
                (<["exportDate" := JStr exportDate]>
                  (<["version" := JStr "1.0.0"]> ∅))) in
       mret {| export_success := true;
               export_error := None;
               export_download :=
                 Some {| download_name :=
                           "soilstory_analysis_" +:+ toString analysisId +:+ ".json";
                         download_content := exportData |} |})
    (λ e, mret {| export_success := false;
                  export_error := Some (SoilAPI.message e);
                  export_download := None |}).

(** An alert of the page: [showAlert(message, type)]. *)
Record Alert := {
  alert_message : string;
  alert_type : string
}.

(** [SoilStoryApp.saveAnalysis]: [now] is [new Date().toISOString()] as the
    page reads it, [currentPhotoFile] the file the page holds; the alert
    that is shown is returned. *)
Definition app_saveAnalysis (storage : SoilStorage) (now : string) (env : Env)
    (currentPhotoFile : option SoilAPI.File) (analysis : gmap string json)
    : js (option Alert) :=
  try_catch
    (let analysisData :=
       <["imageFile" := JStr (match currentPhotoFile with
                              | Some file => SoilAPI.file_name file
                              | None => "Unknown"
                              end)]>
         (<["timestamp" := JStr now]> analysis) in
     saveAnalysis storage env analysisData;;
     mret None)
    (λ _, mret (Some {| alert_message := "Failed to save analysis to local storage.";
                        alert_type := "warning" |})).

End Page.

(** ** Further vocabulary and samples *)
Module Spec2.
Import SoilStorage Spec.

(** The callback of [deleteAnalysis] on a record. *)
Definition other_id (id : json) (r : gmap string json) : bool :=
  negb (strict_eq_value (r !! "id") id).

(** The records of page [p] as [getAnalysesPaginated] returns them. *)
Definition page_data (this : SoilStorage) (s : LocalStorage) (size : Z) (p : nat)
    : list json :=
  match run (getAnalysesPaginated this (Some (Z.of_nat p)) (Some size)) s with
  | Return pg => match data pg with JArr d => d | _ => [] end
  | Throw _ => []
  end.

(** A primitive value: [v === v] holds of it after a trip through JSON. *)
Definition primitive (v : json) : bool := strict_eq v v.

Definition corrupt_medium : LocalStorage :=
  {| denied := false; quota := 5000;
     items := {[ "soilstory_analyses" := Raw "[{oops" ]} |}.

Definition object_medium : LocalStorage :=
  {| denied := false; quota := 5000;
     items := {[ "soilstory_analyses" := Doc (JObj {[ "id" := JStr "a" ]}) ]} |}.

(** A medium with room for the sentinel and not for one more record. *)
Definition tight_medium : LocalStorage :=
  {| denied := false; quota := 120;
     items := {[ "soilstory_analyses" :=
                   Doc (JArr [JObj {[ "id" := JStr "a"; "story" := JStr "soil" ]}]) ]} |}.

(** Every key other than the sentinel holds in [s'] what it held in [s]. *)
Definition same_entries (s s' : LocalStorage) : Prop :=
  ∀ k, k ≠ storage_test → items s' !! k = items s !! k.

(** A medium in which the collection fits and the settings added to it do
    not. *)
Definition snug_medium : LocalStorage :=
  {| denied := false; quota := 60; items := ∅ |}.

Definition backup : payload :=
  Doc (JObj {[ "analyses" := JArr [JObj {[ "id" := JStr "a" ]}];
               "settings" := JObj {[ "theme" := JStr "dark";
                                     "language" := JStr "fr" ]} ]}).

(** What [exportData] returns for the sample medium with settings. *)
Definition exported_backup : payload :=
  match run (exportData constructor Examples.noon) Examples.with_settings with
  | Return p => p
  | Throw _ => Raw ""
  end.

(** A stored history whose second record has a number as story. *)
Definition numbered_story_medium : LocalStorage :=
  {| denied := false; quota := 5000;
     items := {[ "soilstory_analyses" :=
                   Doc (JArr [JObj {[ "id" := JStr "a"; "story" := JStr "soil" ]};
                              JObj {[ "id" := JStr "b"; "story" := JNum "7" ]}]) ]} |}.

(** A promise that settles with a rejection. *)
Definition rejects {A} (p : SoilAPI.promise A) : Prop :=
  ∃ t e, p = SoilAPI.Settles t (Throw e).

(** The request [makeRequest] sends for the history. *)
Definition history_request (this : SoilAPI.SoilAPI) : SoilAPI.Request :=
  {| SoilAPI.url := SoilAPI.baseURL this +:+ SoilAPI.history (SoilAPI.endpoints this);
     SoilAPI.method := "GET";
     SoilAPI.headers := [("Authorization", "Bearer local-auth");
                         ("Content-Type", "application/json")];
     SoilAPI.timeout_option := Some (SoilAPI.timeout this);
     SoilAPI.body := SoilAPI.NoBody |}.

Definition demo_video : SoilAPI.DemoVideo :=
  {| SoilAPI.videoPath := "/static/demo-video.mp4";
     SoilAPI.videoUrl := "/static/demo-video.mp4";
     SoilAPI.video_isDemo := true |}.

(** The sentence [generateDemoStory] adds for a location. *)
Definition location_sentence (l : SoilAPI.Location) : string :=
  " Based on your location coordinates ("
  +:+ SoilAPI.toFixed (SoilAPI.lat l) 4 +:+ ", " +:+ SoilAPI.toFixed (SoilAPI.lon l) 4
  +:+ "), this soil type is typical for your region and should support local native plants well.".

(** A backend that is up and answers the history request with a 500. *)
Definition failing_history : SoilAPI.Fetch := λ req,
  if String.eqb (SoilAPI.url req) "http://localhost:5000/health"
  then SoilAPI.Settles 20
         (Return {| SoilAPI.ok := true; SoilAPI.status := 200;
                    SoilAPI.statusText := "OK";
                    SoilAPI.json_ := SoilAPI.resolve (JObj ∅);
                    SoilAPI.text_ := SoilAPI.resolve "{}" |})
  else SoilAPI.Settles 30
         (Return {| SoilAPI.ok := false; SoilAPI.status := 500;
                    SoilAPI.statusText := "Internal Server Error";
                    SoilAPI.json_ := SoilAPI.reject SyntaxError;
                    SoilAPI.text_ := SoilAPI.resolve "" |}).

Definition away : SoilAPI.Location := {| SoilAPI.lat := 125 # 10; SoilAPI.lon := -3 |}.

End Spec2.

(** ** Facts about the medium and the probe *)
Module MediumFacts.
Import SoilStorage Spec.

Lemma usage_insert_fresh (m : gmap string payload) k p :
  m !! k = None →
  usage (<[k := p]> m) = String.length k + payload_length p + usage m.
Proof.
  intros Hk. unfold usage.
  rewrite map_fold_insert_L; [done | intros; lia | done].
Qed.

Lemma usage_delete (m : gmap string payload) k p :
  m !! k = Some p →
  usage m = String.length k + payload_length p + usage (delete k m).
Proof.
  intros Hk. unfold usage.
  rewrite (map_fold_delete_L _ _ k p m); [done | intros; lia | done].
Qed.

Lemma usage_delete_le (m : gmap string payload) k : usage (delete k m) ≤ usage m.
Proof.
  destruct (m !! k) as [p|] eqn:Hk.
  - rewrite (usage_delete m k p Hk). lia.
  - by rewrite delete_id.
Qed.

Lemma usage_insert_delete_le (m : gmap string payload) k a p :
  usage (<[k := p]> (delete a m)) ≤ usage (<[k := p]> m).
Proof.
  destruct (decide (a = k)) as [->|Hne].
  - by rewrite insert_delete_eq.
  - rewrite <-delete_insert_ne by done. apply usage_delete_le.
Qed.

Lemma usage_le_insert_fresh (m : gmap string payload) k p :
  m !! k = None → usage m ≤ usage (<[k := p]> m).
Proof. intros Hk. rewrite usage_insert_fresh by done. lia. Qed.

Lemma bind_run {A B} (c : js A) (k : A → js B) s :
  (c ≫= k) s =
  match c s with
  | (Return a, s') => k a s'
  | (Throw e, s') => (Throw e, s')
  end.
Proof. reflexivity. Qed.

Lemma available_denied s : available s = true → denied s = false.
Proof. unfold available. destruct (denied s); naive_solver. Qed.

Lemma items_probed s : items (probed s) = delete storage_test (items s).
Proof. reflexivity. Qed.

Lemma probed_idemp s : probed (probed s) = probed s.
Proof. unfold probed, with_items. simpl. by rewrite delete_delete_eq. Qed.

Lemma available_probed s : available (probed s) = available s.
Proof. unfold available, probed. simpl. by rewrite insert_delete_eq. Qed.

Lemma probed_absent s : items s !! storage_test = None → probed s = s.
Proof.
  intros H. unfold probed, with_items. rewrite delete_id by done. by destruct s.
Qed.

(** The probe answers [available] and, when it succeeds, leaves the medium
    without the sentinel key; a failed probe changes nothing. *)
Lemma isStorageAvailable_run s :
  isStorageAvailable s =
  (Return (available s), if available s then probed s else s).
Proof.
  unfold isStorageAvailable, try_catch, available. rewrite bind_run.
  unfold setItem. destruct (denied s) eqn:Hd; simpl; [done|].
  destruct (_ <=? _) eqn:Hq; simpl; [|done].
  rewrite bind_run. unfold removeItem, with_items. simpl. rewrite Hd.
  unfold probed, with_items. simpl. by rewrite delete_insert_eq, Hd.
Qed.

Lemma stored_probed this s :
  analysesKey this ≠ storage_test → stored this (probed s) = stored this s.
Proof.
  intros Hk. unfold stored. rewrite items_probed. by rewrite lookup_delete_ne.
Qed.

(** [getAnalyses] never throws: it returns the persisted collection when
    the probe succeeds and the empty array otherwise. *)
Lemma getAnalyses_run this s :
  getAnalyses this s =
  if available s then (Return (stored this (probed s)), probed s)
  else (Return (JArr []), s).
Proof.
  unfold getAnalyses. rewrite bind_run, isStorageAvailable_run.
  destruct (available s) eqn:Ha; simpl; [|done].
  unfold try_catch. rewrite bind_run. unfold getItem.
  replace (denied (probed s)) with false
    by (symmetry; apply available_denied; by rewrite available_probed).
  unfold stored, probed at 1. simpl.
  destruct (delete storage_test (items s) !! analysesKey this) as [[t|v]|];
    [destruct t | |]; reflexivity.
Qed.

Lemma getAnalyses_available this s :
  analysesKey this ≠ storage_test → available s = true →
  run (getAnalyses this) s = Return (stored this s).
Proof.
  intros Hk Ha. unfold run. rewrite getAnalyses_run, Ha. simpl.
  by rewrite stored_probed.
Qed.

End MediumFacts.

(** ** What each operation of the store does to the medium *)
Module StorageFacts.
Import SoilStorage Spec MediumFacts.

Lemma getStorageInfo_state s :
  items s !! storage_test = None → (getStorageInfo s).2 = s ∧ ∃ i, (getStorageInfo s).1 = Return i.
Proof.
  intros Ht. unfold getStorageInfo. rewrite bind_run, isStorageAvailable_run.
  destruct (available s) eqn:Ha; simpl; [|eauto].
  rewrite probed_absent by done. rewrite bind_run. unfold entries.
  rewrite (available_denied s Ha). split; [reflexivity | eauto].
Qed.

Lemma saveAnalysis_run this env a s :
  analysesKey this ≠ storage_test →
  saveAnalysis this env a s =
  if available s then
    match stored this s with
    | JArr l =>
        let m := <[analysesKey this :=
                     Doc (JArr (capped this (JObj (completed env a) :: l)))]>
                   (items (probed s)) in
        if usage m <=? quota s
        then (Return (completed env a !! "id"), with_items s m)
        else (Throw (Error "Failed to save analysis"), probed s)
    | _ => (Throw (Error "Failed to save analysis"), probed s)
    end
  else (Throw (Error "LocalStorage is not available"), s).
Proof.
  intros Hk. unfold saveAnalysis. rewrite bind_run, isStorageAvailable_run.
  destruct (available s) eqn:Ha; simpl; [|done].
  unfold try_catch. rewrite bind_run, getAnalyses_run, available_probed, Ha.
  rewrite probed_idemp, stored_probed by done.
  destruct (stored this s) as [| | | |l|] eqn:Hs; try reflexivity.
  rewrite bind_run. unfold lift, as_array. rewrite bind_run.
  unfold setItem, JSON_stringify.
  replace (denied (probed s)) with false by (symmetry; exact (available_denied s Ha)).
  fold (completed env a). fold (capped this (JObj (completed env a) :: l)).
  change (quota (probed s)) with (quota s).
  destruct (_ <=? _) eqn:Hq; [|reflexivity].
  rewrite bind_run. unfold updateStorageInfo.
  set (s1 := with_items (probed s) _).
  destruct (getStorageInfo_state s1) as [Hst [i Hi]].
  { unfold s1. simpl. rewrite lookup_insert_ne by done. apply lookup_delete_eq. }
  destruct (getStorageInfo s1) as [o s2]. simpl in Hst, Hi. subst o s2.
  reflexivity.
Qed.

Lemma updateAnalysis_run this id u s :
  analysesKey this ≠ storage_test →
  updateAnalysis this id u s =
  if available s then
    match stored this s with
    | JArr l =>
        match findIndex (id_is id) l with
        | Return index =>
            if (index =? -1)%Z
            then (Throw (Error "Failed to update analysis"), probed s)
            else
              let i := Z.to_nat index in
              let updated := JObj (u ∪ spread (default JNull (l !! i))) in
              let m := <[analysesKey this := Doc (JArr (<[i := updated]> l))]>
                         (items (probed s)) in
              if usage m <=? quota s
              then (Return true, with_items s m)
              else (Throw (Error "Failed to update analysis"), probed s)
        | Throw _ => (Throw (Error "Failed to update analysis"), probed s)
        end
    | _ => (Throw (Error "Failed to update analysis"), probed s)
    end
  else (Throw (Error "LocalStorage is not available"), s).
Proof.
  intros Hk. unfold updateAnalysis. rewrite bind_run, isStorageAvailable_run.
  destruct (available s) eqn:Ha; simpl; [|done].
  unfold try_catch. rewrite bind_run, getAnalyses_run, available_probed, Ha.
  rewrite probed_idemp, stored_probed by done.
  destruct (stored this s) as [| | | |l|] eqn:Hs; try reflexivity.
  rewrite bind_run. unfold lift at 1, as_array. rewrite bind_run. unfold lift.
  destruct (findIndex (id_is id) l) as [index|e]; [|reflexivity].
  destruct (index =? -1)%Z; [reflexivity|].
  rewrite bind_run. unfold setItem, JSON_stringify.
  replace (denied (probed s)) with false by (symmetry; exact (available_denied s Ha)).
  change (quota (probed s)) with (quota s).
  cbv zeta. destruct (_ <=? _); reflexivity.
Qed.

Lemma deleteAnalysis_run this id s :
  analysesKey this ≠ storage_test →
  deleteAnalysis this id s =
  if available s then
    match stored this s with
    | JArr l =>
        match filter (id_is_not id) l with
        | Return filtered =>
            let m := <[analysesKey this := Doc (JArr filtered)]> (items (probed s)) in
            if usage m <=? quota s
            then (Return true, with_items s m)
            else (Throw (Error "Failed to delete analysis"), probed s)
        | Throw _ => (Throw (Error "Failed to delete analysis"), probed s)
        end
    | _ => (Throw (Error "Failed to delete analysis"), probed s)
    end
  else (Throw (Error "LocalStorage is not available"), s).
Proof.
  intros Hk. unfold deleteAnalysis. rewrite bind_run, isStorageAvailable_run.
  destruct (available s) eqn:Ha; simpl; [|done].
  unfold try_catch. rewrite bind_run, getAnalyses_run, available_probed, Ha.
  rewrite probed_idemp, stored_probed by done.
  destruct (stored this s) as [| | | |l|] eqn:Hs; try reflexivity.
  rewrite bind_run. unfold lift at 1, as_array. rewrite bind_run. unfold lift.
  destruct (filter (id_is_not id) l) as [filtered|e]; [|reflexivity].
  rewrite bind_run. unfold setItem, JSON_stringify.
  replace (denied (probed s)) with false by (symmetry; exact (available_denied s Ha)).
  change (quota (probed s)) with (quota s).
  cbv zeta. destruct (_ <=? _); reflexivity.
Qed.

Lemma clearAnalyses_run this s :
  clearAnalyses this s =
  if available s
  then (Return true, with_items s (delete (analysesKey this) (items (probed s))))
  else (Throw (Error "LocalStorage is not available"), s).
Proof.
  unfold clearAnalyses. rewrite bind_run, isStorageAvailable_run.
  destruct (available s) eqn:Ha; simpl; [|done].
  unfold try_catch. rewrite bind_run. unfold removeItem.
  replace (denied (probed s)) with false by (symmetry; exact (available_denied s Ha)).
  reflexivity.
Qed.

(** *** The array callbacks *)

Lemma findIndex_from_first cb (l : list json) i k x :
  l !! k = Some x → cb x = Return true →
  (∀ j y, j < k → l !! j = Some y → cb y = Return false) →
  findIndex_from i cb l = Return (Z.of_nat (i + k)).
Proof.
  revert i k. induction l as [|y l IH]; intros i k Hx Hhit Hbefore; [done|].
  destruct k as [|k]; simpl in *.
  - injection Hx as ->. rewrite Hhit. simpl. by rewrite Nat.add_0_r.
  - rewrite (Hbefore 0 y) by (done || lia). simpl.
    rewrite (IH (S i) k); [f_equal; lia | done | done |].
    intros j z Hj Hz. apply (Hbefore (S j)); [lia | done].
Qed.

Lemma findIndex_from_found cb (l : list json) i index :
  findIndex_from i cb l = Return index → index ≠ (-1)%Z →
  ∃ k x, index = Z.of_nat (i + k) ∧ l !! k = Some x ∧ cb x = Return true.
Proof.
  revert i. induction l as [|y l IH]; intros i Hrun Hne; simpl in Hrun.
  - congruence.
  - destruct (cb y) as [[|]|e] eqn:Hy; simpl in Hrun; [| |done].
    + injection Hrun as <-. exists 0, y. by rewrite Nat.add_0_r.
    + destruct (IH _ Hrun Hne) as (k & x & -> & Hk & Hx).
      exists (S k), x. split_and!; [f_equal; lia | done | done].
Qed.

Lemma filter_all cb (l : list json) :
  (∀ x, x ∈ l → cb x = Return true) → filter cb l = Return l.
Proof.
  induction l as [|y l IH]; intros Hall; [done|]. simpl.
  rewrite (Hall y) by set_solver. simpl. rewrite IH by set_solver. done.
Qed.

Lemma filter_sublist cb (l l' : list json) :
  filter cb l = Return l' → l' `sublist_of` l.
Proof.
  revert l'. induction l as [|y l IH]; intros l' Hrun; simpl in Hrun.
  - by injection Hrun as <-.
  - destruct (cb y) as [keep|e]; simpl in Hrun; [|done].
    destruct (filter cb l) as [rest|e]; simpl in Hrun; [|done].
    injection Hrun as <-. specialize (IH rest eq_refl).
    destruct keep; by constructor.
Qed.

(** A filter whose callback does not throw is the list filter. *)
Lemma filter_pure cb (p : json → bool) (l : list json) :
  (∀ x, x ∈ l → cb x = Return (p x)) → filter cb l = Return (List.filter p l).
Proof.
  induction l as [|y l IH]; intros Hall; [done|]. simpl.
  rewrite (Hall y) by set_solver. simpl. rewrite IH by set_solver. simpl.
  by destruct (p y).
Qed.

End StorageFacts.

(** ** Properties of the record store *)
Module StorageProperties.
Import SoilStorage Spec MediumFacts StorageFacts.

Lemma capped_take this (l : list json) : capped this l = take (maxStorageSize this) l.
Proof.
  unfold capped. destruct (_ <? _) eqn:Hc; [done|].
  apply Nat.ltb_ge in Hc. by rewrite take_ge.
Qed.

Lemma take_app_take {A} n (a b : list A) : take n (a ++ take n b) = take n (a ++ b).
Proof. rewrite !take_app, take_take. do 2 f_equal. lia. Qed.

(** A save that returns found an array, stored the completed record in
    front of it, cut the array to the capacity and returned the id. *)
Lemma saveAnalysis_returns this env a s v s' :
  analysesKey this ≠ storage_test →
  saveAnalysis this env a s = (Return v, s') →
  available s = true ∧ items s' !! storage_test = None ∧
  v = completed env a !! "id" ∧
  ∃ l, stored this s = JArr l ∧
       stored this s' = JArr (take (maxStorageSize this) (JObj (completed env a) :: l)).
Proof.
  intros Hk Hrun. rewrite saveAnalysis_run in Hrun by done.
  destruct (available s); [|done]. split; [done|].
  destruct (stored this s) as [| | | |l|]; try done.
  cbv zeta in Hrun. destruct (_ <=? _); [|done].
  injection Hrun as <- <-. split_and!.
  - simpl. rewrite lookup_insert_ne by done. apply lookup_delete_eq.
  - done.
  - exists l. split; [done|]. unfold stored. simpl.
    by rewrite lookup_insert_eq, capped_take.
Qed.

Lemma save_all_stored this calls : ∀ s s' old,
  analysesKey this ≠ storage_test →
  save_all this calls s = (Return (), s') →
  stored this s = JArr old →
  stored this s' =
  JArr (match calls with
        | [] => old
        | _ => take (maxStorageSize this) (rev (saved calls) ++ old)
        end).
Proof.
  induction calls as [|[env a] rest IH]; intros s s' old Hk Hrun Hold.
  - injection Hrun as <-. done.
  - simpl in Hrun. rewrite bind_run in Hrun.
    destruct (saveAnalysis this env a s) as [[v|e] s1] eqn:Hsave; [|done].
    apply saveAnalysis_returns in Hsave as (_ & _ & _ & l & Hl & Hs1); [|done].
    rewrite Hold in Hl. injection Hl as <-.
    rewrite (IH s1 s' _ Hk Hrun Hs1). f_equal.
    change (saved ((env, a) :: rest)) with (JObj (completed env a) :: saved rest).
    simpl rev. rewrite <-app_assoc. simpl.
    destruct rest as [|c rest]; [done|]. apply take_app_take.
Qed.

(** C1, as the code has it. After a sequence of saves that all return, the
    collection kept under the analyses key is the records saved, most
    recent first, in front of what was stored before, cut to the capacity:
    each save puts its record at the head and the cut removes from the
    tail. When there were more saves than the capacity, it is exactly the
    [maxStorageSize] most recently saved records. [getAnalyses] returns
    that collection when the medium still passes the probe after the saves,
    and the empty array when it does not. *)
Theorem saveAnalysis_keeps_most_recent this calls s s' :
  analysesKey this ≠ storage_test →
  calls ≠ [] →
  save_all this calls s = (Return (), s') →
  ∃ old,
    run (getAnalyses this) s = Return (JArr old) ∧
    stored this s' = JArr (take (maxStorageSize this) (rev (saved calls) ++ old)) ∧
    (maxStorageSize this < length calls →
     stored this s' = JArr (take (maxStorageSize this) (rev (saved calls))) ∧
     length (take (maxStorageSize this) (rev (saved calls))) = maxStorageSize this) ∧
    run (getAnalyses this) s' =
      Return (if available s' then stored this s' else JArr []).
Proof.
  intros Hk Hne Hrun.
  destruct calls as [|[env a] rest]; [done|].
  assert (available s = true ∧ ∃ old, stored this s = JArr old) as [Ha [old Hold]].
  { simpl in Hrun. rewrite bind_run in Hrun.
    destruct (saveAnalysis this env a s) as [[v|e] s1] eqn:Hsave; [|done].
    apply saveAnalysis_returns in Hsave as (? & _ & _ & l & ? & _); eauto. }
  exists old. rewrite getAnalyses_available by done.
  rewrite (save_all_stored _ _ _ _ _ Hk Hrun Hold).
  split_and!; [by f_equal | done | |].
  - intros Hlen.
    assert (maxStorageSize this ≤ length (rev (saved ((env, a) :: rest)))) as Hle.
    { rewrite length_rev. unfold saved. rewrite length_map. lia. }
    rewrite take_app_le by done. split; [done|].
    rewrite length_take. lia.
  - unfold run. rewrite getAnalyses_run.
    destruct (available s'); cbn [fst]; [|done].
    by rewrite stored_probed, (save_all_stored _ _ _ _ _ Hk Hrun Hold).
Qed.

Lemma saveAnalysis_keeps_most_recent_witness :
  stored Examples.two_slots Examples.after_three_saves =
    JArr [JObj (completed Examples.noon Examples.record_c);
          JObj (completed Examples.noon Examples.record_b)] ∧
  run (getAnalyses Examples.two_slots) Examples.after_three_saves =
    Return (JArr [JObj (completed Examples.noon Examples.record_c);
                  JObj (completed Examples.noon Examples.record_b)]).
Proof.
  destruct (saveAnalysis_keeps_most_recent Examples.two_slots Examples.three_saves
              Examples.empty_medium Examples.after_three_saves)
    as (old & _ & _ & Hmore & Hlist).
  - discriminate.
  - discriminate.
  - vm_compute. reflexivity.
  - destruct Hmore as [Hstored _]; [simpl; lia|].
    split; [exact Hstored|]. rewrite Hlist, Hstored.
    replace (available Examples.after_three_saves) with true
      by (vm_compute; reflexivity).
    reflexivity.
Defined.

(** C1, counterexample: on a medium with room for 220 characters three
    saves into a store of capacity 2 all return and leave the two most
    recent records under the analyses key; the medium is then too full for
    the sentinel of the probe, and [getAnalyses] returns the empty array,
    not the two records. *)
Lemma getAnalyses_empty_after_saves :
  run (save_all Examples.two_slots Examples.three_saves) Examples.small_medium
    = Return () ∧
  stored Examples.two_slots
    (exec (save_all Examples.two_slots Examples.three_saves) Examples.small_medium)
    = JArr [JObj (completed Examples.noon Examples.record_c);
            JObj (completed Examples.noon Examples.record_b)] ∧
  run (save_all Examples.two_slots Examples.three_saves;;
       getAnalyses Examples.two_slots) Examples.small_medium
    = Return (JArr []).
Proof. split_and!; vm_compute; reflexivity. Qed.

Lemma getAnalyses_nonempty_available this s x l :
  run (getAnalyses this) s = Return (JArr (x :: l)) → available s = true.
Proof.
  unfold run. rewrite getAnalyses_run. by destruct (available s).
Qed.

(** C2. When [getAnalyses] returns the records [rs], [r] is the first of
    them whose id is [id], and the medium accepts the write, then
    [updateAnalysis id u] returns [true] and the stored collection is [rs]
    with [r] replaced by a record that has, for every field named in [u],
    the value [u] gives it (a nested object as a whole) and, for every
    other field, the value it had in [r]; every other record is the one it
    was. *)
Theorem updateAnalysis_replaces_named_fields this id u s rs k r :
  analysesKey this ≠ storage_test →
  run (getAnalyses this) s = Return (JArr (JObj <$> rs)) →
  rs !! k = Some r →
  strict_eq_value (r !! "id") id = true →
  (∀ j r', j < k → rs !! j = Some r' → strict_eq_value (r' !! "id") id = false) →
  accepts s (analysesKey this) (Doc (JArr (JObj <$> <[k := u ∪ r]> rs))) = true →
  ∃ s' r',
    updateAnalysis this id u s = (Return true, s') ∧
    stored this s' = JArr (JObj <$> <[k := r']> rs) ∧
    (available s' = true →
     run (getAnalyses this) s' = Return (JArr (JObj <$> <[k := r']> rs))) ∧
    (∀ f, r' !! f = match u !! f with Some v => Some v | None => r !! f end) ∧
    (∀ j, j ≠ k → <[k := r']> rs !! j = rs !! j).
Proof.
  intros Hk Hlist Hr Hid Hfirst Hfits.
  assert (available s = true) as Ha.
  { destruct rs as [|r0 rs0]; [done|]. by eapply getAnalyses_nonempty_available. }
  rewrite getAnalyses_available in Hlist by done. injection Hlist as Hs.
  assert (findIndex (id_is id) (JObj <$> rs) = Return (Z.of_nat k)) as Hidx.
  { apply (findIndex_from_first _ _ 0 k (JObj r)).
    - by rewrite list_lookup_fmap, Hr.
    - unfold id_is. simpl. by rewrite Hid.
    - intros j y Hj Hy. rewrite list_lookup_fmap in Hy.
      destruct (rs !! j) as [r'|] eqn:Hr'; [|done]. injection Hy as <-.
      unfold id_is. simpl. by rewrite (Hfirst j r'). }
  exists (with_items s
            (<[analysesKey this := Doc (JArr (JObj <$> <[k := u ∪ r]> rs))]>
               (items (probed s)))), (u ∪ r).
  split_and!.
  - rewrite updateAnalysis_run, Ha, Hs, Hidx by done.
    replace (Z.of_nat k =? -1)%Z with false by (symmetry; apply Z.eqb_neq; lia).
    cbv zeta. rewrite Nat2Z.id, list_lookup_fmap, Hr. simpl.
    rewrite <-list_fmap_insert. unfold accepts in Hfits. simpl in Hfits.
    by rewrite Hfits.
  - unfold stored. simpl. by rewrite lookup_insert_eq.
  - intros Ha'. rewrite getAnalyses_available by done.
    unfold stored. simpl. by rewrite lookup_insert_eq.
  - intros f. rewrite lookup_union.
    by destruct (u !! f), (r !! f).
  - intros j Hj. by rewrite list_lookup_insert_ne.
Qed.

Lemma updateAnalysis_replaces_named_fields_witness :
  ∃ s' (r' : gmap string json),
    updateAnalysis Examples.two_slots (JStr "a") {[ "videoUrl" := JStr "x" ]}
      Examples.after_two_saves = (Return true, s') ∧
    r' !! "videoUrl" = Some (JStr "x") ∧
    r' !! "story" = Some (JStr "soil") ∧
    r' !! "id" = Some (JStr "a").
Proof.
  destruct (updateAnalysis_replaces_named_fields Examples.two_slots (JStr "a")
              {[ "videoUrl" := JStr "x" ]} Examples.after_two_saves
              [completed Examples.noon Examples.record_b;
               completed Examples.noon Examples.record_a]
              1 (completed Examples.noon Examples.record_a))
    as (s' & r' & Hrun & _ & _ & Hfields & _).
  - discriminate.
  - vm_compute. reflexivity.
  - reflexivity.
  - vm_compute. reflexivity.
  - intros [|j] r0 Hj Hr0; [|lia]. injection Hr0 as <-. vm_compute. reflexivity.
  - vm_compute. reflexivity.
  - exists s', r'. split; [exact Hrun|]. rewrite !Hfields. vm_compute. auto.
Defined.

Lemma probe_fails s : run isStorageAvailable s = Return false ↔ available s = false.
Proof.
  unfold run. rewrite isStorageAvailable_run. simpl. split; [congruence|by intros ->].
Qed.

Local Ltac unavailable Ha :=
  rewrite ?bind_run, ?isStorageAvailable_run, ?getAnalyses_run, ?Ha; try reflexivity.

(** C3. When the probe fails, every mutating operation throws the
    "LocalStorage is not available" error and leaves the medium as it was,
    while the reads return empty results without throwing: [getAnalyses]
    the empty array, [getAnalysis] nothing, [searchAnalyses] the empty
    array, [getAnalysesPaginated] an empty page of a collection of size 0,
    [getStorageInfo] an unavailable medium with no usage, [getSettings] the
    default settings. *)
Theorem unavailable_writes_throw_reads_empty this s env a id u toLowerCase query
    pg pgsize :
  run isStorageAvailable s = Return false →
  saveAnalysis this env a s = (Throw (Error "LocalStorage is not available"), s) ∧
  updateAnalysis this id u s = (Throw (Error "LocalStorage is not available"), s) ∧
  deleteAnalysis this id s = (Throw (Error "LocalStorage is not available"), s) ∧
  clearAnalyses this s = (Throw (Error "LocalStorage is not available"), s) ∧
  getAnalyses this s = (Return (JArr []), s) ∧
  getAnalysis this id s = (Return None, s) ∧
  searchAnalyses toLowerCase this query s = (Return (JArr []), s) ∧
  (∃ p, getAnalysesPaginated this pg pgsize s = (Return p, s) ∧
        data p = JArr [] ∧ total p = 0) ∧
  getStorageInfo s =
    (Return {| SoilStorage.available := false; info_usage := 0; limit := 0;
               percentage := None |}, s) ∧
  getSettings this s = (Return getDefaultSettings, s).
Proof.
  intros Ha. apply probe_fails in Ha. split_and!.
  - unfold saveAnalysis. unavailable Ha.
  - unfold updateAnalysis. unavailable Ha.
  - unfold deleteAnalysis. unavailable Ha.
  - unfold clearAnalyses. unavailable Ha.
  - unavailable Ha.
  - unfold getAnalysis. unavailable Ha.
  - unfold searchAnalyses. unavailable Ha.
    destruct (_ || _); reflexivity.
  - unfold getAnalysesPaginated. unavailable Ha. eexists. split; [reflexivity|].
    split; [|reflexivity]. cbn [data]. unfold slice. by rewrite drop_nil, take_nil.
  - unfold getStorageInfo. unavailable Ha.
  - unfold getSettings. unavailable Ha.
Qed.

Lemma unavailable_writes_throw_reads_empty_witness :
  run (saveAnalysis Examples.two_slots Examples.noon Examples.record_a)
    Examples.disabled_medium = Throw (Error "LocalStorage is not available") ∧
  run (getAnalyses Examples.two_slots) Examples.disabled_medium = Return (JArr []) ∧
  run (saveAnalysis Examples.two_slots Examples.noon Examples.record_a)
    Examples.full_medium = Throw (Error "LocalStorage is not available") ∧
  run (getAnalyses Examples.two_slots) Examples.full_medium = Return (JArr []).
Proof.
  assert (run isStorageAvailable Examples.disabled_medium = Return false) as Hdenied
    by (vm_compute; reflexivity).
  assert (run isStorageAvailable Examples.full_medium = Return false) as Hfull
    by (vm_compute; reflexivity).
  pose proof (unavailable_writes_throw_reads_empty Examples.two_slots
                Examples.disabled_medium Examples.noon Examples.record_a
                JNull ∅ Examples.lower "" None None Hdenied) as (Hsave & _ & _ & _ & Hlist & _).
  pose proof (unavailable_writes_throw_reads_empty Examples.two_slots
                Examples.full_medium Examples.noon Examples.record_a
                JNull ∅ Examples.lower "" None None Hfull) as (Hsave' & _ & _ & _ & Hlist' & _).
  unfold run. rewrite Hsave, Hlist, Hsave', Hlist'. repeat split.
Defined.

(** The scenarios of the specification, run on the model. *)
Example default_capacity : maxStorageSize constructor = 50.
Proof. reflexivity. Qed.

Example scenario_update_story :
  let history :=
    save_all constructor Examples.three_saves;;
    updateAnalysis constructor (JStr "b") {[ "story" := JStr "new" ]};;
    getAnalysis constructor (JStr "b") in
  ∃ r, run history Examples.empty_medium = Return (Some (JObj r)) ∧
       r !! "story" = Some (JStr "new") ∧
       r !! "location" = Examples.record_b !! "location".
Proof. eexists. split; [vm_compute; reflexivity|]. split; vm_compute; reflexivity. Qed.

Example scenario_delete_then_get :
  run (deleteAnalysis Examples.two_slots (JStr "a");;
       getAnalysis Examples.two_slots (JStr "a")) Examples.after_two_saves
  = Return None.
Proof. vm_compute. reflexivity. Qed.

Example scenario_blank_queries :
  run (searchAnalyses Examples.lower Examples.two_slots "") Examples.after_two_saves
    = run (getAnalyses Examples.two_slots) Examples.after_two_saves ∧
  run (searchAnalyses Examples.lower Examples.two_slots "   ") Examples.after_two_saves
    = run (getAnalyses Examples.two_slots) Examples.after_two_saves.
Proof. split; vm_compute; reflexivity. Qed.

(** *** Uniqueness of ids *)

Lemma id_is_true id x :
  id_is id x = Return true → ∃ r, x = JObj r ∧ strict_eq_value (r !! "id") id = true.
Proof.
  unfold id_is. destruct x; simpl; try done. intros [= H]. eauto.
Qed.

Lemma unique_ids_sublist (l l' : list json) :
  l' `sublist_of` l → unique_ids (JArr l) → unique_ids (JArr l').
Proof.
  intros Hsub (l0 & [= <-] & Hnd). exists l'. split; [done|].
  eapply sublist_NoDup; [exact Hnd|]. by apply fmap_sublist.
Qed.

Lemma unique_ids_nil : unique_ids (JArr []).
Proof. exists []. split; [done|]. constructor. Qed.

Lemma perform_keeps_ids_apart this o s :
  analysesKey this ≠ storage_test →
  unique_ids (stored this s) →
  keeps_ids_apart this s o →
  unique_ids (stored this (perform this o s)).
Proof.
  intros Hk Huniq Hop.
  assert (∀ m v, stored this (with_items s (<[analysesKey this := Doc v]> m)) = v)
    as Hwritten by (intros; unfold stored; simpl; by rewrite lookup_insert_eq).
  destruct o as [env a|id u|id|]; unfold perform, exec.
  - rewrite saveAnalysis_run by done.
    destruct (available s); [|done].
    destruct (stored this s) as [| | | |l|] eqn:Hs;
      try (simpl; rewrite stored_probed, Hs by done; exact Huniq).
    cbv zeta. destruct (_ <=? _); simpl;
      [|rewrite stored_probed, Hs by done; exact Huniq].
    rewrite Hwritten, capped_take.
    apply (unique_ids_sublist (JObj (completed env a) :: l)); [apply sublist_take|].
    destruct Huniq as (l0 & [= <-] & Hnd).
    eexists. split; [done|]. rewrite fmap_cons. constructor; [|done].
    simpl. by apply Hop.
  - rewrite updateAnalysis_run by done.
    destruct (available s); [|done].
    destruct (stored this s) as [| | | |l|] eqn:Hs;
      try (simpl; rewrite stored_probed, Hs by done; exact Huniq).
    destruct (findIndex (id_is id) l) as [index|e] eqn:Hidx;
      [|simpl; rewrite stored_probed, Hs by done; exact Huniq].
    destruct (index =? -1)%Z eqn:Hneg;
      [simpl; rewrite stored_probed, Hs by done; exact Huniq|].
    cbv zeta. destruct (_ <=? _); simpl;
      [|rewrite stored_probed, Hs by done; exact Huniq].
    rewrite Hwritten.
    apply Z.eqb_neq in Hneg.
    destruct (findIndex_from_found _ _ _ _ Hidx Hneg) as (k & x & -> & Hx & Hhit).
    apply id_is_true in Hhit as (r & -> & _).
    rewrite Nat2Z.id. simpl. rewrite Hx. simpl.
    destruct Huniq as (l0 & [= <-] & Hnd).
    eexists. split; [done|]. rewrite list_fmap_insert.
    rewrite list_insert_id; [done|].
    rewrite list_lookup_fmap, Hx. simpl. f_equal.
    rewrite lookup_union. simpl in Hop. rewrite Hop.
    by destruct (r !! "id").
  - rewrite deleteAnalysis_run by done.
    destruct (available s); [|done].
    destruct (stored this s) as [| | | |l|] eqn:Hs;
      try (simpl; rewrite stored_probed, Hs by done; exact Huniq).
    destruct (filter (id_is_not id) l) as [filtered|e] eqn:Hf;
      [|simpl; rewrite stored_probed, Hs by done; exact Huniq].
    cbv zeta. destruct (_ <=? _); simpl;
      [|rewrite stored_probed, Hs by done; exact Huniq].
    rewrite Hwritten. eapply unique_ids_sublist; [|exact Huniq].
    by eapply filter_sublist.
  - rewrite clearAnalyses_run.
    destruct (available s); [|done]. simpl.
    unfold stored. simpl. rewrite lookup_delete_eq. apply unique_ids_nil.
Qed.

Lemma completed_id env a :
  completed env a !! "id" =
  if truthy_value (a !! "id") then a !! "id" else Some (JStr (generateId env)).
Proof.
  unfold completed. destruct (truthy_value (a !! "id")) eqn:Hid; simpl.
  - destruct (truthy_value (a !! "timestamp")); simpl; [done|].
    by rewrite lookup_insert_ne.
  - destruct (truthy_value (<["id":=JStr (generateId env)]> a !! "timestamp")); simpl.
    + by rewrite lookup_insert_eq.
    + rewrite lookup_insert_ne by done. by rewrite lookup_insert_eq.
Qed.

(** C5, as the code has it. [saveAnalysis] stores a record under the id it
    carries, and under a generated id only when it carries none (or a falsy
    one); it does not look for that id among the stored records. Starting
    from a collection whose ids are pairwise different, the ids stay
    pairwise different through every history in which each save stores a
    record whose id, given or generated, no stored record has, and no
    update names the [id] field; deletes and clears are unrestricted. *)
Theorem ids_stay_unique this ops : ∀ s,
  analysesKey this ≠ storage_test →
  unique_ids (stored this s) →
  all_keep_ids_apart this s ops →
  unique_ids (stored this (perform_all this ops s)) ∧
  (∀ env a, completed env a !! "id" =
            if truthy_value (a !! "id") then a !! "id"
            else Some (JStr (generateId env))).
Proof.
  intros s Hk Huniq Hops. split; [|apply completed_id].
  revert s Huniq Hops.
  induction ops as [|o ops IH]; intros s Huniq Hops; [done|].
  destruct Hops as [Ho Hrest]. simpl. apply IH; [|done].
  by apply perform_keeps_ids_apart.
Qed.

Lemma ids_stay_unique_witness :
  unique_ids (stored Examples.two_slots
                (perform_all Examples.two_slots
                   [Save Examples.noon Examples.record_a;
                    Save Examples.noon Examples.record_b;
                    Update (JStr "a") {[ "videoUrl" := JStr "x" ]};
                    Delete (JStr "b")]
                   Examples.empty_medium)).
Proof.
  apply ids_stay_unique.
  - discriminate.
  - apply unique_ids_nil.
  - split; [|split; [|split; [|split; exact I]]].
    + intros l Hl. vm_compute in Hl. injection Hl as <-. apply not_elem_of_nil.
    + intros l Hl. vm_compute in Hl. injection Hl as <-. vm_compute.
      intros Hin. apply list_elem_of_singleton in Hin. discriminate Hin.
    + reflexivity.
Defined.

(** C5, counterexample: saving a record that carries the id ["a"] twice
    leaves two stored records with that id. *)
Lemma ids_not_unique_after_saving_twice :
  ∃ v, run (getAnalyses Examples.two_slots) Examples.after_saving_twice = Return v ∧
       ¬ unique_ids v.
Proof.
  exists (JArr [JObj (completed Examples.noon Examples.record_a);
                JObj (completed Examples.noon Examples.record_a)]).
  split; [vm_compute; reflexivity|].
  intros (l & [= <-] & Hnd). rewrite !fmap_cons in Hnd.
  apply NoDup_cons in Hnd as [Hin _].
  apply Hin, list_elem_of_here.
Qed.

(** *** Deleting an id that is not stored *)

(** C6, as the code has it. For an id that no stored record has, on an
    available medium that accepts the write, [deleteAnalysis] returns
    [true], without any error, and the stored collection is the one it
    was. *)
Theorem deleteAnalysis_missing_id_succeeds this id s rs :
  analysesKey this ≠ storage_test →
  available s = true →
  run (getAnalyses this) s = Return (JArr (JObj <$> rs)) →
  (∀ r, r ∈ rs → strict_eq_value (r !! "id") id = false) →
  accepts s (analysesKey this) (Doc (JArr (JObj <$> rs))) = true →
  ∃ s',
    deleteAnalysis this id s = (Return true, s') ∧
    stored this s' = JArr (JObj <$> rs) ∧
    (available s' = true →
     run (getAnalyses this) s' = Return (JArr (JObj <$> rs))).
Proof.
  intros Hk Ha Hlist Hmissing Hfits.
  rewrite getAnalyses_available in Hlist by done. injection Hlist as Hs.
  assert (filter (id_is_not id) (JObj <$> rs) = Return (JObj <$> rs)) as Hf.
  { apply filter_all. intros x Hx. apply list_elem_of_fmap in Hx as (r & -> & Hr).
    unfold id_is_not. simpl. by rewrite (Hmissing r Hr). }
  eexists. split_and!.
  - rewrite deleteAnalysis_run, Ha, Hs, Hf by done. cbv zeta.
    unfold accepts in Hfits. rewrite Hfits. reflexivity.
  - unfold stored. simpl. by rewrite lookup_insert_eq.
  - intros Ha'. rewrite getAnalyses_available by done.
    unfold stored. simpl. by rewrite lookup_insert_eq.
Qed.

Lemma deleteAnalysis_missing_id_succeeds_witness :
  ∃ s', deleteAnalysis Examples.two_slots (JStr "zz") Examples.after_two_saves
        = (Return true, s').
Proof.
  destruct (deleteAnalysis_missing_id_succeeds Examples.two_slots (JStr "zz")
              Examples.after_two_saves
              [completed Examples.noon Examples.record_b;
               completed Examples.noon Examples.record_a])
    as (s' & Hrun & _).
  - discriminate.
  - vm_compute. reflexivity.
  - vm_compute. reflexivity.
  - intros r Hr. apply elem_of_cons in Hr as [->|Hr]; [vm_compute; reflexivity|].
    apply list_elem_of_singleton in Hr as ->. vm_compute. reflexivity.
  - vm_compute. reflexivity.
  - exists s'. exact Hrun.
Defined.

(** C6, counterexample: no stored record has the id ["zz"] ([getAnalysis]
    finds nothing), and [deleteAnalysis] returns [true] instead of throwing. *)
Lemma deleteAnalysis_missing_id_no_error :
  run (getAnalysis Examples.two_slots (JStr "zz")) Examples.after_two_saves
    = Return None ∧
  run (deleteAnalysis Examples.two_slots (JStr "zz")) Examples.after_two_saves
    = Return true ∧
  ¬ ∃ e, run (deleteAnalysis Examples.two_slots (JStr "zz")) Examples.after_two_saves
         = Throw e.
Proof.
  assert (run (deleteAnalysis Examples.two_slots (JStr "zz")) Examples.after_two_saves
          = Return true) as Hrun by (vm_compute; reflexivity).
  split; [vm_compute; reflexivity|]. split; [exact Hrun|].
  intros [e He]. rewrite Hrun in He. discriminate He.
Qed.

(** *** Search *)

Lemma includes_empty term : String.eqb term "" = false → includes "" term = false.
Proof. by destruct term. Qed.

Lemma blank_test query :
  String.eqb query "" || String.eqb (trim query) "" = String.eqb (trim query) "".
Proof. by destruct query. Qed.

Section search_hit.
Variable toLowerCase : string → string.
Variable term : string.
Hypothesis lower_empty : toLowerCase "" = "".
Hypothesis not_blank : String.eqb term "" = false.

Lemma text_hit_contains v :
  is_text v = true →
  text_hit toLowerCase term v = Return (text_contains toLowerCase term v).
Proof.
  destruct v as [[| | |s| |]|]; try done. intros _.
  unfold text_hit, text_contains. simpl.
  destruct s as [|c s]; [|done].
  rewrite lower_empty. by rewrite includes_empty.
Qed.

Lemma coordinate_hit_contains v :
  is_coordinate v = true →
  coordinate_hit term v = coordinate_contains term v.
Proof. by destruct v as [[| |t| | |]|]. Qed.

Lemma location_hit_contains v :
  is_location v = true →
  location_hit term v = Return (location_contains term v).
Proof.
  destruct v as [[| | | | |l]|]; try done. intros [Hlat Hlon]%andb_prop.
  unfold location_hit. simpl.
  by rewrite !coordinate_hit_contains.
Qed.

Lemma search_hit_matches r :
  well_shaped r = true →
  search_hit toLowerCase term (JObj r) = Return (term_matches toLowerCase term r).
Proof.
  intros [[Hstory Htime]%andb_prop Hloc]%andb_prop.
  unfold search_hit, term_matches. simpl.
  rewrite text_hit_contains by done. simpl.
  destruct (text_contains toLowerCase term (r !! "story")); [done|].
  rewrite location_hit_contains by done. simpl.
  destruct (location_contains term (r !! "location")); simpl;
    [by rewrite orb_true_r|].
  rewrite text_hit_contains by done. simpl. by rewrite orb_false_r.
Qed.
End search_hit.

Lemma filter_records (p : gmap string json → bool) (rs : list (gmap string json)) :
  List.filter (λ x, match x with JObj r => p r | _ => false end) (JObj <$> rs)
  = JObj <$> List.filter p rs.
Proof.
  induction rs as [|r rs IH]; [done|].
  rewrite fmap_cons. cbn [List.filter]. rewrite IH. by destruct (p r).
Qed.

(** The filter of the search on records of the data model's shape. *)
Lemma filter_search_hit toLowerCase term rs :
  toLowerCase "" = "" →
  String.eqb term "" = false →
  Forall (λ r, well_shaped r = true) rs →
  filter (search_hit toLowerCase term) (JObj <$> rs)
  = Return (JObj <$> List.filter (term_matches toLowerCase term) rs).
Proof.
  intros Hempty Hterm Hshape.
  rewrite (filter_pure _ (λ x, match x with
                               | JObj r => term_matches toLowerCase term r
                               | _ => false
                               end)).
  - by rewrite filter_records.
  - intros x Hx. apply list_elem_of_fmap in Hx as (r & -> & Hr).
    apply search_hit_matches; [done | done |].
    by eapply Forall_forall in Hshape.
Qed.

(** C8, as the code has it. For a collection of records of the data
    model's shape: a query that is empty or all white space returns the
    whole list; any other query returns exactly the records for which the
    search term, that is the query in lower case with the white space at
    its two ends removed, is a substring of the story in lower case, of the
    timestamp in lower case, or of the text of a coordinate of the
    location. Lower case is what the engine's [toLowerCase] gives, of which
    the statement uses that it maps the empty string to itself and a query
    that is not blank to text that is not blank. *)
Theorem searchAnalyses_matches_trimmed_query toLowerCase this s rs query :
  toLowerCase "" = "" →
  (String.eqb (trim query) "" = false →
   String.eqb (trim (toLowerCase query)) "" = false) →
  run (getAnalyses this) s = Return (JArr (JObj <$> rs)) →
  Forall (λ r, well_shaped r = true) rs →
  run (searchAnalyses toLowerCase this query) s =
  Return (JArr (JObj <$>
    (if String.eqb (trim query) "" then rs
     else List.filter (term_matches toLowerCase (trim (toLowerCase query))) rs))).
Proof.
  intros Hempty Hterm Hlist Hshape. unfold run in *. unfold searchAnalyses.
  rewrite bind_run.
  destruct (getAnalyses this s) as [[v|e] s1]; simpl in Hlist; [|done].
  injection Hlist as ->. rewrite blank_test.
  destruct (String.eqb (trim query) "") eqn:Hblank; [done|].
  rewrite bind_run. unfold lift at 1, as_array. rewrite bind_run. unfold lift.
  by rewrite filter_search_hit by auto.
Qed.

Lemma searchAnalyses_matches_trimmed_query_witness :
  run (searchAnalyses Examples.lower Examples.two_slots " LOAM ") Examples.after_two_saves
  = Return (JArr [JObj (completed Examples.noon Examples.record_b)]).
Proof.
  rewrite (searchAnalyses_matches_trimmed_query Examples.lower Examples.two_slots
             Examples.after_two_saves
             [completed Examples.noon Examples.record_b;
              completed Examples.noon Examples.record_a]).
  - vm_compute. reflexivity.
  - reflexivity.
  - intros _. vm_compute. reflexivity.
  - vm_compute. reflexivity.
  - repeat constructor.
Defined.

(** C8, counterexample: the query [" soil"] is not a case-insensitive
    substring of the story ["soil"], of the timestamp or of a coordinate of
    the one stored record, and the search returns that record. This is so
    for every [toLowerCase] that acts on Basic Latin text as the engines
    do. *)
Lemma searchAnalyses_trims_the_query :
  let rs := [completed Examples.noon Examples.record_a] in
  run (getAnalyses Examples.two_slots) Examples.after_one_save
    = Return (JArr (JObj <$> rs)) ∧
  ∀ toLowerCase : string → string,
    (∀ text, Examples.basic_latin text = true → toLowerCase text = Examples.lower text) →
    List.filter (spec_matches toLowerCase " soil") rs = [] ∧
    run (searchAnalyses toLowerCase Examples.two_slots " soil") Examples.after_one_save
      = Return (JArr (JObj <$> rs)) ∧
    run (searchAnalyses toLowerCase Examples.two_slots " soil") Examples.after_one_save
      ≠ Return (JArr (JObj <$> List.filter (spec_matches toLowerCase " soil") rs)).
Proof.
  cbv zeta.
  assert (getAnalyses Examples.two_slots Examples.after_one_save
          = (Return (JArr (JObj <$> [completed Examples.noon Examples.record_a])),
             exec (getAnalyses Examples.two_slots) Examples.after_one_save)) as Hget
    by (vm_compute; reflexivity).
  split; [unfold run; by rewrite Hget|].
  intros toLowerCase Hlatin.
  set (r := completed Examples.noon Examples.record_a) in *.
  assert (r !! "story" = Some (JStr "soil")) as Hstory by (vm_compute; reflexivity).
  assert (r !! "timestamp" = Some (JStr "2023-11-14T22:13:20.000Z")) as Htime
    by (vm_compute; reflexivity).
  assert (r !! "location" = None) as Hloc by (vm_compute; reflexivity).
  assert (well_shaped r = true) as Hshape by (vm_compute; reflexivity).
  assert (List.filter (spec_matches toLowerCase " soil") [r] = []) as Hnone.
  { cbn [List.filter]. unfold spec_matches. rewrite Hstory, Htime, Hloc.
    unfold text_matches, location_matches, ci_substring.
    rewrite !Hlatin by reflexivity. vm_compute. reflexivity. }
  assert (run (searchAnalyses toLowerCase Examples.two_slots " soil")
            Examples.after_one_save = Return (JArr (JObj <$> [r]))) as Hrun.
  { unfold run, searchAnalyses. rewrite bind_run, Hget, blank_test.
    rewrite (Hlatin " soil") by reflexivity.
    change (trim (Examples.lower " soil")) with "soil".
    change (String.eqb (trim " soil") "") with false. cbv iota.
    rewrite bind_run. unfold lift at 1, as_array. rewrite bind_run. unfold lift.
    rewrite filter_search_hit;
      [| apply (Hlatin ""); reflexivity | reflexivity | by constructor].
    cbn [List.filter fst]. unfold term_matches. rewrite Hstory, Htime, Hloc.
    unfold text_contains. rewrite !Hlatin by reflexivity.
    vm_compute. reflexivity. }
  split; [exact Hnone|]. split; [exact Hrun|].
  rewrite Hrun, Hnone. discriminate.
Qed.

(** A query of one NO-BREAK SPACE is blank and returns the whole list; the
    white space that [trim] removes is the one of ECMAScript. *)
Example scenario_no_break_space_query toLowerCase :
  run (searchAnalyses toLowerCase Examples.two_slots Examples.no_break_space)
    Examples.after_two_saves
  = run (getAnalyses Examples.two_slots) Examples.after_two_saves.
Proof.
  unfold run, searchAnalyses. rewrite bind_run.
  destruct (getAnalyses Examples.two_slots Examples.after_two_saves) as [[v|e] s1];
    reflexivity.
Qed.

Example trim_spaced_loam : trim Examples.spaced_loam = "loam".
Proof. vm_compute. reflexivity. Qed.

(** *** Pagination *)

Lemma slice_page {A} (l : list A) (start size : Z) :
  (0 ≤ start)%Z → (0 ≤ size)%Z →
  slice l start (start + size) = take (Z.to_nat size) (drop (Z.to_nat start) l).
Proof.
  intros Hstart Hsize. unfold slice, relative_index.
  replace (start <? 0)%Z with false by (symmetry; apply Z.ltb_ge; lia).
  replace (start + size <? 0)%Z with false by (symmetry; apply Z.ltb_ge; lia).
  destruct (decide (Z.of_nat (length l) ≤ start)%Z) as [Hpast|Hin].
  - rewrite (drop_ge l (Z.to_nat start)) by lia.
    rewrite (drop_ge l) by lia. by rewrite !take_nil.
  - replace (Z.min start (Z.of_nat (length l))) with start by lia.
    destruct (decide (start + size ≤ Z.of_nat (length l))%Z) as [Hfull|Hshort].
    + do 2 f_equal. lia.
    + rewrite !take_ge; [done | rewrite length_drop; lia | rewrite length_drop; lia].
Qed.

Lemma ceil_div_spec (n : nat) (d : Z) :
  (1 ≤ d)%Z →
  ∃ t, ceil_div n d = Finite t ∧ ((t - 1) * d < Z.of_nat n ≤ t * d)%Z.
Proof.
  intros Hd. unfold ceil_div.
  replace (d =? 0)%Z with false by (symmetry; apply Z.eqb_neq; lia).
  eexists. split; [reflexivity|].
  pose proof (Z.mul_div_le (- Z.of_nat n) d ltac:(lia)) as Hlow.
  pose proof (Z.mul_succ_div_gt (- Z.of_nat n) d ltac:(lia)) as Hhigh.
  set (q := (- Z.of_nat n / d)%Z) in *.
  rewrite Z.mul_succ_r in Hhigh.
  replace ((- q - 1) * d)%Z with (- (d * q) - d)%Z by ring.
  replace (- q * d)%Z with (- (d * q))%Z by ring.
  lia.
Qed.

(** C9. For a collection of [n] records, a page number and a page size
    that are at least 1, [getAnalysesPaginated] returns the slice of
    [pageSize] records that starts at index [(page - 1) * pageSize], the
    total [n], the page and the page size it was given, and as number of
    pages the least [t] with [n ≤ t * pageSize]; the slice is empty for a
    page past the end. *)
Theorem getAnalysesPaginated_slices this s l p size :
  run (getAnalyses this) s = Return (JArr l) →
  (1 ≤ p)%Z → (1 ≤ size)%Z →
  ∃ pg,
    run (getAnalysesPaginated this (Some p) (Some size)) s = Return pg ∧
    data pg = JArr (take (Z.to_nat size) (drop (Z.to_nat ((p - 1) * size)) l)) ∧
    total pg = length l ∧
    page pg = p ∧
    pageSize pg = size ∧
    (∃ t, totalPages pg = Finite t ∧
          ((t - 1) * size < Z.of_nat (length l) ≤ t * size)%Z) ∧
    ((Z.of_nat (length l) ≤ (p - 1) * size)%Z → data pg = JArr []).
Proof.
  intros Hlist Hp Hsize. unfold run in *. unfold getAnalysesPaginated.
  rewrite bind_run.
  destruct (getAnalyses this s) as [[v|e] s1]; simpl in Hlist; [|done].
  injection Hlist as ->. rewrite bind_run. unfold lift.
  eexists. split; [reflexivity|]. cbn [data total page pageSize totalPages default from_option id].
  rewrite slice_page by nia.
  split_and!; try done.
  - by apply ceil_div_spec.
  - intros Hpast. by rewrite drop_ge, take_nil by lia.
Qed.

Lemma getAnalysesPaginated_slices_witness :
  ∃ pg,
    run (getAnalysesPaginated constructor (Some 3%Z) (Some 12%Z))
      Examples.after_five_saves = Return pg ∧
    data pg = JArr [] ∧ total pg = 5 ∧ totalPages pg = Finite 1.
Proof.
  destruct (getAnalysesPaginated_slices constructor Examples.after_five_saves
              (saved (rev Examples.five_saves)) 3 12)
    as (pg & Hrun & _ & Htotal & _ & _ & (t & Hpages & Ht) & Hpast).
  - vm_compute. reflexivity.
  - lia.
  - lia.
  - exists pg. split; [exact Hrun|]. split; [apply Hpast; vm_compute; discriminate|].
    split; [exact Htotal|]. rewrite Hpages. f_equal.
    change (Z.of_nat (length (saved (rev Examples.five_saves)))) with 5%Z in Ht. lia.
Defined.

(** *** Clearing the history and the settings *)

Lemma getSettings_run this s :
  getSettings this s =
  if available s
  then (Return (read_settings (items (probed s) !! settingsKey this)), probed s)
  else (Return getDefaultSettings, s).
Proof.
  unfold getSettings. rewrite bind_run, isStorageAvailable_run.
  destruct (available s) eqn:Ha; simpl; [|done].
  unfold try_catch. rewrite bind_run. unfold getItem.
  replace (denied (probed s)) with false by (symmetry; exact (available_denied s Ha)).
  unfold read_settings, probed at 1. simpl.
  destruct (delete storage_test (items s) !! settingsKey this) as [[t|v]|];
    [destruct t | |]; reflexivity.
Qed.

Lemma available_after_clear this s :
  available s = true →
  available (with_items s (delete (analysesKey this) (items (probed s)))) = true.
Proof.
  unfold available. simpl. intros [Hd Hq]%andb_prop. rewrite Hd. simpl.
  apply Nat.leb_le in Hq. apply Nat.leb_le.
  etrans; [apply usage_insert_delete_le|].
  by rewrite insert_delete_eq.
Qed.

(** C10. [clearAnalyses] removes the analyses key and, through the probe,
    the sentinel key, and nothing else: every other key keeps its value,
    and [getSettings] returns after the call what it returned before it.
    The settings key is a key other than the analyses key. *)
Theorem clearAnalyses_keeps_settings this s :
  settingsKey this ≠ analysesKey this →
  run (getSettings this) (exec (clearAnalyses this) s) = run (getSettings this) s ∧
  (∀ k, k ≠ analysesKey this → k ≠ storage_test →
        items (exec (clearAnalyses this) s) !! k = items s !! k).
Proof.
  intros Hkeys. unfold run, exec. rewrite clearAnalyses_run.
  destruct (available s) eqn:Ha; [|done]. simpl. split.
  - rewrite !getSettings_run, Ha, available_after_clear by done. simpl.
    f_equal. rewrite !lookup_delete.
    repeat case_decide; congruence.
  - intros k Hk Ht. by rewrite !lookup_delete_ne.
Qed.

Lemma clearAnalyses_keeps_settings_witness :
  run (getSettings constructor) (exec (clearAnalyses constructor) Examples.with_settings)
    = run (getSettings constructor) Examples.with_settings ∧
  run (getSettings constructor) Examples.with_settings
    = Return (<["theme" := JStr "dark"]> getDefaultSettings) ∧
  run (getAnalyses constructor) (exec (clearAnalyses constructor) Examples.with_settings)
    = Return (JArr []).
Proof.
  destruct (clearAnalyses_keeps_settings constructor Examples.with_settings)
    as [Hsame _]; [discriminate|].
  split; [exact Hsame|]. split; vm_compute; reflexivity.
Defined.

End StorageProperties.

(** ** Properties of the API client *)
Module APIProperties.
Import SoilAPI.

Local Open Scope Q_scope.

Lemma floor_half_range (m M : Z) (y : Q) :
  inject_Z m <= y → y <= inject_Z M → (m ≤ Qfloor (y + (1 # 2)) ≤ M)%Z.
Proof.
  intros Hlow Hhigh. split.
  - rewrite <-(Qfloor_Z m). apply Qfloor_resp_le. lra.
  - pose proof (Qfloor_le (y + (1 # 2))) as Hfloor.
    apply Z.lt_succ_r. rewrite Zlt_Qlt. unfold Z.succ. rewrite inject_Z_plus.
    change (inject_Z 1) with 1. lra.
Qed.

Lemma Math_round_range (m M : Z) (a b x : Q) :
  a == inject_Z m → b == inject_Z M →
  a <= x → x <= b →
  a <= Math_round x ∧ Math_round x <= b.
Proof.
  intros Ha Hb Hlow Hhigh. unfold Math_round.
  destruct (floor_half_range m M x) as [Hm HM]; [lra..|].
  rewrite Zle_Qle in Hm, HM. split; lra.
Qed.

Lemma Qabs_nonneg (x : Q) : 0 <= x → Qabs x = x.
Proof.
  destruct x as [n d]. unfold Qle, Qabs. simpl. intros Hn.
  f_equal. apply Z.abs_eq. lia.
Qed.

Lemma toFixed1_range (m M : Z) (a b x : Q) :
  a * 10 == inject_Z m → b * 10 == inject_Z M →
  0 <= a → a <= x → x <= b →
  a <= parseFloat_toFixed x 1 ∧ parseFloat_toFixed x 1 <= b.
Proof.
  intros Ha Hb Hapos Hlow' Hhigh'.
  assert (0 <= x) as Hpos by lra.
  assert (inject_Z m <= x * 10) as Hlow by lra.
  assert (x * 10 <= inject_Z M) as Hhigh by lra.
  unfold parseFloat_toFixed, negative, fixed_digits.
  replace (Qle_bool 0 x) with true by (symmetry; by apply Qle_bool_iff).
  rewrite (Qabs_nonneg x Hpos). cbn [negb].
  change (inject_Z (10 ^ Z.of_nat 1)) with 10.
  destruct (floor_half_range m M (x * 10) Hlow Hhigh) as [Hm HM].
  rewrite Zle_Qle in Hm, HM.
  unfold Qdiv. change (/ 10) with (1 # 10). split; lra.
Qed.

Lemma getRandomValue_run min max decimals rnd i :
  getRandomValue min max decimals rnd i =
  (let value := rnd i * (max - min) + min in
   if (decimals =? 0)%nat then Math_round value else parseFloat_toFixed value decimals,
   S i).
Proof. reflexivity. Qed.

(** The five draws of the analysis. *)
Lemma demoData_analysis env imageFile location rnd :
  analysis (demoData env imageFile location rnd 0%nat).1 =
  {| pH := (getRandomValue (55 # 10) 8 1 rnd 0%nat).1;
     OM := (getRandomValue 1 5 1 rnd 1%nat).1;
     P := (getRandomValue 10 50 0 rnd 2%nat).1;
     EC := (getRandomValue (5 # 10) (25 # 10) 1 rnd 3%nat).1;
     moisture := (getRandomValue 15 35 0 rnd 4%nat).1 |}.
Proof. destruct location; reflexivity. Qed.

Lemma demoData_weather env imageFile location rnd :
  is_Some (weather (demoData env imageFile location rnd 0%nat).1) ↔ is_Some location.
Proof. destruct location; split; intros [x Hx]; (done || eauto). Qed.

Lemma demoData_isDemo env imageFile location rnd :
  isDemo (demoData env imageFile location rnd 0%nat).1 = true.
Proof. destruct location; reflexivity. Qed.

(** C4. When the health check resolves to [false], [analyzeSoil] resolves,
    two seconds later, to a successful result whose data is a demo record:
    it is flagged [isDemo], its five soil values lie in their ranges (pH in
    [5.5, 8.0], organic matter in [1.0, 5.0], phosphorus in [10, 50],
    electrical conductivity in [0.5, 2.5], moisture in [15, 35]) for every
    sequence of draws from [0, 1), and it has weather data exactly when a
    location was passed. *)
Theorem analyzeSoil_demo_when_unhealthy this fetch env rnd imageFile location t :
  (∀ i, 0 <= rnd i ∧ rnd i < 1) →
  checkHealth this fetch = Settles t (Return false) →
  ∃ d,
    analyzeSoil this fetch env rnd imageFile location
      = Settles (t + 2000) (Return (succeeded (Analysis d))) ∧
    isDemo d = true ∧
    (55 # 10 <= pH (analysis d) ∧ pH (analysis d) <= 8) ∧
    (1 <= OM (analysis d) ∧ OM (analysis d) <= 5) ∧
    (10 <= P (analysis d) ∧ P (analysis d) <= 50) ∧
    (5 # 10 <= EC (analysis d) ∧ EC (analysis d) <= 25 # 10) ∧
    (15 <= moisture (analysis d) ∧ moisture (analysis d) <= 35) ∧
    (is_Some (weather d) ↔ is_Some location).
Proof.
  intros Hrnd Hhealth.
  exists (demoData env imageFile location rnd 0%nat).1.
  split; [unfold analyzeSoil; by rewrite Hhealth|].
  split; [apply demoData_isDemo|].
  rewrite demoData_analysis, !getRandomValue_run.
  cbn [pH OM P EC moisture fst Nat.eqb].
  pose proof (Hrnd 0%nat) as [? ?]. pose proof (Hrnd 1%nat) as [? ?].
  pose proof (Hrnd 2%nat) as [? ?]. pose proof (Hrnd 3%nat) as [? ?].
  pose proof (Hrnd 4%nat) as [? ?].
  split; [apply (toFixed1_range 55 80); [reflexivity | reflexivity | lra..]|].
  split; [apply (toFixed1_range 10 50); [reflexivity | reflexivity | lra..]|].
  split; [apply (Math_round_range 10 50); [reflexivity | reflexivity | lra..]|].
  split; [apply (toFixed1_range 5 25); [reflexivity | reflexivity | lra..]|].
  split; [apply (Math_round_range 15 35); [reflexivity | reflexivity | lra..]|].
  apply demoData_weather.
Qed.

Lemma analyzeSoil_demo_when_unhealthy_witness :
  ∃ d,
    analyzeSoil Examples.api Examples.offline Examples.browser Examples.halves
      Examples.photo None = Settles 2010 (Return (succeeded (Analysis d))) ∧
    isDemo d = true ∧
    (55 # 10 <= pH (analysis d) ∧ pH (analysis d) <= 8) ∧
    weather d = None.
Proof.
  destruct (analyzeSoil_demo_when_unhealthy Examples.api Examples.offline
              Examples.browser Examples.halves Examples.photo None 10)
    as (d & Hrun & Hdemo & HpH & _ & _ & _ & _ & Hweather).
  - intros i. unfold Examples.halves. split; [discriminate | reflexivity].
  - reflexivity.
  - exists d. split; [exact Hrun|]. split; [exact Hdemo|]. split; [exact HpH|].
    destruct (weather d) as [w|]; [|reflexivity].
    destruct Hweather as [Hsome _]. destruct Hsome as [l Hl]; [by exists w|].
    discriminate Hl.
Defined.

(** *** Time bounds *)

(** C7 does not hold of the code. The [timeout] of the client is only
    copied into the options passed to [fetch], which does not read it, and
    [checkHealth] and [analyzeSoil] do not pass it at all: an operation
    settles when its requests settle. On a network that never answers, the
    health check, the analysis, the video request and the history never
    settle; on a network that answers after 45 seconds they settle after
    45 seconds and more, past the 30 seconds of [timeout]. *)
Theorem timeout_is_not_enforced env rnd imageFile location analysisId url :
  timeout Examples.api = 30000%N ∧
  checkHealth Examples.api Examples.hanging = Never ∧
  analyzeSoil Examples.api Examples.hanging env rnd imageFile location = Never ∧
  generateVideo Examples.api Examples.hanging analysisId None None = Never ∧
  getHistory Examples.api Examples.hanging = Never ∧
  makeRequest Examples.api Examples.hanging url no_options = Never ∧
  checkHealth Examples.api Examples.slow = Settles 45000 (Return true) ∧
  analyzeSoil Examples.api Examples.slow env rnd imageFile location
    = Settles 90000 (Return (succeeded (Remote (JObj ∅)))) ∧
  (∃ r, makeRequest Examples.api Examples.slow url no_options
        = Settles 45000 (Return r)).
Proof.
  split_and!; try reflexivity. eexists. reflexivity.
Qed.

End APIProperties.

(** ** Further properties of the record store *)
Module StorageExtras.
Import SoilStorage Spec Spec2 MediumFacts StorageFacts StorageProperties.

Lemma getAnalysis_run this id s l :
  run (getAnalyses this) s = Return (JArr l) →
  run (getAnalysis this id) s = find (id_is id) l.
Proof.
  unfold run, getAnalysis. rewrite bind_run.
  destruct (getAnalyses this s) as [[v|e] s1]; simpl; [|done].
  intros [= ->]. rewrite bind_run. reflexivity.
Qed.

Lemma find_none id (rs : list (gmap string json)) :
  (∀ r, r ∈ rs → strict_eq_value (r !! "id") id = false) →
  find (id_is id) (JObj <$> rs) = Return None.
Proof.
  induction rs as [|r rs IH]; intros Hnone; [done|].
  rewrite fmap_cons. cbn [find]. unfold id_is at 1. cbn [member obind].
  rewrite (Hnone r) by apply list_elem_of_here.
  apply IH. intros r' Hr'. apply Hnone. by apply list_elem_of_further.
Qed.

Lemma findIndex_from_none id (rs : list (gmap string json)) i :
  (∀ r, r ∈ rs → strict_eq_value (r !! "id") id = false) →
  findIndex_from i (id_is id) (JObj <$> rs) = Return (-1)%Z.
Proof.
  revert i. induction rs as [|r rs IH]; intros i Hnone; [done|].
  rewrite fmap_cons. cbn [findIndex_from]. unfold id_is at 1. cbn [member obind].
  rewrite (Hnone r) by apply list_elem_of_here.
  apply IH. intros r' Hr'. apply Hnone. by apply list_elem_of_further.
Qed.

Lemma filter_other_id id (rs : list (gmap string json)) :
  filter (id_is_not id) (JObj <$> rs) = Return (JObj <$> List.filter (other_id id) rs).
Proof.
  rewrite (filter_pure _ (λ x, match x with JObj r => other_id id r | _ => false end)).
  - by rewrite filter_records.
  - intros x Hx. apply list_elem_of_fmap in Hx as (r & -> & _). reflexivity.
Qed.

(** A save that returned can be read back: on a store with room for at
    least one record, [getAnalysis] with the id the save returned finds the
    record as it was stored, also when older records carry the same id. The
    id is a primitive value; the medium still passes the probe. *)
Theorem saveAnalysis_then_getAnalysis this env a s id s' :
  analysesKey this ≠ storage_test →
  0 < maxStorageSize this →
  saveAnalysis this env a s = (Return (Some id), s') →
  primitive id = true →
  available s' = true →
  run (getAnalysis this id) s' = Return (Some (JObj (completed env a))).
Proof.
  intros Hk Hcap Hsave Hprim Ha'.
  apply saveAnalysis_returns in Hsave as (_ & _ & Hid & l & _ & Hs'); [|done].
  rewrite (getAnalysis_run this id s' (take (maxStorageSize this) (JObj (completed env a) :: l))).
  - destruct (maxStorageSize this) as [|c]; [lia|]. cbn [take find].
    unfold id_is. cbn [member obind]. rewrite <-Hid. cbn [strict_eq_value].
    unfold primitive in Hprim. by rewrite Hprim.
  - rewrite getAnalyses_available by done. by rewrite Hs'.
Qed.

Lemma saveAnalysis_then_getAnalysis_witness :
  run (getAnalysis Examples.two_slots (JStr "b")) Examples.after_two_saves
  = Return (Some (JObj (completed Examples.noon Examples.record_b))).
Proof.
  apply (saveAnalysis_then_getAnalysis Examples.two_slots Examples.noon
           Examples.record_b Examples.after_one_save).
  - discriminate.
  - simpl. lia.
  - vm_compute. reflexivity.
  - reflexivity.
  - vm_compute. reflexivity.
Defined.

(** The id a save returns is never falsy: it is the id the record carried,
    or the generated one, which starts with ["analysis_"]. *)
Theorem saveAnalysis_returns_truthy_id this env a s v s' :
  analysesKey this ≠ storage_test →
  saveAnalysis this env a s = (Return v, s') →
  truthy_value v = true ∧
  (truthy_value (a !! "id") = true → v = a !! "id") ∧
  (truthy_value (a !! "id") = false →
   ∃ suffix, v = Some (JStr ("analysis_" +:+ suffix))).
Proof.
  intros Hk Hsave.
  apply saveAnalysis_returns in Hsave as (_ & _ & -> & _); [|done].
  rewrite completed_id.
  destruct (truthy_value (a !! "id")) eqn:Hid; split_and!; try done.
  intros _. eexists. reflexivity.
Qed.

Lemma saveAnalysis_returns_truthy_id_witness :
  ∃ v, run (saveAnalysis Examples.two_slots Examples.noon Examples.record_c)
         Examples.empty_medium = Return v ∧ truthy_value v = true.
Proof.
  destruct (saveAnalysis Examples.two_slots Examples.noon Examples.record_c
              Examples.empty_medium) as [[v|e] s'] eqn:Hrun;
    [|vm_compute in Hrun; discriminate Hrun].
  exists v. split; [unfold run; rewrite Hrun; reflexivity|].
  assert (analysesKey Examples.two_slots ≠ storage_test) as Hk by discriminate.
  exact (proj1 (saveAnalysis_returns_truthy_id _ _ _ _ _ _ Hk Hrun)).
Defined.

(** *** Deleting, updating and clearing *)

Lemma json_length_array (l : list json) :
  json_length (JArr l) = 2 + foldr (λ x acc, json_length x + acc) 0 l + (length l - 1).
Proof. reflexivity. Qed.

Lemma json_length_sublist (l' l : list json) :
  l' `sublist_of` l → json_length (JArr l') ≤ json_length (JArr l).
Proof.
  intros Hsub. rewrite !json_length_array.
  assert (foldr (λ x acc, json_length x + acc) 0 l'
          ≤ foldr (λ x acc, json_length x + acc) 0 l) as Hsum.
  { induction Hsub as [|x l1 l2 _ IH|x l1 l2 _ IH]; simpl; lia. }
  pose proof (sublist_length _ _ Hsub). lia.
Qed.

Lemma usage_replace_le (m : gmap string payload) k p p' :
  m !! k = Some p → payload_length p' ≤ payload_length p →
  usage (<[k := p']> m) ≤ usage m.
Proof.
  intros Hk Hlen. rewrite <-(insert_delete_eq m k p').
  rewrite usage_insert_fresh by apply lookup_delete_eq.
  rewrite (usage_delete m k p Hk). lia.
Qed.

(** Replacing the stored collection by a shorter text is always accepted,
    and the probe still passes afterwards. *)
Lemma shrinking_write this s p p' :
  analysesKey this ≠ storage_test →
  available s = true →
  items s !! analysesKey this = Some p →
  payload_length p' ≤ payload_length p →
  accepts s (analysesKey this) p' = true ∧
  available (with_items s (<[analysesKey this := p']> (items (probed s)))) = true.
Proof.
  intros Hk Ha Hp Hlen.
  pose proof Ha as [Hd Hq]%andb_prop. apply Nat.leb_le in Hq.
  assert (usage (<[analysesKey this := p']>
                   (<[storage_test := Raw storage_test]> (items s))) ≤ quota s) as Hfit.
  { etrans; [|exact Hq]. eapply usage_replace_le; [|exact Hlen].
    by rewrite lookup_insert_ne. }
  split.
  - unfold accepts. apply Nat.leb_le. etrans; [|exact Hfit].
    rewrite items_probed, (insert_insert_ne _ (analysesKey this)) by done.
    rewrite <-(insert_delete_eq (<[analysesKey this:=p']> (items s)) storage_test).
    rewrite delete_insert_ne by done.
    apply usage_le_insert_fresh.
    rewrite lookup_insert_ne by done. apply lookup_delete_eq.
  - unfold available. simpl. rewrite Hd. simpl. apply Nat.leb_le.
    etrans; [|exact Hfit].
    rewrite (insert_insert_ne _ storage_test) by done.
    by rewrite insert_delete_eq.
Qed.

(** Deleting removes every stored record with the id, keeps the others in
    their order, and cannot fail for lack of space; afterwards
    [getAnalysis] finds nothing under the id. *)
Theorem deleteAnalysis_removes_every_match this id s rs :
  analysesKey this ≠ storage_test →
  available s = true →
  items s !! analysesKey this = Some (Doc (JArr (JObj <$> rs))) →
  ∃ s',
    deleteAnalysis this id s = (Return true, s') ∧
    run (getAnalyses this) s' = Return (JArr (JObj <$> List.filter (other_id id) rs)) ∧
    run (getAnalysis this id) s' = Return None.
Proof.
  intros Hk Ha Hitems.
  assert (stored this s = JArr (JObj <$> rs)) as Hs by (unfold stored; by rewrite Hitems).
  set (kept := List.filter (other_id id) rs).
  destruct (shrinking_write this s _ (Doc (JArr (JObj <$> kept))) Hk Ha Hitems)
    as [Hfits Ha'].
  { apply json_length_sublist, fmap_sublist.
    unfold kept. clear. induction rs as [|r rs IH]; [done|]. simpl.
    destruct (other_id id r); by constructor. }
  eexists. split_and!.
  - rewrite deleteAnalysis_run, Ha, Hs, filter_other_id by done. cbv zeta.
    unfold accepts in Hfits. fold kept. rewrite Hfits. reflexivity.
  - rewrite getAnalyses_available by done.
    unfold stored. simpl. by rewrite lookup_insert_eq.
  - erewrite getAnalysis_run.
    + apply find_none. intros r Hr. unfold kept in Hr.
      apply list_elem_of_In, filter_In in Hr as [_ Hr].
      unfold other_id in Hr. by apply negb_true_iff in Hr.
    + rewrite getAnalyses_available by done.
      unfold stored. simpl. by rewrite lookup_insert_eq.
Qed.

Lemma deleteAnalysis_removes_every_match_witness :
  run (deleteAnalysis Examples.two_slots (JStr "a");;
       getAnalyses Examples.two_slots) Examples.after_saving_twice
  = Return (JArr []).
Proof.
  destruct (deleteAnalysis_removes_every_match Examples.two_slots (JStr "a")
              Examples.after_saving_twice
              [completed Examples.noon Examples.record_a;
               completed Examples.noon Examples.record_a])
    as (s' & Hrun & Hlist & _).
  - discriminate.
  - vm_compute. reflexivity.
  - vm_compute. reflexivity.
  - unfold run in *. rewrite bind_run, Hrun. rewrite Hlist.
    vm_compute. reflexivity.
Defined.

(** Updating an id that no stored record has throws, and what the caller
    sees is the general "Failed to update analysis", not "Analysis not
    found"; the stored collection is not touched. *)
Theorem updateAnalysis_missing_id_fails this id u s rs :
  analysesKey this ≠ storage_test →
  available s = true →
  run (getAnalyses this) s = Return (JArr (JObj <$> rs)) →
  (∀ r, r ∈ rs → strict_eq_value (r !! "id") id = false) →
  ∃ s',
    updateAnalysis this id u s = (Throw (Error "Failed to update analysis"), s') ∧
    run (getAnalyses this) s' = Return (JArr (JObj <$> rs)).
Proof.
  intros Hk Ha Hlist Hnone.
  rewrite getAnalyses_available in Hlist by done. injection Hlist as Hs.
  exists (probed s). split.
  - rewrite updateAnalysis_run, Ha, Hs by done.
    unfold findIndex. by rewrite findIndex_from_none.
  - rewrite getAnalyses_available by (done || by rewrite available_probed).
    by rewrite stored_probed, Hs.
Qed.

Lemma updateAnalysis_missing_id_fails_witness :
  run (updateAnalysis Examples.two_slots (JStr "zz") {[ "videoUrl" := JStr "x" ]})
    Examples.after_two_saves = Throw (Error "Failed to update analysis").
Proof.
  destruct (updateAnalysis_missing_id_fails Examples.two_slots (JStr "zz")
              {[ "videoUrl" := JStr "x" ]} Examples.after_two_saves
              [completed Examples.noon Examples.record_b;
               completed Examples.noon Examples.record_a])
    as (s' & Hrun & _).
  - discriminate.
  - vm_compute. reflexivity.
  - vm_compute. reflexivity.
  - intros r Hr. apply elem_of_cons in Hr as [->|Hr]; [vm_compute; reflexivity|].
    apply list_elem_of_singleton in Hr as ->. vm_compute. reflexivity.
  - unfold run. rewrite Hrun. reflexivity.
Defined.

(** Clearing an available medium always succeeds; afterwards the medium
    still passes the probe, [getAnalyses] returns the empty array whatever
    was stored, and the usage has gone down by at least the key and the text
    that were stored under it. *)
Theorem clearAnalyses_empties this s :
  available s = true →
  ∃ s',
    clearAnalyses this s = (Return true, s') ∧
    available s' = true ∧
    run (getAnalyses this) s' = Return (JArr []) ∧
    usage (items s') ≤ usage (items s) ∧
    (∀ p, analysesKey this ≠ storage_test →
          items s !! analysesKey this = Some p →
          usage (items s') + String.length (analysesKey this) + payload_length p
          ≤ usage (items s)).
Proof.
  intros Ha. eexists. split_and!.
  - by rewrite clearAnalyses_run, Ha.
  - by apply available_after_clear.
  - unfold run. rewrite getAnalyses_run, available_after_clear by done.
    unfold stored. simpl. rewrite !lookup_delete.
    repeat case_decide; done.
  - simpl. etrans; apply usage_delete_le.
  - intros p Hk Hp. simpl.
    rewrite (usage_delete (items s) (analysesKey this) p Hp).
    rewrite delete_delete. pose proof (usage_delete_le (delete (analysesKey this) (items s)) storage_test).
    lia.
Qed.

Lemma clearAnalyses_empties_witness :
  run (clearAnalyses Examples.two_slots;; getAnalyses Examples.two_slots)
    corrupt_medium = Return (JArr []).
Proof.
  destruct (clearAnalyses_empties Examples.two_slots corrupt_medium)
    as (s' & Hrun & _ & Hlist & _).
  - vm_compute. reflexivity.
  - unfold run in *. rewrite bind_run, Hrun. exact Hlist.
Defined.

(** *** Failures and damaged contents *)

Lemma same_entries_refl s : same_entries s s.
Proof. by intros k _. Qed.

Lemma same_entries_probed s : same_entries s (probed s).
Proof. intros k Hk. rewrite items_probed. by rewrite lookup_delete_ne. Qed.

(** The probe never throws and never touches a key other than its
    sentinel, the quota or the access flag; when it succeeds, whatever was
    stored under the sentinel key before is gone. *)
Theorem isStorageAvailable_frame s :
  ∃ b,
    run isStorageAvailable s = Return b ∧
    same_entries s (exec isStorageAvailable s) ∧
    denied (exec isStorageAvailable s) = denied s ∧
    quota (exec isStorageAvailable s) = quota s ∧
    (b = true → items (exec isStorageAvailable s) !! storage_test = None).
Proof.
  exists (available s). unfold run, exec. rewrite isStorageAvailable_run. simpl.
  destruct (available s); split_and!; try done.
  - apply same_entries_probed.
  - intros _. rewrite items_probed. apply lookup_delete_eq.
Qed.

(** A mutating operation that throws has written nothing: every key other
    than the sentinel holds what it held before the call, and the error is
    one of the two the operation declares. *)
Theorem failed_operation_writes_nothing this s :
  analysesKey this ≠ storage_test →
  (∀ env a e s', saveAnalysis this env a s = (Throw e, s') →
     same_entries s s' ∧
     (e = Error "LocalStorage is not available" ∨ e = Error "Failed to save analysis")) ∧
  (∀ id u e s', updateAnalysis this id u s = (Throw e, s') →
     same_entries s s' ∧
     (e = Error "LocalStorage is not available" ∨ e = Error "Failed to update analysis")) ∧
  (∀ id e s', deleteAnalysis this id s = (Throw e, s') →
     same_entries s s' ∧
     (e = Error "LocalStorage is not available" ∨ e = Error "Failed to delete analysis")) ∧
  (∀ e s', clearAnalyses this s = (Throw e, s') →
     same_entries s s' ∧ e = Error "LocalStorage is not available").
Proof.
  intros Hk. split_and!.
  - intros env a e s'. rewrite saveAnalysis_run by done.
    destruct (available s); [|intros [= <- <-]; eauto using same_entries_refl].
    destruct (stored this s); try (intros [= <- <-]; eauto using same_entries_probed).
    cbv zeta. destruct (_ <=? _); [done|].
    intros [= <- <-]; eauto using same_entries_probed.
  - intros id u e s'. rewrite updateAnalysis_run by done.
    destruct (available s); [|intros [= <- <-]; eauto using same_entries_refl].
    destruct (stored this s) as [| | | |l|];
      try (intros [= <- <-]; eauto using same_entries_probed).
    destruct (findIndex (id_is id) l) as [index|e0];
      [|intros [= <- <-]; eauto using same_entries_probed].
    destruct (index =? -1)%Z; [intros [= <- <-]; eauto using same_entries_probed|].
    cbv zeta. destruct (_ <=? _); [done|].
    intros [= <- <-]; eauto using same_entries_probed.
  - intros id e s'. rewrite deleteAnalysis_run by done.
    destruct (available s); [|intros [= <- <-]; eauto using same_entries_refl].
    destruct (stored this s) as [| | | |l|];
      try (intros [= <- <-]; eauto using same_entries_probed).
    destruct (filter (id_is_not id) l) as [kept|e0];
      [|intros [= <- <-]; eauto using same_entries_probed].
    cbv zeta. destruct (_ <=? _); [done|].
    intros [= <- <-]; eauto using same_entries_probed.
  - intros e s'. rewrite clearAnalyses_run.
    destruct (available s); [done|]. intros [= <- <-]. eauto using same_entries_refl.
Qed.

Lemma failed_operation_writes_nothing_witness :
  ∃ s', saveAnalysis Examples.two_slots Examples.noon Examples.record_b tight_medium
        = (Throw (Error "Failed to save analysis"), s') ∧
        same_entries tight_medium s'.
Proof.
  destruct (saveAnalysis Examples.two_slots Examples.noon Examples.record_b tight_medium)
    as [[v|e] s'] eqn:Hrun; [vm_compute in Hrun; discriminate Hrun|].
  assert (analysesKey Examples.two_slots ≠ storage_test) as Hk by discriminate.
  destruct (failed_operation_writes_nothing Examples.two_slots tight_medium Hk)
    as (Hsave & _).
  destruct (Hsave _ _ _ _ Hrun) as [Hsame _].
  exists s'. split; [|exact Hsame].
  f_equal. vm_compute in Hrun. injection Hrun as <- _. reflexivity.
Defined.

(** Text under the analyses key that is not JSON is read as an empty
    history, and the next save that the medium accepts replaces it by the
    array of the one saved record: the damaged text is dropped, not
    repaired. *)
Theorem damaged_collection_is_replaced this env a s text :
  analysesKey this ≠ storage_test →
  available s = true →
  items s !! analysesKey this = Some (Raw text) →
  accepts s (analysesKey this) (Doc (JArr (capped this [JObj (completed env a)]))) = true →
  run (getAnalyses this) s = Return (JArr []) ∧
  ∃ s',
    saveAnalysis this env a s = (Return (completed env a !! "id"), s') ∧
    items s' !! analysesKey this
      = Some (Doc (JArr (capped this [JObj (completed env a)]))).
Proof.
  intros Hk Ha Hraw Hfits.
  assert (stored this s = JArr []) as Hs by (unfold stored; by rewrite Hraw).
  split; [by rewrite getAnalyses_available, Hs|].
  eexists. split.
  - rewrite saveAnalysis_run, Ha, Hs by done. cbv zeta.
    unfold accepts in Hfits. rewrite Hfits. reflexivity.
  - simpl. by rewrite lookup_insert_eq.
Qed.

Lemma damaged_collection_is_replaced_witness :
  run (getAnalyses Examples.two_slots) corrupt_medium = Return (JArr []) ∧
  run (saveAnalysis Examples.two_slots Examples.noon Examples.record_a;;
       getAnalyses Examples.two_slots) corrupt_medium
  = Return (JArr [JObj (completed Examples.noon Examples.record_a)]).
Proof.
  destruct (damaged_collection_is_replaced Examples.two_slots Examples.noon
              Examples.record_a corrupt_medium "[{oops")
    as (Hlist & s' & Hrun & Hitems).
  - discriminate.
  - vm_compute. reflexivity.
  - vm_compute. reflexivity.
  - vm_compute. reflexivity.
  - split; [exact Hlist|]. vm_compute. reflexivity.
Defined.

(** When the text under the analyses key is JSON but not an array,
    [getAnalyses] hands that value to its caller, [getAnalysis] and a
    search with a non-blank query throw a [TypeError], and the three
    operations that rewrite the collection fail without writing. *)
Theorem non_array_collection this s v :
  analysesKey this ≠ storage_test →
  available s = true →
  items s !! analysesKey this = Some (Doc v) →
  isArray v = false →
  run (getAnalyses this) s = Return v ∧
  (∀ id, run (getAnalysis this id) s = Throw TypeError) ∧
  (∀ toLowerCase query,
     String.eqb (trim query) "" = false →
     run (searchAnalyses toLowerCase this query) s = Throw TypeError) ∧
  (∀ env a, saveAnalysis this env a s
            = (Throw (Error "Failed to save analysis"), probed s)) ∧
  (∀ id u, updateAnalysis this id u s
           = (Throw (Error "Failed to update analysis"), probed s)) ∧
  (∀ id, deleteAnalysis this id s
         = (Throw (Error "Failed to delete analysis"), probed s)).
Proof.
  intros Hk Ha Hdoc Hv.
  assert (stored this s = v) as Hs by (unfold stored; by rewrite Hdoc).
  assert (getAnalyses this s = (Return v, probed s)) as Hget.
  { by rewrite getAnalyses_run, Ha, stored_probed, Hs. }
  split_and!.
  - unfold run. by rewrite Hget.
  - intros id. unfold run, getAnalysis. rewrite bind_run, Hget, bind_run.
    by destruct v.
  - intros toLowerCase query Hquery. unfold run, searchAnalyses.
    rewrite bind_run, Hget, blank_test, Hquery.
    rewrite bind_run. by destruct v.
  - intros env a. rewrite saveAnalysis_run, Ha, Hs by done. by destruct v.
  - intros id u. rewrite updateAnalysis_run, Ha, Hs by done. by destruct v.
  - intros id. rewrite deleteAnalysis_run, Ha, Hs by done. by destruct v.
Qed.

Lemma non_array_collection_witness :
  run (getAnalyses Examples.two_slots) object_medium
    = Return (JObj {[ "id" := JStr "a" ]}) ∧
  run (getAnalysis Examples.two_slots (JStr "a")) object_medium = Throw TypeError ∧
  run (searchAnalyses Examples.lower Examples.two_slots "soil") object_medium
    = Throw TypeError ∧
  run (saveAnalysis Examples.two_slots Examples.noon Examples.record_b) object_medium
    = Throw (Error "Failed to save analysis").
Proof.
  destruct (non_array_collection Examples.two_slots object_medium
              (JObj {[ "id" := JStr "a" ]}))
    as (Hlist & Hget & Hsearch & Hsave & _).
  - discriminate.
  - vm_compute. reflexivity.
  - vm_compute. reflexivity.
  - reflexivity.
  - split; [exact Hlist|]. split; [apply Hget|].
    split; [apply Hsearch; reflexivity|].
    unfold run. rewrite Hsave. reflexivity.
Defined.

(** *** Settings *)

Lemma saveSettings_run this v s :
  saveSettings this v s =
  if available s then
    if accepts s (settingsKey this) (Doc v)
    then (Return true,
          with_items s (<[settingsKey this := Doc v]> (items (probed s))))
    else (Throw (Error "Failed to save settings"), probed s)
  else (Throw (Error "LocalStorage is not available"), s).
Proof.
  unfold saveSettings. rewrite bind_run, isStorageAvailable_run.
  destruct (available s) eqn:Ha; simpl; [|done].
  unfold try_catch. rewrite bind_run. unfold setItem, JSON_stringify, accepts.
  replace (denied (probed s)) with false by (symmetry; exact (available_denied s Ha)).
  change (quota (probed s)) with (quota s).
  destruct (_ <=? _); reflexivity.
Qed.

Lemma union_defaults_twice (m : gmap string json) :
  (m ∪ getDefaultSettings) ∪ getDefaultSettings = m ∪ getDefaultSettings.
Proof.
  apply map_eq. intros k. rewrite !lookup_union.
  by destruct (m !! k), (getDefaultSettings !! k).
Qed.

Lemma union_defaults_twice_read data :
  read_settings data ∪ getDefaultSettings = read_settings data.
Proof.
  unfold read_settings. destruct data as [[[|c t]|v]|];
    first [apply union_defaults_twice | apply map_eq; intros k; rewrite lookup_union;
           by destruct (getDefaultSettings !! k)].
Qed.

(** Settings that were saved are read back merged over the defaults: a key
    of the saved object has the saved value, every other key the default
    one. The settings key is not the sentinel key, and the medium still
    passes the probe. *)
Theorem saveSettings_then_getSettings this o s b s' :
  settingsKey this ≠ storage_test →
  saveSettings this (JObj o) s = (Return b, s') →
  available s' = true →
  ∃ m,
    run (getSettings this) s' = Return m ∧
    ∀ k, m !! k = match o !! k with
                  | Some v => Some v
                  | None => getDefaultSettings !! k
                  end.
Proof.
  intros Hk Hsave Ha'. rewrite saveSettings_run in Hsave.
  destruct (available s); [|done]. destruct (accepts _ _ _); [|done].
  injection Hsave as <- <-.
  exists (o ∪ getDefaultSettings). split.
  - unfold run. rewrite getSettings_run, Ha'. simpl.
    rewrite lookup_delete_ne, lookup_insert_eq by done. reflexivity.
  - intros k. rewrite lookup_union.
    by destruct (o !! k), (getDefaultSettings !! k).
Qed.

Lemma saveSettings_then_getSettings_witness :
  ∃ m, run (getSettings constructor) Examples.with_settings = Return m ∧
       m !! "theme" = Some (JStr "dark") ∧
       m !! "language" = Some (JStr "en").
Proof.
  destruct (saveSettings_then_getSettings constructor {[ "theme" := JStr "dark" ]}
              Examples.after_two_saves true Examples.with_settings)
    as (m & Hrun & Hm).
  - discriminate.
  - vm_compute. reflexivity.
  - vm_compute. reflexivity.
  - exists m. split; [exact Hrun|]. rewrite !Hm. split; vm_compute; reflexivity.
Defined.

(** [getSettings] never throws, and whatever is stored under the settings
    key (nothing, damaged text, JSON of any shape) its result has a value
    for each of the five default keys. *)
Theorem getSettings_has_every_default this s :
  ∃ m,
    run (getSettings this) s = Return m ∧
    ∀ k, is_Some (getDefaultSettings !! k) → is_Some (m !! k).
Proof.
  unfold run. rewrite getSettings_run.
  destruct (available s); cbn [fst]; [|eauto].
  generalize (items (probed s) !! settingsKey this). intros data.
  exists (read_settings data). split; [reflexivity|]. intros k Hk.
  unfold read_settings.
  destruct data as [[[|c t]|v]|]; try done;
    apply lookup_union_is_Some; by right.
Qed.

(** *** Export and import *)

Lemma exportData_run this env s :
  analysesKey this ≠ storage_test →
  exportData this env s =
  if available s then
    (Return (Doc (JObj (<["analyses" := stored this s]>
                         (<["settings" :=
                              JObj (read_settings (items (probed s) !! settingsKey this))]>
                           (<["exportDate" := JStr (toISOString env)]>
                             (<["version" := JStr "1.0.0"]> ∅)))))),
     probed s)
  else (Throw (Error "LocalStorage is not available"), s).
Proof.
  intros Hk. unfold exportData. rewrite bind_run, isStorageAvailable_run.
  destruct (available s) eqn:Ha; simpl; [|done].
  unfold try_catch. rewrite bind_run, getAnalyses_run, available_probed, Ha.
  rewrite probed_idemp, stored_probed by done.
  rewrite bind_run, getSettings_run, available_probed, Ha, probed_idemp.
  reflexivity.
Qed.

Lemma setItem_run k p s :
  denied s = false →
  setItem k p s =
  if usage (<[k := p]> (items s)) <=? quota s
  then (Return (), with_items s (<[k := p]> (items s)))
  else (Throw QuotaExceededError, s).
Proof. intros Hd. unfold setItem. by rewrite Hd. Qed.

(** [importData] on text that parses to a value whose [analyses] and
    [settings] members can be read: two writes, each made only for a member
    of the right kind, the second one on top of the first. *)
Lemma importData_run this data s va vs :
  member data "analyses" = Return va →
  member data "settings" = Return vs →
  importData this (Doc data) s =
  if available s then
    let w1 := truthy_value va && isArray (default JNull va) in
    let m1 := if w1 then <[analysesKey this := Doc (default JNull va)]> (items (probed s))
              else items (probed s) in
    if w1 && negb (usage m1 <=? quota s)
    then (Throw (Error "Failed to import data"), probed s)
    else
      let w2 := truthy_value vs && typeof_object (default JNull vs) in
      let m2 := if w2 then <[settingsKey this := Doc (default JNull vs)]> m1 else m1 in
      if w2 && negb (usage m2 <=? quota s)
      then (Throw (Error "Failed to import data"), with_items s m1)
      else (Return true, with_items s m2)
  else (Throw (Error "LocalStorage is not available"), s).
Proof.
  intros Hva Hvs. unfold importData. rewrite bind_run, isStorageAvailable_run.
  destruct (available s) eqn:Ha; [|done]. cbn [negb]. cbv zeta.
  assert (denied (probed s) = false) as Hd by exact (available_denied s Ha).
  unfold try_catch. rewrite bind_run. unfold lift at 1, JSON_parse.
  rewrite bind_run. unfold lift at 1. rewrite Hva.
  rewrite bind_run.
  destruct (truthy_value va && isArray (default JNull va)); cbn [andb negb].
  - rewrite setItem_run by done. unfold JSON_stringify.
    change (quota (probed s)) with (quota s).
    destruct (usage _ <=? quota s); cbn [negb]; [|done].
    rewrite bind_run. unfold lift at 1. rewrite Hvs. rewrite bind_run.
    destruct (truthy_value vs && typeof_object (default JNull vs)); cbn [andb negb].
    + rewrite setItem_run by done. cbn [items with_items quota].
      change (quota (probed s)) with (quota s).
      destruct (usage _ <=? quota s); reflexivity.
    + reflexivity.
  - unfold mret at 1, js_ret. rewrite bind_run. unfold lift at 1. rewrite Hvs.
    rewrite bind_run.
    destruct (truthy_value vs && typeof_object (default JNull vs)); cbn [andb negb].
    + rewrite setItem_run by done.
      change (quota (probed s)) with (quota s).
      destruct (usage _ <=? quota s); reflexivity.
    + unfold probed. reflexivity.
Qed.

(** What was exported from one medium and imported into another is what
    the other then holds: the import returns [true], the history under the
    analyses key is the exported one, also when it is longer than
    [maxStorageSize], and the settings under the settings key are the ones
    [getSettings] returned on the exporting medium. When the importing
    medium still passes the probe after the import, [getAnalyses] and
    [getSettings] return that history and those settings; when it does
    not, they return the empty array and the default settings. The three
    keys are different keys and the exported history is an array. *)
Theorem exportData_then_importData this env s p s1 l s2 b s2' :
  analysesKey this ≠ storage_test →
  settingsKey this ≠ storage_test →
  settingsKey this ≠ analysesKey this →
  exportData this env s = (Return p, s1) →
  run (getAnalyses this) s = Return (JArr l) →
  importData this p s2 = (Return b, s2') →
  b = true ∧
  stored this s2' = JArr l ∧
  (∃ settings,
     run (getSettings this) s = Return settings ∧
     items s2' !! settingsKey this = Some (Doc (JObj settings))) ∧
  (available s2' = true →
   run (getAnalyses this) s2' = Return (JArr l) ∧
   run (getSettings this) s2' = run (getSettings this) s) ∧
  (available s2' = false →
   run (getAnalyses this) s2' = Return (JArr []) ∧
   run (getSettings this) s2' = Return getDefaultSettings).
Proof.
  intros Hk Hsk Hne Hexport Hlist Himport.
  rewrite exportData_run in Hexport by done.
  destruct (available s) eqn:Ha; [|done]. injection Hexport as <- <-.
  rewrite getAnalyses_available in Hlist by done. injection Hlist as Hs.
  rewrite Hs in Himport.
  erewrite importData_run in Himport; [|reflexivity|reflexivity].
  rewrite lookup_insert_eq, lookup_insert_ne, lookup_insert_eq in Himport by done.
  destruct (available s2); [|done].
  cbn [truthy_value truthy default from_option id isArray typeof_object andb]
    in Himport.
  cbv zeta in Himport.
  destruct (usage _ <=? quota s2) in Himport; [|done]. cbn [negb] in Himport.
  destruct (usage _ <=? quota s2) in Himport; [|done]. cbn [negb] in Himport.
  injection Himport as <- <-.
  split_and!.
  - reflexivity.
  - unfold stored. cbn [items with_items].
    by rewrite lookup_insert_ne, lookup_insert_eq.
  - eexists. split.
    + unfold run. rewrite getSettings_run, Ha. reflexivity.
    + cbn [items with_items]. by rewrite lookup_insert_eq.
  - intros Ha2'. split.
    + rewrite getAnalyses_available by done. unfold stored. cbn [items with_items].
      by rewrite lookup_insert_ne, lookup_insert_eq.
    + unfold run. rewrite !getSettings_run, Ha2', Ha. cbn [fst]. f_equal.
      rewrite (items_probed (with_items _ _)). cbn [items with_items].
      rewrite lookup_delete_ne, lookup_insert_eq by done.
      unfold read_settings at 1. cbn [spread]. apply union_defaults_twice_read.
  - intros Ha2'. unfold run. by rewrite getAnalyses_run, getSettings_run, Ha2'.
Qed.

Lemma exportData_then_importData_witness :
  run (exportData constructor Examples.noon) Examples.with_settings
    = Return exported_backup ∧
  run (importData constructor exported_backup;; getAnalyses constructor)
    Examples.empty_medium
    = run (getAnalyses constructor) Examples.with_settings ∧
  run (importData constructor exported_backup;; getSettings constructor)
    Examples.empty_medium
    = run (getSettings constructor) Examples.with_settings.
Proof.
  assert (exportData constructor Examples.noon Examples.with_settings
          = (Return exported_backup,
             exec (exportData constructor Examples.noon) Examples.with_settings))
    as Hexport by (vm_compute; reflexivity).
  assert (importData constructor exported_backup Examples.empty_medium
          = (Return true,
             exec (importData constructor exported_backup) Examples.empty_medium))
    as Himport by (vm_compute; reflexivity).
  destruct (exportData_then_importData constructor Examples.noon
              Examples.with_settings _ _
              [JObj (completed Examples.noon Examples.record_b);
               JObj (completed Examples.noon Examples.record_a)]
              Examples.empty_medium _ _
              ltac:(discriminate) ltac:(discriminate) ltac:(discriminate)
              Hexport ltac:(vm_compute; reflexivity) Himport)
    as (_ & _ & _ & Hread & _).
  destruct Hread as [Hlist Hsettings]; [vm_compute; reflexivity|].
  split; [unfold run; rewrite Hexport; reflexivity|].
  unfold run in *. rewrite !bind_run, Himport. split.
  - rewrite Hlist. vm_compute. reflexivity.
  - exact Hsettings.
Defined.

(** [importData] is not all-or-nothing: when the medium accepts the
    imported history and then refuses the imported settings, the call
    throws "Failed to import data" and the history has been replaced all
    the same. *)
Theorem importData_fails_after_replacing_history this d s l o :
  analysesKey this ≠ storage_test →
  available s = true →
  d !! "analyses" = Some (JArr l) →
  d !! "settings" = Some (JObj o) →
  accepts s (analysesKey this) (Doc (JArr l)) = true →
  usage (<[settingsKey this := Doc (JObj o)]>
           (<[analysesKey this := Doc (JArr l)]> (items (probed s)))) > quota s →
  ∃ s',
    importData this (Doc (JObj d)) s = (Throw (Error "Failed to import data"), s') ∧
    items s' !! analysesKey this = Some (Doc (JArr l)).
Proof.
  intros Hk Ha Hl Ho Hfits Hover.
  eexists. split.
  - erewrite importData_run; [|reflexivity|reflexivity].
    rewrite Ha, Hl, Ho.
    cbn [truthy_value truthy default from_option id isArray typeof_object andb].
    cbv zeta. unfold accepts in Hfits. rewrite Hfits. cbn [negb].
    replace (usage _ <=? quota s) with false; [reflexivity|].
    symmetry. apply Nat.leb_gt. exact Hover.
  - cbn [items with_items]. by rewrite lookup_insert_eq.
Qed.

Lemma importData_fails_after_replacing_history_witness :
  ∃ s', importData constructor backup snug_medium
        = (Throw (Error "Failed to import data"), s') ∧
        items s' !! "soilstory_analyses"
        = Some (Doc (JArr [JObj {[ "id" := JStr "a" ]}])).
Proof.
  destruct (importData_fails_after_replacing_history constructor
              {[ "analyses" := JArr [JObj {[ "id" := JStr "a" ]}];
                 "settings" := JObj {[ "theme" := JStr "dark";
                                       "language" := JStr "fr" ]} ]}
              snug_medium [JObj {[ "id" := JStr "a" ]}]
              {[ "theme" := JStr "dark"; "language" := JStr "fr" ]})
    as (s' & Hrun & Hitems).
  - discriminate.
  - vm_compute. reflexivity.
  - vm_compute. reflexivity.
  - vm_compute. reflexivity.
  - vm_compute. reflexivity.
  - vm_compute. lia.
  - exists s'. split; [exact Hrun | exact Hitems].
Defined.

(** [importData] reports success on any JSON document other than [null],
    also on one that has neither a history array nor a settings object, in
    which case it stores nothing; text that is not JSON, and the document
    [null], make it throw "Failed to import data". *)
Theorem importData_without_history_or_settings this s :
  available s = true →
  (∀ data va vs,
     member data "analyses" = Return va →
     member data "settings" = Return vs →
     truthy_value va && isArray (default JNull va) = false →
     truthy_value vs && typeof_object (default JNull vs) = false →
     importData this (Doc data) s = (Return true, probed s)) ∧
  (∀ text, importData this (Raw text) s
           = (Throw (Error "Failed to import data"), probed s)) ∧
  importData this (Doc JNull) s = (Throw (Error "Failed to import data"), probed s).
Proof.
  intros Ha. split_and!.
  - intros data va vs Hva Hvs Hw1 Hw2.
    rewrite (importData_run this data s va vs Hva Hvs), Ha. cbv zeta.
    rewrite Hw1, Hw2. cbn [andb]. unfold probed. reflexivity.
  - intros text. unfold importData. rewrite bind_run, isStorageAvailable_run, Ha.
    reflexivity.
  - unfold importData. rewrite bind_run, isStorageAvailable_run, Ha.
    reflexivity.
Qed.

Lemma importData_without_history_or_settings_witness :
  run (importData constructor (Doc (JNum "5"))) Examples.after_two_saves = Return true ∧
  run (importData constructor (Doc (JNum "5"));; getAnalyses constructor)
    Examples.after_two_saves
  = run (getAnalyses constructor) Examples.after_two_saves ∧
  run (importData constructor (Raw "")) Examples.after_two_saves
  = Throw (Error "Failed to import data").
Proof.
  destruct (importData_without_history_or_settings constructor Examples.after_two_saves)
    as (Hdoc & Hraw & _); [vm_compute; reflexivity|].
  specialize (Hdoc (JNum "5") None None eq_refl eq_refl eq_refl eq_refl).
  unfold run. rewrite bind_run, Hdoc, Hraw.
  split; [reflexivity|]. split; [vm_compute; reflexivity | reflexivity].
Defined.

(** *** Pages and searches *)

Lemma chunks_concat {A} (n : nat) : ∀ (t : nat) (l : list A),
  0 < n → length l ≤ t * n →
  concat ((λ p, take n (drop ((p - 1) * n) l)) <$> seq 1 t) = l.
Proof.
  induction t as [|t IH]; intros l Hn Hlen.
  - destruct l; [done|simpl in Hlen; lia].
  - change (seq 1 (S t)) with (1 :: seq 2 t). rewrite fmap_cons. cbn [concat].
    rewrite <-fmap_S_seq, <-list_fmap_compose.
    replace ((1 - 1) * n) with 0 by lia. rewrite drop_0.
    transitivity (app (take n l) (drop n l)); [|apply take_drop]. f_equal.
    etrans; [|apply (IH (drop n l)); [done|rewrite length_drop; lia]].
    f_equal. apply list_fmap_ext. intros i p Hp.
    apply lookup_seq in Hp as [-> _]. cbn [compose].
    rewrite drop_drop. do 2 f_equal. lia.
Qed.

Lemma page_data_slice this s l size p :
  run (getAnalyses this) s = Return (JArr l) →
  (1 ≤ size)%Z → 1 ≤ p →
  page_data this s size p
  = take (Z.to_nat size) (drop ((p - 1) * Z.to_nat size) l).
Proof.
  intros Hlist Hsize Hp. unfold page_data, run in *. unfold getAnalysesPaginated.
  rewrite bind_run.
  destruct (getAnalyses this s) as [[v|e] s1]; cbn [fst] in Hlist; [|done].
  injection Hlist as ->. rewrite bind_run. unfold lift. cbn [fst data default from_option id].
  rewrite slice_page by nia. do 2 f_equal. nia.
Qed.

(** The pages cut the history into consecutive pieces: for a page size of
    at least 1, the records of pages 1 to [totalPages], one page after the
    other, are the history that [getAnalyses] returns, each record once and
    in the same order. *)
Theorem pages_partition_the_history this s l size :
  run (getAnalyses this) s = Return (JArr l) →
  (1 ≤ size)%Z →
  ∃ pg t,
    run (getAnalysesPaginated this (Some 1%Z) (Some size)) s = Return pg ∧
    totalPages pg = Finite (Z.of_nat t) ∧
    concat (page_data this s size <$> seq 1 t) = l.
Proof.
  intros Hlist Hsize.
  destruct (ceil_div_spec (length l) size Hsize) as (t & Ht & Hbounds).
  assert (0 ≤ t)%Z as Htpos by nia.
  eexists _, (Z.to_nat t). split_and!.
  - unfold run in *. unfold getAnalysesPaginated. rewrite bind_run.
    destruct (getAnalyses this s) as [[v|e] s1]; cbn [fst] in Hlist; [|done].
    injection Hlist as ->. rewrite bind_run. reflexivity.
  - cbn [totalPages default from_option id]. rewrite Ht. f_equal. lia.
  - etrans; [|apply (chunks_concat (Z.to_nat size) (Z.to_nat t) l); nia].
    f_equal. apply list_fmap_ext. intros i p Hp.
    apply lookup_seq in Hp as [-> _].
    apply page_data_slice; [done | done | lia].
Qed.

Lemma pages_partition_the_history_witness :
  concat (page_data constructor Examples.after_five_saves 2 <$> seq 1 3)
  = saved (rev Examples.five_saves).
Proof.
  destruct (pages_partition_the_history constructor Examples.after_five_saves
              (saved (rev Examples.five_saves)) 2)
    as (pg & t & Hrun & Hpages & Hconcat).
  - vm_compute. reflexivity.
  - lia.
  - assert (t = 3) as ->; [|exact Hconcat].
    assert (run (getAnalysesPaginated constructor (Some 1%Z) (Some 2%Z))
              Examples.after_five_saves
            = Return {| data := JArr (take 2 (saved (rev Examples.five_saves)));
                        total := 5; page := 1; pageSize := 2;
                        totalPages := Finite 3 |}) as Hrun'
      by (vm_compute; reflexivity).
    rewrite Hrun' in Hrun. injection Hrun as <-.
    cbn [totalPages] in Hpages. injection Hpages as Ht. lia.
Defined.

(** A search returns stored records only, in the order in which they are
    stored: whatever the query, the result is a sublist of the history. *)
Theorem searchAnalyses_returns_sublist toLowerCase this s l query v :
  run (getAnalyses this) s = Return (JArr l) →
  run (searchAnalyses toLowerCase this query) s = Return v →
  ∃ found, v = JArr found ∧ found `sublist_of` l.
Proof.
  intros Hlist. unfold run in *. unfold searchAnalyses. rewrite bind_run.
  destruct (getAnalyses this s) as [[v0|e] s1]; cbn [fst] in Hlist; [|done].
  injection Hlist as ->.
  destruct (_ || _).
  - intros [= <-]. by exists l.
  - rewrite bind_run. unfold lift at 1, as_array. rewrite bind_run. unfold lift.
    destruct (filter _ l) as [found|e] eqn:Hf; [|done].
    intros [= <-]. exists found. split; [done|]. by eapply filter_sublist.
Qed.

Lemma searchAnalyses_returns_sublist_witness :
  ∃ found,
    run (searchAnalyses Examples.lower Examples.two_slots "12") Examples.after_two_saves
      = Return (JArr found) ∧
    found `sublist_of` [JObj (completed Examples.noon Examples.record_b);
                        JObj (completed Examples.noon Examples.record_a)].
Proof.
  destruct (run (searchAnalyses Examples.lower Examples.two_slots "12")
              Examples.after_two_saves)
    as [v|e] eqn:Hrun; [|vm_compute in Hrun; discriminate Hrun].
  destruct (searchAnalyses_returns_sublist Examples.lower Examples.two_slots
              Examples.after_two_saves
              [JObj (completed Examples.noon Examples.record_b);
               JObj (completed Examples.noon Examples.record_a)] "12" v)
    as (found & -> & Hsub); [vm_compute; reflexivity | exact Hrun |].
  exists found. split; [reflexivity | exact Hsub].
Defined.

Lemma filter_throws cb (pre : list json) x rest e :
  (∀ y, y ∈ pre → ∃ b, cb y = Return b) →
  cb x = Throw e →
  filter cb (pre ++ x :: rest) = Throw e.
Proof.
  intros Hpre Hx. induction pre as [|y pre IH]; simpl.
  - by rewrite Hx.
  - destruct (Hpre y) as [b ->]; [apply list_elem_of_here|]. simpl.
    rewrite IH; [done|]. intros z Hz. apply Hpre. by apply list_elem_of_further.
Qed.

Lemma text_hit_returns toLowerCase term v :
  is_text v = true → ∃ b, text_hit toLowerCase term v = Return b.
Proof.
  destruct v as [[| | |text| |]|]; try done; intros _; unfold text_hit.
  - by exists false.
  - destruct text; simpl; eauto.
  - by exists false.
Qed.

Lemma search_hit_returns toLowerCase term r :
  well_shaped r = true → ∃ b, search_hit toLowerCase term (JObj r) = Return b.
Proof.
  intros [[Hstory Htime]%andb_prop Hloc]%andb_prop.
  unfold search_hit. cbn [member obind].
  destruct (text_hit_returns toLowerCase term _ Hstory) as [[] ->]; cbn [obind];
    [eauto|].
  rewrite location_hit_contains by done. cbn [obind].
  destruct (location_contains term (r !! "location")); [eauto|].
  destruct (text_hit_returns toLowerCase term _ Htime) as [b ->]. cbn [obind]. eauto.
Qed.

(** One stored record whose story is a value other than text (a number, an
    array, an object, [true]) breaks the search for every query that is not
    blank: the search throws a [TypeError] instead of returning the records
    that match. The records stored before it have the data model's shape. *)
Theorem searchAnalyses_throws_on_non_text_story toLowerCase this s pre r rest query v :
  run (getAnalyses this) s = Return (JArr ((JObj <$> pre) ++ JObj r :: rest)) →
  Forall (λ r, well_shaped r = true) pre →
  String.eqb (trim query) "" = false →
  r !! "story" = Some v →
  truthy v = true →
  (∀ text, v ≠ JStr text) →
  run (searchAnalyses toLowerCase this query) s = Throw TypeError.
Proof.
  intros Hlist Hshape Hquery Hstory Htruthy Hnot.
  unfold run in *. unfold searchAnalyses. rewrite bind_run.
  destruct (getAnalyses this s) as [[v0|e] s1]; cbn [fst] in Hlist; [|done].
  injection Hlist as ->. rewrite blank_test, Hquery.
  rewrite bind_run. unfold lift at 1, as_array. rewrite bind_run. unfold lift.
  rewrite (filter_throws _ _ _ _ TypeError); [done| |].
  - intros y Hy. apply list_elem_of_fmap in Hy as (r0 & -> & Hr0).
    apply search_hit_returns. by eapply Forall_forall in Hshape.
  - unfold search_hit. cbn [member obind]. rewrite Hstory.
    unfold text_hit. cbn [truthy_value default from_option id]. rewrite Htruthy.
    destruct v; try done. by destruct (Hnot s0).
Qed.

Lemma searchAnalyses_throws_on_non_text_story_witness :
  run (searchAnalyses Examples.lower Examples.two_slots "clay") numbered_story_medium
  = Throw TypeError.
Proof.
  apply (searchAnalyses_throws_on_non_text_story Examples.lower Examples.two_slots
           numbered_story_medium
           [{[ "id" := JStr "a"; "story" := JStr "soil" ]}]
           {[ "id" := JStr "b"; "story" := JNum "7" ]} [] "clay" (JNum "7")).
  - vm_compute. reflexivity.
  - repeat constructor.
  - reflexivity.
  - vm_compute. reflexivity.
  - reflexivity.
  - discriminate.
Defined.

(** *** Statistics and the export of one record *)

Lemma getStorageInfo_returns s : ∃ i, (getStorageInfo s).1 = Return i.
Proof.
  unfold getStorageInfo. rewrite bind_run, isStorageAvailable_run.
  destruct (available s) eqn:Ha; cbn [negb]; [|eauto].
  rewrite bind_run. unfold entries.
  replace (denied (probed s)) with false by (symmetry; exact (available_denied s Ha)).
  eauto.
Qed.

Lemma timestamp_at_last (rs : list (gmap string json)) :
  timestamp_at (JArr (JObj <$> rs)) (Some (length (JObj <$> rs)))
    (length (JObj <$> rs) - 1)
  = Return (match last rs with
            | Some r => r !! "timestamp"
            | None => Some JNull
            end).
Proof.
  unfold timestamp_at. rewrite length_fmap.
  destruct (decide (rs = [])) as [->|Hne]; [done|].
  assert (0 < length rs) as Hlen by (destruct rs; [done|simpl; lia]).
  replace (0 <? length rs) with true by (symmetry; by apply Nat.ltb_lt).
  unfold element. rewrite list_lookup_fmap.
  replace (rs !! (length rs - 1)) with (last rs)
    by (rewrite last_lookup; f_equal; lia).
  destruct (last rs) as [r|] eqn:Hlast; [done|].
  apply last_None in Hlast. done.
Qed.

Lemma timestamp_at_head (rs : list (gmap string json)) :
  timestamp_at (JArr (JObj <$> rs)) (Some (length (JObj <$> rs))) 0
  = Return (match head rs with
            | Some r => r !! "timestamp"
            | None => Some JNull
            end).
Proof. by destruct rs. Qed.

(** For a history of records, the statistics count the records and report
    as newest the timestamp of the first stored record and as oldest the
    timestamp of the last one; for an empty history, and so for an
    unavailable medium, both are [null] and the count is 0. *)
Theorem getStorageStats_of_history this s rs :
  run (getAnalyses this) s = Return (JArr (JObj <$> rs)) →
  ∃ st,
    run (getStorageStats this) s = Return st ∧
    totalAnalyses st = Some (length rs) ∧
    newestAnalysis st = match head rs with
                        | Some r => r !! "timestamp"
                        | None => Some JNull
                        end ∧
    oldestAnalysis st = match last rs with
                        | Some r => r !! "timestamp"
                        | None => Some JNull
                        end.
Proof.
  intros Hlist. unfold run in *. unfold getStorageStats. rewrite bind_run.
  destruct (getAnalyses this s) as [[v|e] s1]; cbn [fst] in Hlist; [|done].
  injection Hlist as ->. rewrite bind_run.
  destruct (getStorageInfo_returns s1) as [i Hi].
  destruct (getStorageInfo s1) as [o s2]. cbn [fst] in Hi. subst o.
  rewrite bind_run. unfold lift at 1, length_of.
  cbn [default from_option id].
  rewrite timestamp_at_last, timestamp_at_head.
  eexists. split; [reflexivity|].
  cbn [totalAnalyses newestAnalysis oldestAnalysis]. by rewrite length_fmap.
Qed.

Lemma getStorageStats_of_history_witness :
  ∃ st,
    run (getStorageStats Examples.two_slots) Examples.after_two_saves = Return st ∧
    totalAnalyses st = Some 2 ∧
    newestAnalysis st = Some (JStr "2023-11-14T22:13:20.000Z").
Proof.
  destruct (getStorageStats_of_history Examples.two_slots Examples.after_two_saves
              [completed Examples.noon Examples.record_b;
               completed Examples.noon Examples.record_a])
    as (st & Hrun & Htotal & Hnew & _); [vm_compute; reflexivity|].
  exists st. split; [exact Hrun|]. split; [exact Htotal|].
  rewrite Hnew. vm_compute. reflexivity.
Defined.

Lemma find_first cb (l : list json) k x :
  l !! k = Some x → cb x = Return true →
  (∀ j y, j < k → l !! j = Some y → cb y = Return false) →
  find cb l = Return (Some x).
Proof.
  revert k. induction l as [|y l IH]; intros k Hx Hhit Hbefore; [done|].
  destruct k as [|k]; simpl in *.
  - injection Hx as ->. by rewrite Hhit.
  - rewrite (Hbefore 0 y) by (done || lia). simpl.
    apply (IH k); [done | done |].
    intros j z Hj Hz. apply (Hbefore (S j)); [lia | done].
Qed.

(** Exporting an id that no stored record has, which includes every export
    while the medium is unavailable, starts no download and returns a
    result without success whose error is "Analysis not found"; the
    exception does not reach the caller. *)
Theorem exportAnalysisData_missing_id storage exportDate id s rs :
  run (getAnalyses storage) s = Return (JArr (JObj <$> rs)) →
  (∀ r, r ∈ rs → strict_eq_value (r !! "id") id = false) →
  run (Page.exportAnalysisData storage exportDate id) s
  = Return {| Page.export_success := false;
              Page.export_error := Some "Analysis not found";
              Page.export_download := None |}.
Proof.
  intros Hlist Hnone.
  pose proof (getAnalysis_run storage id s _ Hlist) as Hget.
  rewrite find_none in Hget by done.
  unfold run in *. unfold Page.exportAnalysisData, try_catch. rewrite bind_run.
  destruct (getAnalysis storage id s) as [o s1]. cbn [fst] in Hget. subst o.
  reflexivity.
Qed.

Lemma exportAnalysisData_missing_id_witness :
  run (Page.exportAnalysisData Examples.two_slots "2023-11-15T08:00:00.000Z" (JStr "a"))
    Examples.disabled_medium
  = Return {| Page.export_success := false;
              Page.export_error := Some "Analysis not found";
              Page.export_download := None |}.
Proof.
  apply (exportAnalysisData_missing_id _ _ _ _ []).
  - vm_compute. reflexivity.
  - intros r Hr. by apply elem_of_nil in Hr.
Defined.

(** Exporting the id of a stored record succeeds and starts the download
    of a file named after the id, whose content holds the first stored
    record with that id, the export date and the version. *)
Theorem exportAnalysisData_stored_id storage exportDate analysisId s rs k r :
  run (getAnalyses storage) s = Return (JArr (JObj <$> rs)) →
  rs !! k = Some r →
  strict_eq_value (r !! "id") analysisId = true →
  (∀ j r', j < k → rs !! j = Some r' → strict_eq_value (r' !! "id") analysisId = false) →
  ∃ content,
    run (Page.exportAnalysisData storage exportDate analysisId) s
    = Return {| Page.export_success := true;
                Page.export_error := None;
                Page.export_download :=
                  Some {| Page.download_name :=
                            "soilstory_analysis_" +:+ toString analysisId +:+ ".json";
                          Page.download_content := JObj content |} |} ∧
    content !! "analysis" = Some (JObj r) ∧
    content !! "exportDate" = Some (JStr exportDate) ∧
    content !! "version" = Some (JStr "1.0.0").
Proof.
  intros Hlist Hr Hid Hfirst.
  pose proof (getAnalysis_run storage analysisId s _ Hlist) as Hget.
  rewrite (find_first _ _ k (JObj r)) in Hget.
  - unfold run in *. unfold Page.exportAnalysisData, try_catch. rewrite bind_run.
    destruct (getAnalysis storage analysisId s) as [o s1]. cbn [fst] in Hget. subst o.
    eexists. split; [reflexivity|].
    cbn [default from_option id]. split_and!.
    + by rewrite lookup_insert_eq.
    + rewrite lookup_insert_ne by done. by rewrite lookup_insert_eq.
    + do 2 (rewrite lookup_insert_ne by done). by rewrite lookup_insert_eq.
  - by rewrite list_lookup_fmap, Hr.
  - unfold id_is. cbn [member obind]. by rewrite Hid.
  - intros j y Hj Hy. rewrite list_lookup_fmap in Hy.
    destruct (rs !! j) as [r'|] eqn:Hr'; [|done]. injection Hy as <-.
    unfold id_is. cbn [member obind]. by rewrite (Hfirst j r').
Qed.

Lemma exportAnalysisData_stored_id_witness :
  ∃ result download,
    run (Page.exportAnalysisData Examples.two_slots "2023-11-15T08:00:00.000Z"
           (JStr "a")) Examples.after_two_saves = Return result ∧
    Page.export_download result = Some download ∧
    Page.download_name download = "soilstory_analysis_a.json".
Proof.
  destruct (exportAnalysisData_stored_id Examples.two_slots "2023-11-15T08:00:00.000Z"
              (JStr "a") Examples.after_two_saves
              [completed Examples.noon Examples.record_b;
               completed Examples.noon Examples.record_a]
              1 (completed Examples.noon Examples.record_a))
    as (content & Hrun & _).
  - vm_compute. reflexivity.
  - reflexivity.
  - vm_compute. reflexivity.
  - intros [|j] r0 Hj Hr0; [|lia]. injection Hr0 as <-. vm_compute. reflexivity.
  - eexists _, _. split; [exact Hrun|]. split; reflexivity.
Defined.

(** *** The page's save *)

Lemma saveAnalysis_throws_same_entries this env a s e s' :
  analysesKey this ≠ storage_test →
  saveAnalysis this env a s = (Throw e, s') → same_entries s s'.
Proof.
  intros Hk. rewrite saveAnalysis_run by done.
  destruct (available s); [|intros [= <- <-]; apply same_entries_refl].
  destruct (stored this s); try (intros [= <- <-]; apply same_entries_probed).
  cbv zeta. destruct (_ <=? _); [done|].
  intros [= <- <-]. apply same_entries_probed.
Qed.

(** The page's save never throws. When the store accepts the record, the
    record at the head of the history carries the page's current time as
    timestamp, in place of any timestamp the analysis came with, the name
    of the photo file (or "Unknown"), and every other field of the analysis
    except a missing id; when the store refuses, nothing is written and the
    page shows the warning. *)
Theorem app_saveAnalysis_stamps_the_record storage now env file analysis s :
  analysesKey storage ≠ storage_test →
  0 < maxStorageSize storage →
  now ≠ "" →
  ∃ alert s',
    Page.app_saveAnalysis storage now env file analysis s = (Return alert, s') ∧
    match alert with
    | None =>
        ∃ r rest,
          stored storage s' = JArr (JObj r :: rest) ∧
          r !! "timestamp" = Some (JStr now) ∧
          r !! "imageFile" = Some (JStr (match file with
                                         | Some f => SoilAPI.file_name f
                                         | None => "Unknown"
                                         end)) ∧
          ∀ k, k ≠ "id" → k ≠ "timestamp" → k ≠ "imageFile" →
               r !! k = analysis !! k
    | Some alert =>
        alert = {| Page.alert_message := "Failed to save analysis to local storage.";
                   Page.alert_type := "warning" |} ∧
        same_entries s s'
    end.
Proof.
  intros Hk Hcap Hnow.
  set (name := match file with Some f => SoilAPI.file_name f | None => "Unknown" end).
  set (record := <["imageFile" := JStr name]> (<["timestamp" := JStr now]> analysis)).
  unfold Page.app_saveAnalysis, try_catch. rewrite bind_run. fold name record.
  destruct (saveAnalysis storage env record s) as [[v|e] s'] eqn:Hsave.
  - exists None, s'. split; [reflexivity|].
    apply saveAnalysis_returns in Hsave as (_ & _ & _ & l & _ & Hs'); [|done].
    destruct (maxStorageSize storage) as [|c]; [lia|]. cbn [take] in Hs'.
    exists (completed env record), (take c l). split; [exact Hs'|].
    assert (truthy_value (record !! "timestamp") = true) as Htime.
    { unfold record. rewrite lookup_insert_ne, lookup_insert_eq by done.
      cbn [truthy_value truthy]. destruct now; [done|reflexivity]. }
    assert (∀ k, k ≠ "id" → completed env record !! k = record !! k) as Hsame.
    { intros k Hkid. unfold completed.
      destruct (truthy_value (record !! "id")); cbn [negb].
      - by rewrite Htime.
      - rewrite (lookup_insert_ne _ "id" "timestamp"), Htime by done.
        cbn [negb]. by rewrite lookup_insert_ne. }
    split_and!.
    + rewrite Hsame by done. unfold record.
      by rewrite lookup_insert_ne, lookup_insert_eq.
    + rewrite Hsame by done. unfold record. by rewrite lookup_insert_eq.
    + intros k Hid Ht Hf. rewrite Hsame by done. unfold record.
      by rewrite !lookup_insert_ne.
  - exists (Some {| Page.alert_message := "Failed to save analysis to local storage.";
                    Page.alert_type := "warning" |}), s'.
    split; [reflexivity|]. split; [reflexivity|].
    by eapply saveAnalysis_throws_same_entries.
Qed.

Lemma app_saveAnalysis_stamps_the_record_witness :
  ∃ r rest,
    stored Examples.two_slots
      (exec (Page.app_saveAnalysis Examples.two_slots "2024-05-01T10:00:00.000Z"
               Examples.noon (Some Examples.photo)
               {[ "id" := JStr "demo_1"; "timestamp" := JStr "2020-01-01T00:00:00.000Z" ]})
         Examples.empty_medium)
    = JArr (JObj r :: rest) ∧
    r !! "timestamp" = Some (JStr "2024-05-01T10:00:00.000Z") ∧
    r !! "imageFile" = Some (JStr "soil.jpg").
Proof.
  destruct (app_saveAnalysis_stamps_the_record Examples.two_slots
              "2024-05-01T10:00:00.000Z" Examples.noon (Some Examples.photo)
              {[ "id" := JStr "demo_1"; "timestamp" := JStr "2020-01-01T00:00:00.000Z" ]}
              Examples.empty_medium)
    as (alert & s' & Hrun & Halert).
  - discriminate.
  - simpl. lia.
  - discriminate.
  - unfold exec. rewrite Hrun. cbn [snd].
    destruct alert as [alert|].
    + exfalso. vm_compute in Hrun. discriminate Hrun.
    + destruct Halert as (r & rest & Hs & Ht & Hf & _).
      exists r, rest. split; [exact Hs|]. split; [exact Ht | exact Hf].
Defined.

End StorageExtras.

(** ** Further properties of the API client *)
Module APIExtras.
Import SoilAPI Spec2 APIProperties.

Lemma rejects_after {A} t (p : promise A) : rejects (after t p) → rejects p.
Proof.
  intros (t' & e & H). destruct p as [t0 [a|e0]|]; simpl in H; try done.
  injection H as _ <-. by exists t0, e0.
Qed.

Lemma try_await_never_rejects {A} (body : promise A) handler :
  (∀ e, ¬ rejects (handler e)) → ¬ rejects (try_await body handler).
Proof.
  intros Hh Hrej. destruct body as [t [a|e]|]; simpl in Hrej.
  - by destruct Hrej as (? & ? & ?).
  - by apply rejects_after, Hh in Hrej.
  - by destruct Hrej as (? & ? & ?).
Qed.

Lemma resolved_never_rejects {A} t (a : A) : ¬ rejects (Settles t (Return a)).
Proof. by intros (? & ? & ?). Qed.

(** No call of the client rejects: whatever the network does, the promise
    of [checkHealth], [makeRequest], [analyzeSoil], [generateVideo],
    [getHistory] and [uploadImage] resolves or stays pending, so a caller
    never has to catch. *)
Theorem client_calls_never_reject this fetch env rnd imageFile location
    analysisId storyText imagePath url options :
  ¬ rejects (checkHealth this fetch) ∧
  ¬ rejects (makeRequest this fetch url options) ∧
  ¬ rejects (analyzeSoil this fetch env rnd imageFile location) ∧
  ¬ rejects (generateVideo this fetch analysisId storyText imagePath) ∧
  ¬ rejects (getHistory this fetch) ∧
  ¬ rejects (uploadImage this fetch imageFile).
Proof.
  split_and!; apply try_await_never_rejects; intros e;
    apply resolved_never_rejects.
Qed.

Lemma bind_resolves {A B} (p : promise A) (k : A → promise B) t r :
  p ≫= k = Settles t (Return r) →
  ∃ t1 a t2, p = Settles t1 (Return a) ∧ k a = Settles t2 (Return r).
Proof.
  destruct p as [t1 [a|e]|]; try done. unfold mbind, promise_bind.
  destruct (k a) as [t2 [b|e]|] eqn:Hk; try done. simpl.
  intros [= _ <-]. eauto.
Qed.

Lemma try_await_resolves {A} (body : promise A) handler t r :
  try_await body handler = Settles t (Return r) →
  (∃ t1, body = Settles t1 (Return r)) ∨
  (∃ t1 e t2, body = Settles t1 (Throw e) ∧ handler e = Settles t2 (Return r)).
Proof.
  destruct body as [t1 [a|e]|]; simpl; try done.
  - intros [= _ <-]. eauto.
  - destruct (handler e) as [t2 [b|e2]|] eqn:Hh; simpl; try done.
    intros [= _ <-]. right. eauto 10.
Qed.

(** An analysis or a video request that settles has succeeded: the result
    the page receives always says [success], whether the data came from
    the backend or from the demo generator. *)
Theorem analysis_and_video_settle_with_success this fetch env rnd imageFile
    location analysisId storyText imagePath :
  (∀ t r, analyzeSoil this fetch env rnd imageFile location = Settles t (Return r) →
          success r = true) ∧
  (∀ t r, generateVideo this fetch analysisId storyText imagePath = Settles t (Return r) →
          success r = true).
Proof.
  split; intros t r Hrun.
  - apply try_await_resolves in Hrun as [[t1 Hbody]|(t1 & e & t2 & _ & Hh)];
      [|by injection Hh as _ <-].
    apply bind_resolves in Hbody as (t0 & healthy & t2 & _ & Hk).
    destruct healthy; cbn [negb] in Hk; [|by injection Hk as _ <-].
    apply bind_resolves in Hk as (t3 & response & t4 & _ & Hk).
    destruct (ok response); cbn [negb] in Hk; [|done].
    apply bind_resolves in Hk as (t5 & result & t6 & _ & Hk).
    by injection Hk as _ <-.
  - apply try_await_resolves in Hrun as [[t1 Hbody]|(t1 & e & t2 & _ & Hh)];
      [|by injection Hh as _ <-].
    apply bind_resolves in Hbody as (t0 & healthy & t2 & _ & Hk).
    destruct healthy; cbn [negb] in Hk; [|by injection Hk as _ <-].
    apply bind_resolves in Hk as (t3 & response & t4 & _ & Hk).
    destruct (success response) eqn:Hs; cbn [negb] in Hk; [|done].
    by injection Hk as _ <-.
Qed.

Lemma analysis_and_video_settle_with_success_witness :
  ∃ t r,
    analyzeSoil Examples.api Examples.offline Examples.browser Examples.halves
      Examples.photo None = Settles t (Return r) ∧
    success r = true.
Proof.
  destruct (analyzeSoil Examples.api Examples.offline Examples.browser Examples.halves
              Examples.photo None) as [t [r|e]|] eqn:Hrun;
    [|vm_compute in Hrun; discriminate Hrun..].
  exists t, r. split; [reflexivity|].
  exact (proj1 (analysis_and_video_settle_with_success Examples.api Examples.offline
                  Examples.browser Examples.halves Examples.photo None
                  JNull None None) t r Hrun).
Defined.

(** *** History and video *)

(** [getHistory] answers with an empty list when the health check fails,
    but hands a failed history request through: when the backend is up and
    answers the history request with a status that is not a success, the
    result has no success, no data, the error "HTTP <status>: <status
    text>" and the status 0. *)
Theorem getHistory_outcomes this fetch t :
  (checkHealth this fetch = Settles t (Return false) →
   getHistory this fetch = Settles (t + 0) (Return (succeeded (Items [])))) ∧
  (∀ t' response,
     checkHealth this fetch = Settles t (Return true) →
     fetch (history_request this) = Settles t' (Return response) →
     ok response = false →
     getHistory this fetch
     = Settles (t + (t' + 0 + 0))
         (Return {| success := false; data := None;
                    error_message :=
                      Some ("HTTP " +:+ pretty (status response) +:+ ": "
                            +:+ statusText response);
                    result_status := Some 0%N |})).
Proof.
  split.
  - intros Hhealth. unfold getHistory. by rewrite Hhealth.
  - intros t' response Hhealth Hfetch Hok. unfold getHistory. rewrite Hhealth.
    cbn [mbind promise_bind negb]. unfold makeRequest.
    change {| url := baseURL this +:+ history (endpoints this);
              method := default "GET" (opt_method no_options);
              headers := _; timeout_option := _; body := _ |}
      with (history_request this).
    rewrite Hfetch. cbn [mbind promise_bind]. rewrite Hok. reflexivity.
Qed.

Lemma getHistory_outcomes_witness :
  getHistory Examples.api Examples.offline
    = Settles 10 (Return (succeeded (Items []))) ∧
  getHistory Examples.api failing_history
    = Settles 50 (Return {| success := false; data := None;
                            error_message := Some "HTTP 500: Internal Server Error";
                            result_status := Some 0%N |}).
Proof.
  destruct (getHistory_outcomes Examples.api Examples.offline 10) as [Hdown _].
  destruct (getHistory_outcomes Examples.api failing_history 20) as [_ Hup].
  split.
  - rewrite Hdown by reflexivity. reflexivity.
  - erewrite Hup; [|reflexivity|reflexivity|reflexivity]. reflexivity.
Defined.

(** A video request never fails towards the page: when the health check
    fails, and also when the backend is up and the video request does not
    succeed, the result is the placeholder video, three seconds after the
    requests have settled. *)
Theorem generateVideo_falls_back_to_demo this fetch analysisId storyText imagePath t :
  (checkHealth this fetch = Settles t (Return false) →
   generateVideo this fetch analysisId storyText imagePath
   = Settles (t + 3000) (Return (succeeded (Video demo_video)))) ∧
  (∀ t' response,
     checkHealth this fetch = Settles t (Return true) →
     makeRequest this fetch (baseURL this +:+ video (endpoints this))
       {| opt_method := Some "POST"; opt_headers := None;
          opt_body := Some (JObj {[ "analysisId" := analysisId ]}) |}
     = Settles t' (Return response) →
     success response = false →
     generateVideo this fetch analysisId storyText imagePath
     = Settles (t + (t' + 0) + 3000) (Return (succeeded (Video demo_video)))).
Proof.
  split.
  - intros Hhealth. unfold generateVideo. by rewrite Hhealth.
  - intros t' response Hhealth Hrequest Hfail. unfold generateVideo.
    rewrite Hhealth. cbn [mbind promise_bind negb]. rewrite Hrequest.
    cbn [mbind promise_bind]. rewrite Hfail. reflexivity.
Qed.

Lemma generateVideo_falls_back_to_demo_witness :
  generateVideo Examples.api Examples.offline (JStr "a") None None
    = Settles 3010 (Return (succeeded (Video demo_video))) ∧
  generateVideo Examples.api failing_history (JStr "a") None None
    = Settles 3050 (Return (succeeded (Video demo_video))).
Proof.
  destruct (generateVideo_falls_back_to_demo Examples.api Examples.offline
              (JStr "a") None None 10) as [Hdown _].
  destruct (generateVideo_falls_back_to_demo Examples.api failing_history
              (JStr "a") None None 20) as [_ Hup].
  split.
  - rewrite Hdown by reflexivity. reflexivity.
  - rewrite (Hup 30%N {| success := false; data := None;
                         error_message := Some "HTTP 500: Internal Server Error";
                         result_status := Some 0%N |} eq_refl eq_refl eq_refl).
    reflexivity.
Defined.

(** *** The demo generator *)

Section draws.
Local Open Scope Q_scope.

Lemma value_between (r min max : Q) :
  0 <= r → r < 1 → min <= max →
  min <= r * (max - min) + min ∧ r * (max - min) + min <= max.
Proof.
  intros Hr0 Hr1 Hmm.
  assert (0 <= r * (max - min)) by (apply Qmult_le_0_compat; lra).
  assert (r * (max - min) <= 1 * (max - min))
    by (apply Qmult_le_compat_r; lra).
  lra.
Qed.

(** [getRandomValue] stays within its bounds and on its grid: with no
    decimals and whole bounds the result is a whole number between the
    bounds; with one decimal and non-negative bounds that are multiples of
    0.1 the result is a multiple of 0.1 between the bounds. Both hold for
    every draw in [0, 1) and every pair of ordered bounds, not only for the
    ranges of the demo data. *)
Theorem getRandomValue_within_bounds (min max : Q) (m M : Z) rnd i :
  0 <= rnd i → rnd i < 1 → min <= max →
  (min == inject_Z m → max == inject_Z M →
   ∃ z, (getRandomValue min max 0 rnd i).1 = inject_Z z ∧ (m ≤ z ≤ M)%Z) ∧
  (0 <= min → min * 10 == inject_Z m → max * 10 == inject_Z M →
   ∃ z, (getRandomValue min max 1 rnd i).1 == inject_Z z / 10 ∧ (m ≤ z ≤ M)%Z).
Proof.
  intros Hr0 Hr1 Hmm. rewrite !getRandomValue_run. cbn [fst Nat.eqb].
  destruct (value_between (rnd i) min max Hr0 Hr1 Hmm) as [Hlow Hhigh].
  split.
  - intros Hmin Hmax. eexists. split; [reflexivity|].
    apply floor_half_range; lra.
  - intros Hpos Hmin Hmax.
    exists (Qfloor ((rnd i * (max - min) + min) * 10 + (1 # 2))). split.
    + unfold parseFloat_toFixed, negative, fixed_digits.
      replace (Qle_bool 0 (rnd i * (max - min) + min)) with true
        by (symmetry; apply Qle_bool_iff; lra).
      rewrite Qabs_nonneg by lra. reflexivity.
    + apply floor_half_range; lra.
Qed.

Lemma getRandomValue_within_bounds_witness :
  ∃ z, (getRandomValue 1000 1020 0 Examples.halves 0%nat).1 = inject_Z z ∧
       (1000 ≤ z ≤ 1020)%Z.
Proof.
  destruct (getRandomValue_within_bounds 1000 1020 1000 1020 Examples.halves 0%nat)
    as [Hwhole _].
  - discriminate.
  - reflexivity.
  - discriminate.
  - apply Hwhole; reflexivity.
Defined.

Lemma at_index_draw {A} (l : list A) (r : Q) :
  l ≠ [] → 0 <= r → r < 1 →
  ∃ x, at_index l (Math_floor (r * inject_Z (Z.of_nat (length l)))) = Some x ∧ x ∈ l.
Proof.
  intros Hl Hr0 Hr1.
  assert (0 < inject_Z (Z.of_nat (length l))) as Hn.
  { change 0 with (inject_Z 0). rewrite <-Zlt_Qlt. destruct l; [done|simpl; lia]. }
  set (q := r * inject_Z (Z.of_nat (length l))).
  assert (0 <= q) as Hq0 by (apply Qmult_le_0_compat; lra).
  assert (q < inject_Z (Z.of_nat (length l))) as Hq1.
  { unfold q. apply Qlt_le_trans with (1 * inject_Z (Z.of_nat (length l)));
      [apply Qmult_lt_compat_r; lra | lra]. }
  assert (0 ≤ Qfloor q)%Z as Hf0.
  { change 0%Z with (Qfloor 0). by apply Qfloor_resp_le. }
  assert (Qfloor q < Z.of_nat (length l))%Z as Hf1.
  { rewrite Zlt_Qlt. pose proof (Qfloor_le q). lra. }
  unfold at_index, Math_floor.
  replace (Qfloor q <? 0)%Z with false by (symmetry; apply Z.ltb_ge; lia).
  destruct (lookup_lt_is_Some_2 l (Z.to_nat (Qfloor q))) as [x Hx]; [lia|].
  exists x. split; [done|]. by eapply list_elem_of_lookup_2.
Qed.

(** With a location, the demo record has weather data in its ranges
    (temperature 15 to 30, humidity 40 to 80, wind speed 5 to 20) and a
    weather text that is one of the eight conditions, never [undefined]. *)
Theorem demoData_weather_in_range env imageFile l rnd :
  (∀ i, 0 <= rnd i ∧ rnd i < 1) →
  ∃ w,
    weather (demoData env imageFile (Some l) rnd 0%nat).1 = Some w ∧
    (15 <= tempC w ∧ tempC w <= 30) ∧
    (40 <= humidity w ∧ humidity w <= 80) ∧
    (5 <= windSpeed w ∧ windSpeed w <= 20) ∧
    ∃ c, weather_condition w = Some c ∧ c ∈ conditions.
Proof.
  intros Hrnd.
  pose proof (Hrnd 5%nat) as [? ?]. pose proof (Hrnd 6%nat) as [? ?].
  pose proof (Hrnd 7%nat) as [? ?]. pose proof (Hrnd 8%nat) as [? ?].
  eexists. split; [reflexivity|].
  cbn [tempC humidity windSpeed weather_condition].
  split; [apply (Math_round_range 15 30); [reflexivity | reflexivity | lra..]|].
  split; [apply (Math_round_range 40 80); [reflexivity | reflexivity | lra..]|].
  split; [apply (toFixed1_range 50 200); [reflexivity | reflexivity | lra..]|].
  apply (at_index_draw conditions (rnd 7%nat)); done.
Qed.

Lemma demoData_weather_in_range_witness :
  ∃ w,
    weather (demoData Examples.browser Examples.photo (Some away)
               Examples.halves 0%nat).1 = Some w ∧
    weather_condition w = Some "Clear skies".
Proof.
  destruct (demoData_weather_in_range Examples.browser Examples.photo away
              Examples.halves) as (w & Hw & _).
  - intros i. unfold Examples.halves. split; [discriminate | reflexivity].
  - exists w. split; [exact Hw|].
    vm_compute in Hw. injection Hw as <-. reflexivity.
Defined.

(** The story of the demo record is one of the four template stories,
    never [undefined], followed, exactly when a location was passed, by the
    sentence that quotes its coordinates with four decimals. *)
Theorem generateDemoStory_is_a_template location rnd i :
  0 <= rnd i → rnd i < 1 →
  ∃ template,
    template ∈ stories ∧
    generateDemoStory location rnd i =
    (match location with
     | Some l => Some (template +:+ location_sentence l)
     | None => Some template
     end, S i).
Proof.
  intros Hr0 Hr1.
  destruct (at_index_draw stories (rnd i)) as (template & Hat & Hin); [done..|].
  exists template. split; [done|].
  unfold generateDemoStory, mbind, rand_bind, Math_random, mret, rand_ret.
  rewrite Hat. by destruct location.
Qed.

Lemma generateDemoStory_is_a_template_witness :
  ∃ template,
    template ∈ stories ∧
    (generateDemoStory (Some away) Examples.halves 0%nat).1
    = Some (template +:+ " Based on your location coordinates (12.5000, -3.0000), this soil type is typical for your region and should support local native plants well.").
Proof.
  destruct (generateDemoStory_is_a_template (Some away) Examples.halves 0%nat)
    as (template & Hin & Hrun).
  - discriminate.
  - reflexivity.
  - exists template. split; [exact Hin|]. rewrite Hrun. reflexivity.
Defined.

(** The mock weather data resolve at once and stay in their ranges:
    temperature 15 to 30, humidity 40 to 80, pressure 1000 to 1020, wind
    speed 5 to 20, a weather text among the eight conditions, and rain that
    is either 0 or between 0.1 and 5. *)
Theorem getWeatherData_in_range lat lon rnd :
  (∀ i, 0 <= rnd i ∧ rnd i < 1) →
  ∃ w,
    getWeatherData lat lon rnd = Settles 0 (Return w) ∧
    (15 <= wd_tempC w ∧ wd_tempC w <= 30) ∧
    (40 <= wd_humidity w ∧ wd_humidity w <= 80) ∧
    (1000 <= wd_pressure w ∧ wd_pressure w <= 1020) ∧
    (5 <= wd_windSpeed w ∧ wd_windSpeed w <= 20) ∧
    (∃ c, wd_weather w = Some c ∧ c ∈ conditions) ∧
    (wd_rain1h w = 0 ∨ (1 # 10 <= wd_rain1h w ∧ wd_rain1h w <= 5)).
Proof.
  intros Hrnd.
  pose proof (Hrnd 0%nat) as [? ?]. pose proof (Hrnd 1%nat) as [? ?].
  pose proof (Hrnd 2%nat) as [? ?]. pose proof (Hrnd 3%nat) as [? ?].
  pose proof (Hrnd 4%nat) as [? ?]. pose proof (Hrnd 6%nat) as [? ?].
  eexists. split; [reflexivity|].
  unfold weatherData, mbind, rand_bind.
  rewrite !getRandomValue_run. unfold getRandomWeather, mbind, rand_bind, Math_random.
  cbn [fst snd Nat.eqb mret rand_ret].
  destruct (negb (Qle_bool (rnd 5%nat) (7 # 10))) eqn:Hrain;
    [rewrite getRandomValue_run|];
    cbn [fst snd Nat.eqb mret rand_ret wd_tempC wd_humidity wd_pressure
         wd_windSpeed wd_weather wd_rain1h].
  all: split; [apply (Math_round_range 15 30); [reflexivity | reflexivity | lra..]|].
  all: split; [apply (Math_round_range 40 80); [reflexivity | reflexivity | lra..]|].
  all: split; [apply (Math_round_range 1000 1020); [reflexivity | reflexivity | lra..]|].
  all: split; [apply (toFixed1_range 50 200); [reflexivity | reflexivity | lra..]|].
  all: split; [apply (at_index_draw conditions (rnd 4%nat)); done|].
  - right. apply (toFixed1_range 1 50); [reflexivity | reflexivity | lra..].
  - by left.
Qed.

Lemma getWeatherData_in_range_witness :
  ∃ w, getWeatherData (125 # 10) (-3) Examples.halves = Settles 0 (Return w) ∧
       wd_rain1h w = 0.
Proof.
  destruct (getWeatherData_in_range (125 # 10) (-3) Examples.halves)
    as (w & Hw & _).
  - intros i. unfold Examples.halves. split; [discriminate | reflexivity].
  - exists w. split; [exact Hw|].
    vm_compute in Hw. injection Hw as <-. reflexivity.
Defined.

End draws.

End APIExtras.
